(** * Token-budget analyzer: caches, category analyzers, aggregation

    A shallow embedding of [scripts/context-analyzer.js] (the full
    [ContextAnalyzer] class and the simplified analyzer, the script that the
    command wrapper runs) and of the result cache of
    [scripts/context-cmd.js].

    Conventions of the embedding:
    - a JavaScript number that the code only ever produces as an integer is
      a [Z]; a slot that can also hold [NaN] or [undefined] is a [jsval];
    - [Date.now()] readings are [Z] (milliseconds);
    - a string is a Rocq [string], one character per UTF-16 code unit, so
      that [String.length] is the [.length] of the source;
    - an object literal used as a dictionary is a [gmap string _] of its own
      properties, read through [js_get], which also sees the properties
      every object literal inherits from [Object.prototype];
    - the [Map] of the file cache is an insertion-ordered association list
      with unique keys ([jsmap]);
    - the file system and the timers are inputs of the model ([Env.t]). *)

From Stdlib Require Import ZArith QArith Qround Lia Permutation Sorted.
From stdpp Require Import gmap strings list fin_maps sorting.

Local Open Scope Z_scope.

(** ** JavaScript values *)

(** What a numeric slot of the result object can hold. *)
Inductive jsval : Type :=
| VNum (z : Z)
| VNaN
| VUndefined.

Global Instance jsval_eq_dec : EqDecision jsval.
Proof. solve_decision. Defined.

(** [a + b] on numeric slots: [ToNumber(undefined)] is [NaN], and [NaN]
    absorbs. *)
Definition js_add (a b : jsval) : jsval :=
  match a, b with
  | VNum x, VNum y => VNum (x + y)
  | _, _ => VNaN
  end.

(** [a > n] for a numeric literal [n]: every comparison with [NaN] is false. *)
Definition js_gt (a : jsval) (n : Z) : bool :=
  match a with
  | VNum x => n <? x
  | _ => false
  end.

Definition is_integer (a : jsval) : Prop :=
  match a with
  | VNum _ => True
  | _ => False
  end.

(** Truthiness of a slot that is [null] or a number. *)
Definition truthy_num (o : option Z) : bool :=
  match o with
  | Some z => negb (z =? 0)
  | None => false
  end.

(** ** Strings and paths *)

(** [s.endsWith(suffix)] *)
Definition endsWith (s suffix : string) : bool :=
  let n := String.length s in
  let m := String.length suffix in
  (m <=? n)%nat && String.eqb (String.substring (n - m) m s) suffix.

(** [path.join(dir, name)] for a plain entry name (no separator, not [.]
    or [..]), which is what [readdir] returns and what the literals
    ['agents'], ['CLAUDE.md'] are. *)
Definition path_join (dir name : string) : string :=
  (dir +:+ "/" +:+ name)%string.

(** ** Token estimator *)

(** [const estimateTokens = (text) => Math.ceil(text.length / 4);]
    The quotient is taken in the rationals: dividing an integer below 2^53
    by 4 is exact in binary floating point. *)
Definition estimateTokens (text : string) : Z :=
  Qceiling (inject_Z (Z.of_nat (String.length text)) / inject_Z 4)%Q.

(** ** The [Map] of the file cache *)

Definition jsmap (V : Type) : Type := list (string * V).

Section JsMap.
Context {V : Type}.

(** [m.get(k)] *)
Fixpoint map_get (k : string) (m : jsmap V) : option V :=
  match m with
  | [] => None
  | (k', v) :: m' => if String.eqb k k' then Some v else map_get k m'
  end.

(** [m.set(k, v)]: an existing key keeps its position, a new key goes
    last. *)
Fixpoint map_set (k : string) (v : V) (m : jsmap V) : jsmap V :=
  match m with
  | [] => [(k, v)]
  | (k', v') :: m' =>
      if String.eqb k k' then (k, v) :: m' else (k', v') :: map_set k v m'
  end.

(** [m.delete(k)] *)
Definition map_delete (k : string) (m : jsmap V) : jsmap V :=
  List.filter (fun kv => negb (String.eqb k (fst kv))) m.

Definition map_size (m : jsmap V) : Z := Z.of_nat (length m).

Definition map_keys (m : jsmap V) : list string := fst <$> m.
End JsMap.

(** ** [Array.prototype.sort] and [slice] *)

Section JsArray.
Context {A : Type}.

(** Insert [x], which stood before every element of the sorted list [l]
    in the original array, keeping it in front of the elements it does not
    compare greater than. *)
Fixpoint sort_insert (cmp : A → A → Z) (x : A) (l : list A) : list A :=
  match l with
  | [] => [x]
  | y :: l' =>
      if cmp x y <=? 0 then x :: y :: l' else y :: sort_insert cmp x l'
  end.

(** [arr.sort(cmp)]: the sort of the language is stable, so for a
    consistent comparator its result is the one of this insertion sort. *)
Definition js_sort (cmp : A → A → Z) (l : list A) : list A :=
  List.fold_right (sort_insert cmp) [] l.

(** [arr.slice(-n)]: the last [n] elements, the whole array when it is
    shorter. *)
Definition slice_last (n : nat) (l : list A) : list A :=
  List.skipn (length l - n)%nat l.

(** [arr.slice(0, n)] *)
Definition slice_first (n : nat) (l : list A) : list A :=
  List.firstn n l.
End JsArray.

(** ** The module-level cache object *)

Module Entry.
(** [{ tokens, timestamp: Date.now() }] *)
Record t : Type := mk { tokens : Z; timestamp : Z }.
End Entry.

(** The cached pieces of one analysis. *)
Module McpCache.
Record t : Type := mk {
  total : jsval;
  breakdown : gmap string jsval;
  detailed : gmap string (option (list (string * Z)))
  }.
End McpCache.

Module AgentsCache.
Record t : Type := mk {
  total : Z;
  breakdown : gmap string Z
  }.
End AgentsCache.

Module Cache.
Record t : Type := mk {
  mcpTools : option McpCache.t;
  customAgents : option AgentsCache.t;
  memoryFiles : option Z;
  timestamp : option Z;
  projectPath : option string;
  fileCache : jsmap Entry.t
  }.

(** [ttl: 300000], [fileCacheTtl: 600000]: never assigned after the
    object literal. *)
Definition ttl : Z := 300000.
Definition fileCacheTtl : Z := 600000.

(** The cache at process start. *)
Definition empty : t := mk None None None None None [].
End Cache.

(** [isCacheValid(projectPath)] at clock reading [now], for the path of a
    resolved project. *)
Definition isCacheValid (c : Cache.t) (now : Z) (projectPath : string) : bool :=
  truthy_num (Cache.timestamp c)
  && bool_decide (Cache.projectPath c = Some projectPath)
  && match Cache.timestamp c with
     | Some ts => now - ts <? Cache.ttl
     | None => false
     end.

(** [isFileCacheValid(filePath)] *)
Definition isFileCacheValid (c : Cache.t) (now : Z) (filePath : string) : bool :=
  match map_get filePath (Cache.fileCache c) with
  | Some entry => now - Entry.timestamp entry <? Cache.fileCacheTtl
  | None => false
  end.

(** The comparator of [cleanupCache]:
    [(a, b) => a[1].timestamp - b[1].timestamp]. *)
Definition by_timestamp (a b : string * Entry.t) : Z :=
  Entry.timestamp (snd a) - Entry.timestamp (snd b).

(** [cleanupCache()] at clock reading [now]. *)
Definition cleanupCache (now : Z) (c : Cache.t) : Cache.t :=
  (* for (const [filePath, entry] of cache.fileCache.entries())
       if ((now - entry.timestamp) > cache.fileCacheTtl) delete *)
  let fc1 :=
    List.fold_left
      (fun m kv =>
         if Cache.fileCacheTtl <? now - Entry.timestamp (snd kv)
         then map_delete (fst kv) m else m)
      (Cache.fileCache c) (Cache.fileCache c) in
  (* if (cache.timestamp && (now - cache.timestamp) > cache.ttl) *)
  let expired :=
    truthy_num (Cache.timestamp c)
    && match Cache.timestamp c with
       | Some ts => Cache.ttl <? now - ts
       | None => false
       end in
  (* if (cache.fileCache.size > 100) *)
  let fc2 :=
    if 100 <? map_size fc1 then
      List.fold_left (fun m kv => map_set (fst kv) (snd kv) m)
        (slice_last 50 (js_sort by_timestamp fc1)) []
    else fc1 in
  if expired then Cache.mk None None None None None fc2
  else Cache.mk (Cache.mcpTools c) (Cache.customAgents c) (Cache.memoryFiles c)
         (Cache.timestamp c) (Cache.projectPath c) fc2.

(** ** Property lookup on object literals *)

(** The property names every object literal inherits from
    [Object.prototype]. Each of them reads as a function or an object: a
    truthy value without [total] or [tools]. *)
Definition object_prototype_keys : list string :=
  ["constructor"; "__defineGetter__"; "__defineSetter__"; "hasOwnProperty";
   "__lookupGetter__"; "__lookupSetter__"; "isPrototypeOf";
   "propertyIsEnumerable"; "toString"; "valueOf"; "__proto__";
   "toLocaleString"]%string.

(** The outcome of [obj[k]] on an object literal [obj]. *)
Inductive property (V : Type) : Type :=
| Own (v : V)
| Inherited
| Absent.
Arguments Own {V} v.
Arguments Inherited {V}.
Arguments Absent {V}.

Definition js_get {V : Type} (obj : gmap string V) (k : string) : property V :=
  match obj !! k with
  | Some v => Own v
  | None =>
      if bool_decide (k ∈ object_prototype_keys) then Inherited else Absent
  end.

(** [obj[k] = v]: an own property, except that assigning to [__proto__]
    never creates one. *)
Definition js_set {V : Type} (k : string) (v : V) (obj : gmap string V) : gmap string V :=
  if String.eqb k "__proto__" then obj else <[k := v]> obj.

(** [Object.keys(obj).length] *)
Definition js_keys_length {V : Type} (obj : gmap string V) : Z :=
  Z.of_nat (size obj).

(** ** The static server tables *)

Module ServerData.
(** [{ total, tools: [{ name, tokens }, ...] }] *)
Record t : Type := mk { total : Z; tools : list (string * Z) }.
End ServerData.

(** [mcpToolsData] of [ContextAnalyzer.analyzeMcpTools]. *)
Definition mcpToolsData : gmap string ServerData.t :=
  list_to_map [
    ("fetch", ServerData.mk 643
       [("mcp__fetch__fetch", 643)]);
    ("sequential-thinking", ServerData.mk 1300
       [("mcp__sequential-thinking__sequentialthinking", 1300)]);
    ("byterover-mcp", ServerData.mk 968
       [("mcp__byterover-mcp__byterover-retrieve-knowledge", 456);
        ("mcp__byterover-mcp__byterover-store-knowledge", 512)]);
    ("puppeteer", ServerData.mk 1815
       [("mcp__puppeteer__puppeteer_navigate", 432);
        ("mcp__puppeteer__puppeteer_screenshot", 398);
        ("mcp__puppeteer__puppeteer_click", 287);
        ("mcp__puppeteer__puppeteer_fill", 298);
        ("mcp__puppeteer__puppeteer_select", 210);
        ("mcp__puppeteer__puppeteer_hover", 190)]);
    ("mcp-playwright", ServerData.mk 15234
       [("mcp__mcp-playwright__start_codegen_session", 567);
        ("mcp__mcp-playwright__playwright_navigate", 456);
        ("mcp__mcp-playwright__playwright_screenshot", 623);
        ("mcp__mcp-playwright__playwright_click", 298);
        ("mcp__mcp-playwright__playwright_fill", 289);
        ("mcp__mcp-playwright__playwright_evaluate", 334);
        ("mcp__mcp-playwright__playwright_console_logs", 445);
        ("mcp__mcp-playwright__playwright_get_visible_text", 234);
        ("mcp__mcp-playwright__playwright_get_visible_html", 523);
        ("mcp__mcp-playwright__playwright_upload_file", 387);
        ("mcp__mcp-playwright__playwright_drag", 298);
        ("mcp__mcp-playwright__playwright_press_key", 267);
        ("mcp__mcp-playwright__playwright_save_as_pdf", 445);
        ("mcp__mcp-playwright__playwright_get", 198);
        ("mcp__mcp-playwright__playwright_post", 234);
        ("mcp__mcp-playwright__playwright_put", 187);
        ("mcp__mcp-playwright__playwright_delete", 156);
        ("mcp__mcp-playwright__playwright_expect_response", 387);
        ("mcp__mcp-playwright__playwright_assert_response", 334);
        ("mcp__mcp-playwright__playwright_close", 123)]);
    ("everything", ServerData.mk 2167
       [("mcp__everything__echo", 198);
        ("mcp__everything__add", 156);
        ("mcp__everything__longRunningOperation", 387);
        ("mcp__everything__printEnv", 167);
        ("mcp__everything__sampleLLM", 298);
        ("mcp__everything__getTinyImage", 134);
        ("mcp__everything__annotatedMessage", 445);
        ("mcp__everything__getResourceReference", 382)]);
    ("github-official", ServerData.mk 12456
       [("mcp__github-official__create_or_update_file", 567);
        ("mcp__github-official__search_repositories", 434);
        ("mcp__github-official__create_repository", 398);
        ("mcp__github-official__get_file_contents", 445);
        ("mcp__github-official__push_files", 512);
        ("mcp__github-official__create_issue", 389);
        ("mcp__github-official__create_pull_request", 623);
        ("mcp__github-official__fork_repository", 334);
        ("mcp__github-official__create_branch", 387);
        ("mcp__github-official__list_commits", 298);
        ("mcp__github-official__list_issues", 456);
        ("mcp__github-official__update_issue", 423);
        ("mcp__github-official__add_issue_comment", 287);
        ("mcp__github-official__search_code", 345);
        ("mcp__github-official__search_issues", 367);
        ("mcp__github-official__search_users", 298);
        ("mcp__github-official__get_issue", 234);
        ("mcp__github-official__get_pull_request", 267);
        ("mcp__github-official__list_pull_requests", 489);
        ("mcp__github-official__create_pull_request_review", 678);
        ("mcp__github-official__merge_pull_request", 456);
        ("mcp__github-official__get_pull_request_files", 334);
        ("mcp__github-official__get_pull_request_status", 298);
        ("mcp__github-official__update_pull_request_branch", 387);
        ("mcp__github-official__get_pull_request_comments", 345);
        ("mcp__github-official__get_pull_request_reviews", 323)]);
    ("mcp-filesystem", ServerData.mk 4234
       [("mcp__mcp-filesystem__read_file", 456);
        ("mcp__mcp-filesystem__read_multiple_files", 523);
        ("mcp__mcp-filesystem__write_file", 398);
        ("mcp__mcp-filesystem__edit_file", 623);
        ("mcp__mcp-filesystem__create_directory", 367);
        ("mcp__mcp-filesystem__list_directory", 423);
        ("mcp__mcp-filesystem__list_directory_with_sizes", 489);
        ("mcp__mcp-filesystem__directory_tree", 445);
        ("mcp__mcp-filesystem__move_file", 298);
        ("mcp__mcp-filesystem__search_files", 387);
        ("mcp__mcp-filesystem__get_file_info", 334);
        ("mcp__mcp-filesystem__list_allowed_directories", 191)]);
    ("context7-mcp", ServerData.mk 1023
       [("mcp__context7-mcp__resolve-library-id", 567);
        ("mcp__context7-mcp__get-library-docs", 456)]);
    ("brave-search", ServerData.mk 823
       [("mcp__brave-search__brave_web_search", 434);
        ("mcp__brave-search__brave_local_search", 389)]);
    ("deep-code-reasoning", ServerData.mk 4267
       [("mcp__deep-code-reasoning__escalate_analysis", 678);
        ("mcp__deep-code-reasoning__trace_execution_path", 534);
        ("mcp__deep-code-reasoning__hypothesis_test", 456);
        ("mcp__deep-code-reasoning__cross_system_impact", 523);
        ("mcp__deep-code-reasoning__performance_bottleneck", 445);
        ("mcp__deep-code-reasoning__start_conversation", 389);
        ("mcp__deep-code-reasoning__continue_conversation", 334);
        ("mcp__deep-code-reasoning__finalize_conversation", 267);
        ("mcp__deep-code-reasoning__get_conversation_status", 234);
        ("mcp__deep-code-reasoning__run_hypothesis_tournament", 407)]);
    ("supabase", ServerData.mk 14567
       [("mcp__supabase__list_organizations", 298);
        ("mcp__supabase__get_organization", 267);
        ("mcp__supabase__list_projects", 234);
        ("mcp__supabase__get_project", 198);
        ("mcp__supabase__get_cost", 345);
        ("mcp__supabase__confirm_cost", 367);
        ("mcp__supabase__create_project", 567);
        ("mcp__supabase__pause_project", 189);
        ("mcp__supabase__restore_project", 198);
        ("mcp__supabase__create_branch", 434);
        ("mcp__supabase__list_branches", 334);
        ("mcp__supabase__delete_branch", 187);
        ("mcp__supabase__merge_branch", 198);
        ("mcp__supabase__reset_branch", 267);
        ("mcp__supabase__rebase_branch", 234);
        ("mcp__supabase__list_tables", 389);
        ("mcp__supabase__list_extensions", 267);
        ("mcp__supabase__list_migrations", 298);
        ("mcp__supabase__apply_migration", 456);
        ("mcp__supabase__execute_sql", 445);
        ("mcp__supabase__get_logs", 387);
        ("mcp__supabase__get_advisors", 423);
        ("mcp__supabase__get_project_url", 178);
        ("mcp__supabase__get_anon_key", 167);
        ("mcp__supabase__generate_typescript_types", 298);
        ("mcp__supabase__search_docs", 1234);
        ("mcp__supabase__list_edge_functions", 234);
        ("mcp__supabase__deploy_edge_function", 623)]);
    ("zen-mcp-server", ServerData.mk 20456
       [("mcp__zen__chat", 1234);
        ("mcp__zen__thinkdeep", 1456);
        ("mcp__zen__planner", 1123);
        ("mcp__zen__consensus", 1089);
        ("mcp__zen__codereview", 1345);
        ("mcp__zen__precommit", 1234);
        ("mcp__zen__debug", 1456);
        ("mcp__zen__secaudit", 1289);
        ("mcp__zen__docgen", 1123);
        ("mcp__zen__analyze", 1234);
        ("mcp__zen__refactor", 1089);
        ("mcp__zen__tracer", 1345);
        ("mcp__zen__testgen", 1234);
        ("mcp__zen__challenge", 389);
        ("mcp__zen__listmodels", 234);
        ("mcp__zen__version", 156)]);
    ("claude-flow_Docs", ServerData.mk 1234
       [("mcp__claude-flow_Docs__fetch_claude_flow_documentation", 298);
        ("mcp__claude-flow_Docs__search_claude_flow_documentation", 345);
        ("mcp__claude-flow_Docs__search_claude_flow_code", 367);
        ("mcp__claude-flow_Docs__fetch_generic_url_content", 224)]);
    ("perplexity-mcp", ServerData.mk 345
       [("mcp__perplexity-mcp__perplexity_search_web", 345)]);
    ("Prisma-Local", ServerData.mk 1123
       [("mcp__Prisma-Local__migrate-status", 367);
        ("mcp__Prisma-Local__migrate-dev", 423);
        ("mcp__Prisma-Local__migrate-reset", 333)]);
    ("firecrawl", ServerData.mk 6756
       [("mcp__firecrawl__firecrawl_scrape", 1534);
        ("mcp__firecrawl__firecrawl_map", 738);
        ("mcp__firecrawl__firecrawl_crawl", 1634);
        ("mcp__firecrawl__firecrawl_check_crawl_status", 507);
        ("mcp__firecrawl__firecrawl_search", 1298);
        ("mcp__firecrawl__firecrawl_extract", 1045)]);
    ("BMAD-METHOD DOCS", ServerData.mk 1456
       [("mcp__BMAD-METHOD_Docs__fetch_BMAD_METHOD_documentation", 423);
        ("mcp__BMAD-METHOD_Docs__search_BMAD_METHOD_documentation", 456);
        ("mcp__BMAD-METHOD_Docs__search_BMAD_METHOD_code", 387);
        ("mcp__BMAD-METHOD_Docs__fetch_generic_url_content", 190)]);
    ("awesome-ui-component-library Docs", ServerData.mk 1234
       [("mcp__awesome-ui-component-library_Docs__fetch_awesome_docs", 334);
        ("mcp__awesome-ui-component-library_Docs__search_repo_docs", 387);
        ("mcp__awesome-ui-component-library_Docs__search_repo_code", 298);
        ("mcp__awesome-ui-component-library_Docs__fetch_generic_url_content", 215)])
  ].

(** [mcpServers] of the simplified analyzer. *)
Definition mcpServers : gmap string ServerData.t :=
  list_to_map [
    ("fetch", ServerData.mk 643
       [("mcp__fetch__fetch", 643)]);
    ("sequential-thinking", ServerData.mk 1300
       [("mcp__sequential-thinking__sequentialthinking", 1300)]);
    ("puppeteer", ServerData.mk 3415
       [("mcp__puppeteer__puppeteer_navigate", 490);
        ("mcp__puppeteer__puppeteer_screenshot", 506);
        ("mcp__puppeteer__puppeteer_click", 395);
        ("mcp__puppeteer__puppeteer_fill", 414);
        ("mcp__puppeteer__puppeteer_select", 419);
        ("mcp__puppeteer__puppeteer_hover", 396);
        ("mcp__puppeteer__puppeteer_evaluate", 393)]);
    ("mcp-playwright", ServerData.mk 12456
       [("mcp__mcp-playwright__start_codegen_session", 498);
        ("mcp__mcp-playwright__playwright_navigate", 557);
        ("mcp__mcp-playwright__playwright_screenshot", 573);
        ("mcp__mcp-playwright__playwright_click", 395);
        ("mcp__mcp-playwright__playwright_fill", 413);
        ("mcp__mcp-playwright__playwright_evaluate", 392);
        ("mcp__mcp-playwright__playwright_console_logs", 509);
        ("mcp__mcp-playwright__playwright_get_visible_text", 380);
        ("mcp__mcp-playwright__playwright_get_visible_html", 613);
        ("mcp__mcp-playwright__playwright_close", 374);
        ("mcp__mcp-playwright__playwright_get", 393);
        ("mcp__mcp-playwright__playwright_post", 470);
        ("mcp__mcp-playwright__playwright_put", 417);
        ("mcp__mcp-playwright__playwright_delete", 393);
        ("mcp__mcp-playwright__playwright_expect_response", 457);
        ("mcp__mcp-playwright__playwright_assert_response", 455);
        ("mcp__mcp-playwright__playwright_custom_user_agent", 405);
        ("mcp__mcp-playwright__playwright_go_back", 374);
        ("mcp__mcp-playwright__playwright_go_forward", 374);
        ("mcp__mcp-playwright__playwright_drag", 425);
        ("mcp__mcp-playwright__playwright_press_key", 433);
        ("mcp__mcp-playwright__playwright_save_as_pdf", 541);
        ("mcp__mcp-playwright__playwright_click_and_switch_tab", 405)]);
    ("everything", ServerData.mk 2167
       [("mcp__everything__echo", 198);
        ("mcp__everything__add", 156);
        ("mcp__everything__longRunningOperation", 387);
        ("mcp__everything__printEnv", 167);
        ("mcp__everything__sampleLLM", 298);
        ("mcp__everything__getTinyImage", 134);
        ("mcp__everything__annotatedMessage", 445);
        ("mcp__everything__getResourceReference", 382)]);
    ("github-official", ServerData.mk 12456
       [("mcp__github-official__create_or_update_file", 570);
        ("mcp__github-official__search_repositories", 474);
        ("mcp__github-official__create_repository", 477);
        ("mcp__github-official__get_file_contents", 492);
        ("mcp__github-official__push_files", 574);
        ("mcp__github-official__create_issue", 498);
        ("mcp__github-official__create_pull_request", 596);
        ("mcp__github-official__fork_repository", 471);
        ("mcp__github-official__create_branch", 497);
        ("mcp__github-official__list_commits", 458);
        ("mcp__github-official__list_issues", 541);
        ("mcp__github-official__update_issue", 531);
        ("mcp__github-official__add_issue_comment", 455);
        ("mcp__github-official__search_code", 469);
        ("mcp__github-official__search_issues", 533);
        ("mcp__github-official__search_users", 490);
        ("mcp__github-official__get_issue", 443);
        ("mcp__github-official__get_pull_request", 468);
        ("mcp__github-official__list_pull_requests", 632);
        ("mcp__github-official__create_pull_request_review", 804);
        ("mcp__github-official__merge_pull_request", 550);
        ("mcp__github-official__get_pull_request_files", 473);
        ("mcp__github-official__get_pull_request_status", 475);
        ("mcp__github-official__update_pull_request_branch", 505);
        ("mcp__github-official__get_pull_request_comments", 471);
        ("mcp__github-official__get_pull_request_reviews", 470)]);
    ("mcp-filesystem", ServerData.mk 4234
       [("mcp__mcp-filesystem__read_file", 456);
        ("mcp__mcp-filesystem__read_multiple_files", 523);
        ("mcp__mcp-filesystem__write_file", 398);
        ("mcp__mcp-filesystem__edit_file", 623);
        ("mcp__mcp-filesystem__create_directory", 367);
        ("mcp__mcp-filesystem__list_directory", 423);
        ("mcp__mcp-filesystem__directory_tree", 445);
        ("mcp__mcp-filesystem__move_file", 298);
        ("mcp__mcp-filesystem__search_files", 387);
        ("mcp__mcp-filesystem__get_file_info", 334)]);
    ("context7-mcp", ServerData.mk 1023
       [("mcp__context7-mcp__resolve-library-id", 567);
        ("mcp__context7-mcp__get-library-docs", 456)]);
    ("brave-search", ServerData.mk 823
       [("mcp__brave-search__brave_web_search", 434);
        ("mcp__brave-search__brave_local_search", 389)]);
    ("deep-code-reasoning", ServerData.mk 4267
       [("mcp__deep-code-reasoning__escalate_analysis", 678);
        ("mcp__deep-code-reasoning__trace_execution_path", 534);
        ("mcp__deep-code-reasoning__hypothesis_test", 456);
        ("mcp__deep-code-reasoning__cross_system_impact", 523);
        ("mcp__deep-code-reasoning__performance_bottleneck", 445);
        ("mcp__deep-code-reasoning__start_conversation", 389);
        ("mcp__deep-code-reasoning__continue_conversation", 334);
        ("mcp__deep-code-reasoning__finalize_conversation", 267)]);
    ("supabase", ServerData.mk 14567
       [("mcp__supabase__list_organizations", 298);
        ("mcp__supabase__get_organization", 267);
        ("mcp__supabase__list_projects", 234);
        ("mcp__supabase__create_project", 567);
        ("mcp__supabase__execute_sql", 445);
        ("mcp__supabase__search_docs", 1234);
        ("mcp__supabase__deploy_edge_function", 623)]);
    ("perplexity-mcp", ServerData.mk 345
       [("mcp__perplexity-mcp__perplexity_search_web", 345)]);
    ("firecrawl", ServerData.mk 6756
       [("mcp__firecrawl__firecrawl_scrape", 1534);
        ("mcp__firecrawl__firecrawl_crawl", 1634);
        ("mcp__firecrawl__firecrawl_search", 1298)]);
    ("awesome-ui-component-library Docs", ServerData.mk 1234
       [("mcp__awesome-ui-component-library_Docs__fetch_awesome_docs", 334);
        ("mcp__awesome-ui-component-library_Docs__search_repo_docs", 387);
        ("mcp__awesome-ui-component-library_Docs__search_repo_code", 298);
        ("mcp__awesome-ui-component-library_Docs__fetch_generic_url_content", 215)]);
    ("BMAD-METHOD DOCS", ServerData.mk 1456
       [("mcp__BMAD-METHOD_Docs__fetch_BMAD_METHOD_documentation", 423);
        ("mcp__BMAD-METHOD_Docs__search_BMAD_METHOD_documentation", 456);
        ("mcp__BMAD-METHOD_Docs__search_BMAD_METHOD_code", 387);
        ("mcp__BMAD-METHOD_Docs__fetch_generic_url_content", 190)])
  ].

(** ** The result object *)

Inductive impact_tier : Type := high | medium.

Global Instance impact_tier_eq_dec : EqDecision impact_tier.
Proof. solve_decision. Defined.

Module Recommendation.
(** [{ impact, title, description, savings }] *)
Record t : Type := mk {
  impact : impact_tier;
  title : string;
  description : string;
  savings : string
}.
End Recommendation.

Global Instance recommendation_eq_dec : EqDecision Recommendation.t.
Proof. solve_decision. Defined.

Module Breakdown.
(** [results.breakdown]: starts as [{}], each property is [undefined]
    ([None]) until an analyzer assigns it. A breakdown value or a detailed
    tool list can itself be [undefined]. *)
Record t : Type := mk {
  mcpServers : option (gmap string jsval);
  mcpToolsDetailed : option (gmap string (option (list (string * Z))));
  agents : option (gmap string Z)
}.

Definition empty : t := mk None None None.
End Breakdown.

Module Results.
Record t : Type := mk {
  systemPrompt : jsval;
  systemTools : jsval;
  mcpTools : jsval;
  customAgents : jsval;
  memoryFiles : jsval;
  total : jsval;
  breakdown : Breakdown.t;
  optimization : list Recommendation.t;
  projectPath : option string
}.

(** [this.results] as the constructor builds it. *)
Definition initial (projectRoot : option string) : t :=
  mk (VNum 0) (VNum 0) (VNum 0) (VNum 0) (VNum 0) (VNum 0)
     Breakdown.empty [] projectRoot.

Definition set_systemPrompt (v : jsval) (r : t) : t :=
  mk v (systemTools r) (mcpTools r) (customAgents r) (memoryFiles r) (total r)
     (breakdown r) (optimization r) (projectPath r).

Definition set_systemTools (v : jsval) (r : t) : t :=
  mk (systemPrompt r) v (mcpTools r) (customAgents r) (memoryFiles r) (total r)
     (breakdown r) (optimization r) (projectPath r).

Definition set_mcpTools (v : jsval) (r : t) : t :=
  mk (systemPrompt r) (systemTools r) v (customAgents r) (memoryFiles r)
     (total r) (breakdown r) (optimization r) (projectPath r).

Definition set_customAgents (v : jsval) (r : t) : t :=
  mk (systemPrompt r) (systemTools r) (mcpTools r) v (memoryFiles r) (total r)
     (breakdown r) (optimization r) (projectPath r).

Definition set_memoryFiles (v : jsval) (r : t) : t :=
  mk (systemPrompt r) (systemTools r) (mcpTools r) (customAgents r) v (total r)
     (breakdown r) (optimization r) (projectPath r).

Definition set_total (v : jsval) (r : t) : t :=
  mk (systemPrompt r) (systemTools r) (mcpTools r) (customAgents r)
     (memoryFiles r) v (breakdown r) (optimization r) (projectPath r).

Definition set_breakdown (b : Breakdown.t) (r : t) : t :=
  mk (systemPrompt r) (systemTools r) (mcpTools r) (customAgents r)
     (memoryFiles r) (total r) b (optimization r) (projectPath r).

Definition set_optimization (o : list Recommendation.t) (r : t) : t :=
  mk (systemPrompt r) (systemTools r) (mcpTools r) (customAgents r)
     (memoryFiles r) (total r) (breakdown r) o (projectPath r).

Definition set_projectPath (p : option string) (r : t) : t :=
  mk (systemPrompt r) (systemTools r) (mcpTools r) (customAgents r)
     (memoryFiles r) (total r) (breakdown r) (optimization r) p.

(** [breakdown.mcpServers = b; breakdown.mcpToolsDetailed = d] *)
Definition set_mcp_breakdown (b : gmap string jsval)
    (d : gmap string (option (list (string * Z)))) (r : t) : t :=
  set_breakdown
    (Breakdown.mk (Some b) (Some d) (Breakdown.agents (breakdown r))) r.

(** [breakdown.agents = a] *)
Definition set_agents_breakdown (a : gmap string Z) (r : t) : t :=
  set_breakdown
    (Breakdown.mk (Breakdown.mcpServers (breakdown r))
       (Breakdown.mcpToolsDetailed (breakdown r)) (Some a)) r.

(** [systemPrompt + systemTools + mcpTools + customAgents + memoryFiles],
    left to right. *)
Definition sum_of_categories (r : t) : jsval :=
  js_add (js_add (js_add (js_add (systemPrompt r) (systemTools r)) (mcpTools r))
            (customAgents r)) (memoryFiles r).
End Results.

(** ** The environment of one run *)

Module Project.
(** A resolved project: the [.claude] directory and its [path.dirname]. *)
Record t : Type := mk { claudeDir : string; projectRoot : string }.
End Project.

(** What [JSON.parse] of a settings file gives, as far as the analyzers
    look at it. *)
Inductive settings_value : Type :=
| SettingsNull
    (* the document is [null]: reading a property of it is a TypeError *)
| EnabledServers (names : list string)
    (* [settings.enabledMcpjsonServers || []] is an array; its elements are
       taken as the property keys they are used as *)
| EnabledNotIterable.
    (* a truthy value that can be neither iterated nor [forEach]-ed *)

(** What [fs.access] then [fs.readdir] give for the agents directory. *)
Inductive dir_read : Type :=
| DirMissing                       (* [access] rejects *)
| DirUnlistable                    (* [access] resolves, [readdir] rejects *)
| DirListing (files : list string).

Module Env.
Record t : Type := mk {
  (* [findClaudeDirectory()]: [null] when no project is found *)
  discovered : option Project.t;
  (* [Date.now()] in [cleanupCache], at the launch of the analyzers, when
     the MCP result is cached, around the read of an agent file, when the
     memory file is cached *)
  now_cleanup : Z;
  now_launch : Z;
  now_mcp : Z;
  now_file : string → Z;
  now_memory : Z;
  (* [JSON.parse(await fs.readFile(...))] of the project and of the global
     settings file: [None] when the read or the parse throws *)
  localSettings : option settings_value;
  globalSettings : option settings_value;
  agentsDir : dir_read;
  (* the read of an agent file, by name: [None] on an error or when the
     5-second timer wins *)
  readAgent : string → option string;
  (* the read of [CLAUDE.md]: [None] on an error or when the 3-second timer
     wins *)
  readMemory : option string;
  (* which analyzers have not settled when the 3-second timer of [analyze]
     fires; for the agents, with the number of listed files done by then.
     The memory analyzer has always settled: the 3-second timer of its read
     is set before the timer of [analyze] and fires first *)
  mcp_pending : bool;
  agents_pending : option nat
}.
End Env.

(** ** Completions and the state of a run *)

Inductive completion (A : Type) : Type :=
| Normal (a : A)
| Throw (message : string).
Arguments Normal {A} a.
Arguments Throw {A} message.

Module St.
(** What the methods of an analyzer read and write: [this.results] and the
    module-level [cache]. *)
Record t : Type := mk { results : Results.t; cache : Cache.t }.
End St.

(** A method body: it ends normally or throws, and in both cases leaves a
    state behind. *)
Definition M (A : Type) : Type := St.t → completion A * St.t.

Global Instance M_ret : MRet M := λ A a s, (Normal a, s).

Global Instance M_bind : MBind M := λ A B f m s,
  match m s with
  | (Normal a, s') => f a s'
  | (Throw msg, s') => (Throw msg, s')
  end.

Definition throw {A : Type} (message : string) : M A :=
  λ s, (Throw message, s).

(** [try { body } catch (error) { handler }] *)
Definition try_catch {A : Type} (body : M A) (handler : string → M A) : M A :=
  λ s,
    match body s with
    | (Normal a, s') => (Normal a, s')
    | (Throw msg, s') => handler msg s'
    end.

Definition get_cache : M Cache.t := λ s, (Normal (St.cache s), s).

Definition get_results : M Results.t := λ s, (Normal (St.results s), s).

Definition modify_results (f : Results.t → Results.t) : M unit :=
  λ s, (Normal tt, St.mk (f (St.results s)) (St.cache s)).

Definition modify_cache (f : Cache.t → Cache.t) : M unit :=
  λ s, (Normal tt, St.mk (St.results s) (f (St.cache s))).

(** An awaited operation of the environment that rejects when it has no
    value. *)
Definition await {A : Type} (message : string) (o : option A) : M A :=
  match o with
  | Some a => mret a
  | None => throw message
  end.

Fixpoint foldM {A B : Type} (f : B → A → M B) (b : B) (l : list A) : M B :=
  match l with
  | [] => mret b
  | a :: l' => b' ← f b a; foldM f b' l'
  end.

(** ** The MCP loop, shared by both analyzers *)

(** One turn of [for (const server of enabledServers)]: the accumulated
    [mcpTotal], [breakdown] and [detailed]. *)
Definition mcp_step (table : gmap string ServerData.t)
    (acc : McpCache.t) (server : string) : McpCache.t :=
  match js_get table server with
  | Own serverData =>
      (* if (mcpToolsData[server]) *)
      McpCache.mk
        (js_add (McpCache.total acc) (VNum (ServerData.total serverData)))
        (js_set server (VNum (ServerData.total serverData))
           (McpCache.breakdown acc))
        (js_set server (Some (ServerData.tools serverData))
           (McpCache.detailed acc))
  | Inherited =>
      (* the same branch, on a value whose [total] and [tools] are
         [undefined] *)
      McpCache.mk
        (js_add (McpCache.total acc) VUndefined)
        (js_set server VUndefined (McpCache.breakdown acc))
        (js_set server None (McpCache.detailed acc))
  | Absent =>
      (* Default estimate for unknown servers *)
      let tokens := 2000 in
      McpCache.mk
        (js_add (McpCache.total acc) (VNum tokens))
        (js_set server (VNum tokens) (McpCache.breakdown acc))
        (js_set server
           (Some [(("mcp__" +:+ server +:+ "__unknown")%string, tokens)])
           (McpCache.detailed acc))
  end.

Definition mcp_loop (table : gmap string ServerData.t)
    (enabledServers : list string) : McpCache.t :=
  List.fold_left (mcp_step table) enabledServers (McpCache.mk (VNum 0) ∅ ∅).

(** ** The category analyzers of [ContextAnalyzer] *)

(** Each of the three analyzers that read files starts with a part that runs
    when it is called ([_sync], which answers whether the method has returned
    already) and goes on after its first [await] ([_async]). *)

Section ContextAnalyzer.
Variable e : Env.t.
Variable p : Project.t.

Definition analyzeSystemPrompt : M unit :=
  modify_results (Results.set_systemPrompt (VNum 8500)).

Definition analyzeSystemTools : M unit :=
  modify_results (Results.set_systemTools (VNum 15200)).

Definition analyzeMcpTools_sync : M bool :=
  c ← get_cache;
  (* if (isCacheValid(this.projectRoot) && cache.mcpTools) *)
  if isCacheValid c (Env.now_launch e) (Project.projectRoot p) then
    match Cache.mcpTools c with
    | Some cached =>
        modify_results (Results.set_mcpTools (McpCache.total cached));;
        modify_results
          (Results.set_mcp_breakdown (McpCache.breakdown cached)
             (McpCache.detailed cached));;
        mret true
    | None => mret false
    end
  else mret false.

(** [settings.enabledMcpjsonServers || []], then the start of the loop over
    it. *)
Definition enabledMcpjsonServers (settings : settings_value) : M (list string) :=
  match settings with
  | SettingsNull => throw "TypeError: cannot read properties of null"
  | EnabledServers names => mret names
  | EnabledNotIterable => throw "TypeError: enabledServers is not iterable"
  end.

Definition analyzeMcpTools_async : M unit :=
  try_catch
    (settings ←
       try_catch
         (await "settings.local.json: read or parse error" (Env.localSettings e))
         (λ _,
            (* Fall back to global settings *)
            await "global settings.local.json: read or parse error"
              (Env.globalSettings e));
     enabledServers ← enabledMcpjsonServers settings;
     let m := mcp_loop mcpToolsData enabledServers in
     modify_results (Results.set_mcpTools (McpCache.total m));;
     modify_results
       (Results.set_mcp_breakdown (McpCache.breakdown m) (McpCache.detailed m));;
     (* Cache the results *)
     modify_cache
       (λ c, Cache.mk (Some m) (Cache.customAgents c) (Cache.memoryFiles c)
               (Some (Env.now_mcp e)) (Some (Project.projectRoot p))
               (Cache.fileCache c)))
    (λ _, modify_results (Results.set_mcpTools (VNum 120000))).

Definition analyzeMcpTools : M unit :=
  returned ← analyzeMcpTools_sync;
  if returned : bool then mret tt else analyzeMcpTools_async.

Definition analyzeCustomAgents_sync : M bool :=
  c ← get_cache;
  (* if (isCacheValid(this.projectRoot) && cache.customAgents) *)
  if isCacheValid c (Env.now_launch e) (Project.projectRoot p) then
    match Cache.customAgents c with
    | Some cached =>
        modify_results
          (Results.set_customAgents (VNum (AgentsCache.total cached)));;
        modify_results
          (Results.set_agents_breakdown (AgentsCache.breakdown cached));;
        mret true
    | None => mret false
    end
  else mret false.

(** The callback of [batch.map] on one [file]. [acc] is [totalTokens] and
    [agentBreakdown]. *)
Definition agent_file (agentsDir : string) (acc : Z * gmap string Z)
    (file : string) : M (Z * gmap string Z) :=
  if endsWith file ".md" then
    let filePath := path_join agentsDir file in
    try_catch
      (c ← get_cache;
       if isFileCacheValid c (Env.now_file e file) filePath then
         match map_get filePath (Cache.fileCache c) with
         | Some cachedData =>
             mret (acc.1 + Entry.tokens cachedData,
                   <[file := Entry.tokens cachedData]> acc.2)
         | None => mret acc
         end
       else
         content ← await "File read error or timeout" (Env.readAgent e file);
         let tokens := estimateTokens content in
         (* Cache the file result *)
         modify_cache
           (λ c, Cache.mk (Cache.mcpTools c) (Cache.customAgents c)
                   (Cache.memoryFiles c) (Cache.timestamp c)
                   (Cache.projectPath c)
                   (map_set filePath (Entry.mk tokens (Env.now_file e file))
                      (Cache.fileCache c)));;
         mret (acc.1 + tokens, <[file := tokens]> acc.2))
      (λ _,
         (* Use fallback estimate for unreadable files *)
         let fallbackTokens := 1000 in
         mret (acc.1 + fallbackTokens, <[file := fallbackTokens]> acc.2))
  else mret acc.

(** [for (let i = 0; i < agentFiles.length; i += batchSize)] with
    [batchSize = 5]: [files] is what is left from index [i] on. The reads of
    a batch are started together and each callback goes on when its own read
    completes. The callbacks add to one counter and write different keys of
    the breakdown and different paths of the file cache; the model runs them
    in the order of the listing, which gives the total, the breakdown and
    the entries of the file cache of every order of completion, and of the
    insertion orders of the file cache the one of the listing.
    [fuel] bounds the number of batches. *)
Fixpoint process_batches (fuel : nat) (agentsDir : string)
    (files : list string) (acc : Z * gmap string Z) : M (Z * gmap string Z) :=
  match fuel with
  | O => mret acc
  | S fuel' =>
      match files with
      | [] => mret acc
      | _ :: _ =>
          acc' ← foldM (agent_file agentsDir) acc (slice_first 5 files);
          process_batches fuel' agentsDir (List.skipn 5 files) acc'
      end
  end.

Definition fs_access : M unit :=
  match Env.agentsDir e with
  | DirMissing => throw "ENOENT"
  | _ => mret tt
  end.

Definition fs_readdir : M (list string) :=
  match Env.agentsDir e with
  | DirListing files => mret files
  | _ => throw "readdir failed"
  end.

Definition analyzeCustomAgents_async : M unit :=
  try_catch
    (let agentsDir := path_join (Project.claudeDir p) "agents" in
     (* Check if directory exists *)
     exists_ ←
       try_catch
         (fs_access;; mret true)
         (λ _,
            modify_results (Results.set_customAgents (VNum 0));;
            modify_results (Results.set_agents_breakdown ∅);;
            mret false);
     if exists_ : bool then
       agentFiles ← fs_readdir;
       r ← process_batches (length agentFiles) agentsDir agentFiles (0, ∅);
       modify_results (Results.set_customAgents (VNum r.1));;
       modify_results (Results.set_agents_breakdown r.2);;
       (* Cache the results *)
       modify_cache
         (λ c, Cache.mk (Cache.mcpTools c) (Some (AgentsCache.mk r.1 r.2))
                 (Cache.memoryFiles c) (Cache.timestamp c)
                 (Cache.projectPath c) (Cache.fileCache c))
     else mret tt)
    (λ _, modify_results (Results.set_customAgents (VNum 8900))).

(** The method caught by the deadline of [analyze] inside its loop, with the
    first [n] listed files done: what it has written by then. *)
Definition analyzeCustomAgents_partial (n : nat) : M unit :=
  match Env.agentsDir e with
  | DirListing files =>
      foldM (agent_file (path_join (Project.claudeDir p) "agents")) (0, ∅)
        (slice_first n files);;
      mret tt
  | _ => mret tt
  end.

Definition analyzeCustomAgents : M unit :=
  returned ← analyzeCustomAgents_sync;
  if returned : bool then mret tt else analyzeCustomAgents_async.

Definition analyzeMemoryFiles_sync : M bool :=
  c ← get_cache;
  (* if (isCacheValid(this.projectRoot) && cache.memoryFiles) *)
  if isCacheValid c (Env.now_launch e) (Project.projectRoot p)
     && truthy_num (Cache.memoryFiles c) then
    match Cache.memoryFiles c with
    | Some tokens =>
        modify_results (Results.set_memoryFiles (VNum tokens));; mret true
    | None => mret false
    end
  else
    let claudeMdPath := path_join (Project.claudeDir p) "CLAUDE.md" in
    (* Use file cache to prevent re-reading *)
    if isFileCacheValid c (Env.now_launch e) claudeMdPath then
      match map_get claudeMdPath (Cache.fileCache c) with
      | Some cachedData =>
          modify_results
            (Results.set_memoryFiles (VNum (Entry.tokens cachedData)));;
          modify_cache
            (λ c, Cache.mk (Cache.mcpTools c) (Cache.customAgents c)
                    (Some (Entry.tokens cachedData)) (Cache.timestamp c)
                    (Cache.projectPath c) (Cache.fileCache c));;
          mret true
      | None => mret false
      end
    else mret false.

Definition analyzeMemoryFiles_async : M unit :=
  try_catch
    (let claudeMdPath := path_join (Project.claudeDir p) "CLAUDE.md" in
     content ← await "Memory file read error or timeout" (Env.readMemory e);
     let tokens := estimateTokens content in
     modify_results (Results.set_memoryFiles (VNum tokens));;
     (* Cache the result in both caches *)
     modify_cache
       (λ c, Cache.mk (Cache.mcpTools c) (Cache.customAgents c) (Some tokens)
               (Cache.timestamp c) (Cache.projectPath c)
               (map_set claudeMdPath (Entry.mk tokens (Env.now_memory e))
                  (Cache.fileCache c))))
    (λ _, modify_results (Results.set_memoryFiles (VNum 2700))).

Definition analyzeMemoryFiles : M unit :=
  returned ← analyzeMemoryFiles_sync;
  if returned : bool then mret tt else analyzeMemoryFiles_async.

End ContextAnalyzer.

(** ** Recommendations *)

Definition consolidate_mcp_servers : Recommendation.t :=
  Recommendation.mk high "Consolidate MCP Servers"
    "Consider disabling unused MCP servers or merging similar functionality"
    "20-40k tokens".

Definition optimize_agent_architecture : Recommendation.t :=
  Recommendation.mk high "Optimize Agent Architecture"
    "Combine overlapping agent responsibilities to reduce redundancy"
    "3-6k tokens".

Definition selective_mcp_loading : Recommendation.t :=
  Recommendation.mk medium "Selective MCP Loading"
    "Implement on-demand loading for MCP servers"
    "5-15k tokens".

(** [Object.keys(this.results.breakdown.mcpServers || {}).length] *)
Definition serverCount (r : Results.t) : Z :=
  js_keys_length (default ∅ (Breakdown.mcpServers (Results.breakdown r))).

(** The list that the three [if (...) recommendations.push(...)] leave. *)
Definition recommendations (mcpTools customAgents : jsval) (servers : Z)
    : list Recommendation.t :=
  let recs := [] in
  let recs :=
    if js_gt mcpTools 100000 then recs ++ [consolidate_mcp_servers] else recs in
  let recs :=
    if js_gt customAgents 10000 then recs ++ [optimize_agent_architecture]
    else recs in
  let recs :=
    if 15 <? servers then recs ++ [selective_mcp_loading] else recs in
  recs.

Definition generateOptimizationRecommendations : M unit :=
  r ← get_results;
  modify_results
    (Results.set_optimization
       (recommendations (Results.mcpTools r) (Results.customAgents r)
          (serverCount r))).

(** ** The aggregator *)

(** [initialize()]: [given] is the project of the constructor argument,
    if any. *)
Definition initialize (e : Env.t) (given : option Project.t) : M Project.t :=
  (* Clean up cache before starting *)
  modify_cache (cleanupCache (Env.now_cleanup e));;
  match given with
  | Some p => mret p
  | None =>
      match Env.discovered e with
      | None =>
          throw "No .claude directory found in current path or parent directories. Run this command from within a Claude Code project."
      | Some p =>
          modify_results
            (Results.set_projectPath (Some (Project.projectRoot p)));;
          mret p
      end
  end.

(** A promise under [timedExecution] and [Promise.allSettled]: a rejection
    is logged and kept in the settled array, it does not propagate.
    [settled] is the answer that replaces the value of a rejected body. *)
Definition timedExecution {A : Type} (settled : A) (fn : M A) : M A :=
  try_catch fn (λ _, mret settled).

(** The rest of an analyzer after its first [await], up to the moment
    [Promise.race] settles: nothing more if it had returned already, else all
    of it, or [partial] if the deadline comes first. Answers whether the
    analyzer is still pending then. *)
Definition before_deadline (returned pending : bool) (rest partial : M unit)
    : M bool :=
  if returned then mret false
  else if pending then partial;; mret true
  else timedExecution tt rest;; mret false.

(** [analyze()]. The five promises are created in order, which runs the
    part of each analyzer before its first [await]. The parts after it write
    different fields of the results, different snapshot slots and different
    paths of the file cache; they are taken in the order of the promises, so
    that of the interleaving of the code only the insertion order of the file
    cache is not kept. The memory analyzer is never cut short: its read races
    a 3-second timer set before the timer of [analyze], which fires first and
    sends the analyzer to its [catch]. The run ends when [analyze] returns:
    what an analyzer still pending at that moment writes later is not part
    of it. *)
Definition analyze (e : Env.t) (given : option Project.t) : M Results.t :=
  p ← initialize e given;
  try_catch
    (timedExecution tt analyzeSystemPrompt;;
     timedExecution tt analyzeSystemTools;;
     mcp_returned ← timedExecution true (analyzeMcpTools_sync e p);
     agents_returned ← timedExecution true (analyzeCustomAgents_sync e p);
     memory_returned ← timedExecution true (analyzeMemoryFiles_sync e p);
     mcp_late ←
       before_deadline mcp_returned (Env.mcp_pending e)
         (analyzeMcpTools_async e p) (mret tt);
     agents_late ←
       before_deadline agents_returned
         (bool_decide (is_Some (Env.agents_pending e)))
         (analyzeCustomAgents_async e p)
         (analyzeCustomAgents_partial e p (default O (Env.agents_pending e)));
     (* the memory analyzer settles before the deadline *)
     before_deadline memory_returned false
       (analyzeMemoryFiles_async e p) (mret tt);;
     (* Promise.race([Promise.allSettled(analysisPromises), timeoutPromise]) *)
     if mcp_late || agents_late then
       throw "Analysis timeout - using cached/fallback values"
     else
       (* Generate optimization recommendations *)
       generateOptimizationRecommendations)
    (λ _, mret tt);;
  modify_results (λ r, Results.set_total (Results.sum_of_categories r) r);;
  get_results.

(** A run of [new ContextAnalyzer(claudeDir).analyze()] on the cache [c]. *)
Definition run_analyze (e : Env.t) (given : option Project.t) (c : Cache.t)
    : completion Results.t * St.t :=
  analyze e given
    (St.mk (Results.initial (Project.projectRoot <$> given)) c).

(** ** The simplified analyzer *)

Module Simple.

(** [const estimateTokens = (text) => Math.ceil(text.length / 4);] *)
Definition estimateTokens (text : string) : Z :=
  Qceiling (inject_Z (Z.of_nat (String.length text)) / inject_Z 4)%Q.

(** The local variables of [analyze] when it reaches the formatting of its
    output. *)
Record t : Type := mk {
  systemPrompt : jsval;
  systemTools : jsval;
  mcpTools : jsval;
  mcpToolsDetailed : gmap string (option (list (string * Z)));
  customAgents : jsval;
  agentBreakdown : gmap string Z;
  memoryFiles : jsval;
  total : jsval
}.

(** The [try] block that reads the enabled servers: [Throw] when the read,
    the parse or [enabledServers.forEach] throws. *)
Definition read_enabled_servers (e : Env.t) : completion (list string) :=
  match Env.localSettings e with
  | None => Throw "settings.local.json: read or parse error"
  | Some SettingsNull => Throw "TypeError: cannot read properties of null"
  | Some (EnabledServers names) => Normal names
  | Some EnabledNotIterable =>
      Throw "TypeError: enabledServers.forEach is not a function"
  end.

(** [mcpTools] and [mcpToolsDetailed] after the first [try]/[catch]. The
    callback of [forEach] is [mcp_step] on [mcpServers]; it keeps no
    per-server totals, which are not read here. *)
Definition analyze_mcp (e : Env.t)
    : jsval * gmap string (option (list (string * Z))) :=
  match read_enabled_servers e with
  | Normal enabledServers =>
      let m := mcp_loop mcpServers enabledServers in
      (McpCache.total m, McpCache.detailed m)
  | Throw _ =>
      (* Use defaults if settings can't be read *)
      (VNum 120000,
       {[ "fetch"%string := Some [("mcp__fetch__fetch"%string, 643)];
          "github-official"%string :=
            Some [("mcp__github-official__create_or_update_file"%string, 570);
                  ("mcp__github-official__search_repositories"%string, 474)] ]})
  end.

(** One turn of [for (const file of files.slice(0, 10))]. *)
Definition agent_file (e : Env.t) (acc : Z * gmap string Z) (file : string)
    : Z * gmap string Z :=
  if endsWith file ".md" then
    match Env.readAgent e file with
    | Some content =>
        let tokens := estimateTokens content in
        (acc.1 + tokens, <[file := tokens]> acc.2)
    | None =>
        (* Fallback *)
        (acc.1 + 100, <[file := 100]> acc.2)
    end
  else acc.

(** [customAgents] and [agentBreakdown] after the second [try]/[catch]. *)
Definition analyze_agents (e : Env.t) : Z * gmap string Z :=
  match Env.agentsDir e with
  | DirListing files =>
      (* Limit to prevent timeout *)
      List.fold_left (agent_file e) (slice_first 10 files) (0, ∅)
  | DirMissing | DirUnlistable =>
      (* [readdir] rejects: Fallback *)
      (4500, ∅)
  end.

Definition analyze_memory (e : Env.t) : Z :=
  match Env.readMemory e with
  | Some claudeMd => estimateTokens claudeMd
  | None => 13200
  end.

(** [analyze()] up to [const total = ...]; [None] is [process.exit(1)]
    when no [.claude] directory is found. *)
Definition analyze (e : Env.t) : option t :=
  match Env.discovered e with
  | None => None
  | Some _ =>
      let systemPrompt := VNum 8500 in
      let systemTools := VNum 15200 in
      let mcp := analyze_mcp e in
      let agents := analyze_agents e in
      let memoryFiles := VNum (analyze_memory e) in
      let total :=
        js_add (js_add (js_add (js_add systemPrompt systemTools) mcp.1)
                  (VNum agents.1)) memoryFiles in
      Some (mk systemPrompt systemTools mcp.1 mcp.2 (VNum agents.1) agents.2
              memoryFiles total)
  end.

End Simple.

(** ** The command wrapper *)

Module ContextCommand.

(** The fields the constructor sets to [null] and [execute] fills. *)
Record t : Type := mk {
  lastAnalysis : option string;
  lastAnalysisTime : option Z;
  lastAnalysisProject : option string
}.

Definition new : t := mk None None None.

(** [this.cacheTimeout = 2 * 60 * 1000] *)
Definition cacheTimeout : Z := 2 * 60 * 1000.

(** Truthiness of a slot that is [null] or a string. *)
Definition truthy_str (o : option string) : bool :=
  match o with
  | Some s => negb (String.eqb s "")
  | None => false
  end.

(** [shouldUseCache(currentProject)] at clock reading [now]. *)
Definition shouldUseCache (cmd : t) (now : Z) (currentProject : string) : bool :=
  if negb (truthy_str (lastAnalysis cmd))
     || negb (truthy_num (lastAnalysisTime cmd))
     || negb (bool_decide (lastAnalysisProject cmd = Some currentProject))
  then false
  else
    match lastAnalysisTime cmd with
    | Some t => now - t <? cacheTimeout
    | None => false
    end.

(** [execute(mode)]: [projectRoot] is the project found from the working
    directory, [stdout] the output of the analyzer process ([None] when it
    fails or times out), [now] the clock when the cache is asked and
    [now_done] when the output is stored, [fallback] the canned report. *)
Definition execute (cmd : t) (projectRoot : option string)
    (stdout : option string) (now now_done : Z) (fallback : string)
    : string * t :=
  match projectRoot with
  | None => (fallback, cmd)
  | Some currentProject =>
      (* Check cache first (but only for the same project) *)
      if shouldUseCache cmd now currentProject then
        (default ""%string (lastAnalysis cmd), cmd)
      else
        match stdout with
        | Some out => (out, mk (Some out) (Some now_done) (Some currentProject))
        | None => (fallback, cmd)
        end
  end.

End ContextCommand.


(** ** The directory locator *)

(** An absolute, normalised path as [path.resolve] gives it: the names
    below the file system root, the innermost first. The root is the empty
    list. *)
Definition path : Type := list string.

(** [path.parse(p).root] *)
Definition path_root : path := [].

(** [path.dirname(p)]: the root is its own parent. *)
Definition path_dirname (p : path) : path := tail p.

(** [path.join(p, name)] for a plain name. *)
Definition path_child (p : path) (name : string) : path := name :: p.

(** The string of a path, with [/] as separator. *)
Definition path_string (p : path) : string :=
  match p with
  | [] => "/"
  | _ :: _ => foldr (λ name rest, "/" +:+ name +:+ rest)%string "" (rev p)
  end.

(** [s.startsWith(prefix)] *)
Definition startsWith (s prefix : string) : bool := String.prefix prefix s.

Module Fs.
(** What the locators ask the file system: whether [fs.stat] resolves on a
    directory, whether [fs.access] resolves. *)
Record t : Type := mk {
  is_directory : path → bool;
  accessible : path → bool
}.
End Fs.

(** [findClaudeDirectory(startPath)] of the full analyzer, from the resolved
    [startPath]: one turn of the [while] loop per name of the path. *)
Fixpoint findClaudeDirectory (fs : Fs.t) (currentPath : path) : option path :=
  match currentPath with
  | [] => None
  | _ :: parent =>
      let claudePath := path_child currentPath ".claude" in
      if Fs.is_directory fs claudePath then Some claudePath
      else findClaudeDirectory fs parent
  end.

(** The project of a [.claude] directory: the directory and its
    [path.dirname], as [initialize] and [analyze] take them. *)
Definition project_of (claudePath : path) : Project.t :=
  Project.mk (path_string claudePath) (path_string (path_dirname claudePath)).

Module CommandLocator.
(** [findClaudeDirectory(startPath)] of the command wrapper: the same walk,
    answering [{ claudeDir, projectRoot }]. *)
Fixpoint findClaudeDirectory (fs : Fs.t) (currentPath : path)
    : option (path * path) :=
  match currentPath with
  | [] => None
  | _ :: parent =>
      let claudePath := path_child currentPath ".claude" in
      if Fs.is_directory fs claudePath then Some (claudePath, currentPath)
      else findClaudeDirectory fs parent
  end.
End CommandLocator.

Module SimpleLocator.
(** [const maxIterations = 50; // Prevent infinite loops] *)
Definition maxIterations : nat := 50.

(** What follows the loop: the security event logged when the counter has
    reached the bound. *)
Definition after_loop (iterations : nat) : list string :=
  if (maxIterations <=? iterations)%nat
  then ["max_iterations_exceeded_simple"%string] else [].

(** The [while] loop of [findClaudeDirectory()] from [currentPath] with the
    counter at [iterations]: the path found, if any, and the security events
    logged. A turn that does not return goes on from the parent. *)
Fixpoint loop (fs : Fs.t) (iterations : nat) (currentPath : path)
    : option path * list string :=
  match currentPath with
  | [] => (None, after_loop iterations)
  | _ :: parent =>
      if (iterations <? maxIterations)%nat then
        let claudePath := path_child currentPath ".claude" in
        (* Security check: ensure claudePath is within expected bounds *)
        if negb (startsWith (path_string claudePath) (path_string currentPath))
        then
          (None, "path_traversal_attempt_simple"%string :: after_loop iterations)
        else if Fs.accessible fs claudePath then (Some claudePath, [])
        else loop fs (S iterations) parent
      else (None, after_loop iterations)
  end.

(** [findClaudeDirectory()] from the resolved working directory. *)
Definition findClaudeDirectory (fs : Fs.t) (cwd : path) : option path * list string :=
  loop fs 0 cwd.
End SimpleLocator.

(** ** A batch of the agents loop, read side by side *)




(** ** Input validation and error sanitising ([lib/security.js]) *)

(** An argument as a caller passes it: a string, or a value of another
    type. *)
Inductive argument : Type :=
| Str (s : string)
| NotAString.

(** [s.includes(needle)] *)
Fixpoint includes (s needle : string) : bool :=
  String.prefix needle s
  || match s with
     | EmptyString => false
     | String _ rest => includes rest needle
     end.

(** [s.replace(/[...]/g, '')] for a class of single characters. *)
Fixpoint remove_chars (class : list Ascii.ascii) (s : string) : string :=
  match s with
  | EmptyString => EmptyString
  | String ch rest =>
      if bool_decide (ch ∈ class) then remove_chars class rest
      else String ch (remove_chars class rest)
  end.

Definition char_quote : Ascii.ascii := Ascii.ascii_of_nat 34.
Definition char_backslash : Ascii.ascii := Ascii.ascii_of_nat 92.
Definition char_nul : Ascii.ascii := Ascii.ascii_of_nat 0.

Module InputValidator.

(** The character class of the [replace]: [<], [>], [:], the double quote,
    [|], [?] and the asterisk. *)
Definition dangerous : list Ascii.ascii :=
  String.list_ascii_of_string "<>:" ++ [char_quote] ++ String.list_ascii_of_string "|?*".

(** [static validatePath(userPath)] *)
Definition validatePath (userPath : argument) : completion string :=
  match userPath with
  | NotAString => Throw "Path must be a string"
  | Str userPath =>
      (* Check for null bytes and dangerous characters *)
      if includes userPath (String char_nul "") || includes userPath "%00"
      then Throw "Path contains null bytes"
      else
        (* Remove dangerous characters but preserve valid path chars *)
        let cleaned := remove_chars dangerous userPath in
        (* Check for directory traversal attempts *)
        if includes cleaned "../"
           || includes cleaned (".." +:+ String char_backslash "")
        then Throw "Directory traversal detected"
        else Normal cleaned
  end.

End InputValidator.

Module SafeCommandExecutor.

(** The character class of the [replace]: [;&|`$()<>], the backslash and
    both quotes. *)
Definition shell_characters : list Ascii.ascii :=
  String.list_ascii_of_string ";&|`$()<>"
  ++ [char_backslash] ++ String.list_ascii_of_string "'" ++ [char_quote].

(** [sanitizeArg(arg)] *)
Definition sanitizeArg (arg : argument) : completion string :=
  match arg with
  | NotAString => Throw "Argument must be a string"
  | Str arg => Normal (remove_chars shell_characters arg)
  end.

(** [args.map(arg => this.sanitizeArg(arg))]: the first throw ends the
    map. *)
Fixpoint sanitizeArgs (args : list argument) : completion (list string) :=
  match args with
  | [] => Normal []
  | arg :: rest =>
      match sanitizeArg arg with
      | Throw message => Throw message
      | Normal safe =>
          match sanitizeArgs rest with
          | Throw message => Throw message
          | Normal safeRest => Normal (safe :: safeRest)
          end
      end
  end.

End SafeCommandExecutor.

Module SecureErrorHandler.

(** What [sanitizeError] reads of the error object it is given:
    [error.code] as a property key and [error.message], a string as on
    every [Error]; each is [None] when the error has no such property. *)
Record error : Type := mk_error {
  code : option string;
  message : option string
}.

(** [safeMessages] *)
Definition safeMessages : gmap string string :=
  list_to_map [
    ("ENOENT", "File or directory not found");
    ("EACCES", "Permission denied");
    ("EINVAL", "Invalid input provided");
    ("ENOTDIR", "Path is not a directory");
    ("EISDIR", "Path is a directory");
    ("EMFILE", "Too many open files");
    ("ENOMEM", "Not enough memory");
    ("TIMEOUT", "Operation timed out");
    ("BUFFER_EXCEEDED", "Output too large");
    ("COMMAND_NOT_ALLOWED", "Command not permitted");
    ("PATH_TRAVERSAL", "Invalid path detected");
    ("INVALID_INPUT", "Input validation failed");
    ("DEFAULT", "An error occurred")
  ]%string.

(** Truthiness of [safeMessages[k]]: an own message unless it is empty, and
    every inherited property. *)
Definition truthy_property (p : property string) : bool :=
  match p with
  | Own v => negb (String.eqb v "")
  | Inherited => true
  | Absent => false
  end.

(** The [errorCode] that [sanitizeError] settles on. *)
Definition errorCode (err : error) : string :=
  if ContextCommand.truthy_str (code err)
     && truthy_property (js_get safeMessages (default "" (code err)))
  then default "" (code err)
  else if ContextCommand.truthy_str (message err) then
    let message := default "" (message err) in
    (* Map common error message patterns to codes *)
    if includes message "traversal" then "PATH_TRAVERSAL"
    else if includes message "validation" then "INVALID_INPUT"
    else if includes message "timeout" then "TIMEOUT"
    else if includes message "buffer" then "BUFFER_EXCEEDED"
    else if includes message "not allowed" then "COMMAND_NOT_ALLOWED"
    else "DEFAULT"
  else "DEFAULT".

(** The [error] field of what [sanitizeError(error)] returns. *)
Definition sanitizeError (err : error) : property string :=
  js_get safeMessages (errorCode err).

End SecureErrorHandler.

(** ** The command wrapper from a working directory *)

(** [execute(mode)] with the project taken from the working directory
    [cwd]. *)
Definition execute_from (fs : Fs.t) (cwd : path) (cmd : ContextCommand.t)
    (stdout : option string) (now now_done : Z) (fallback : string)
    : string * ContextCommand.t :=
  ContextCommand.execute cmd
    ((λ found, path_string (found.2)) <$> CommandLocator.findClaudeDirectory fs cwd)
    stdout now now_done fallback.


(** * Notions used in the statements, and sample inputs *)

(** The number of entries of [m] written after [kv]. *)
Definition newer_entries (kv : string * Entry.t) (m : jsmap Entry.t) : nat :=
  length (filter (λ x, Entry.timestamp (kv.2) < Entry.timestamp (x.2)) m).

(** A file cache of 101 entries: one-character paths, one timestamp each. *)
Definition sample_file_cache : jsmap Entry.t :=
  (λ i : nat,
     (String (Ascii.ascii_of_nat i) EmptyString, Entry.mk 1 (Z.of_nat i)))
    <$> seq 0 101.

Definition sample_cache_101 : Cache.t :=
  Cache.mk None None None None None sample_file_cache.

Definition sample_project : Project.t := Project.mk "/work/app/.claude" "/work/app".

(** Eleven agent files of eight characters each, no settings, no memory
    file. *)
Definition sample_env_eleven_agents : Env.t :=
  Env.mk (Some sample_project) 1000 1000 1001 (λ _, 1002) 1003
    None None
    (DirListing ["a0.md"; "a1.md"; "a2.md"; "a3.md"; "a4.md"; "a5.md";
                 "a6.md"; "a7.md"; "a8.md"; "a9.md"; "late.md"]%string)
    (λ _, Some "12345678"%string) None
    false None.

(** The MCP total as the specification words it. What one enabled server
    adds according to a table: the total of its entry, 2000 when it has
    none. *)
Definition server_tokens (table : gmap string ServerData.t) (server : string) : Z :=
  match table !! server with
  | Some serverData => ServerData.total serverData
  | None => 2000
  end.

Definition servers_tokens (table : gmap string ServerData.t)
    (servers : list string) : Z :=
  foldr (λ server acc, server_tokens table server + acc) 0 servers.

(** The tool list made up for a server without entry. *)
Definition unknown_tool (server : string) : list (string * Z) :=
  [(("mcp__" +:+ server +:+ "__unknown")%string, 2000)].

(** A project whose settings enable one server, named [constructor]; no
    agents directory, no memory file. *)
Definition sample_env_inherited_name : Env.t :=
  Env.mk (Some sample_project) 1000 1000 1001 (λ _, 1002) 1003
    (Some (EnabledServers ["constructor"%string])) None
    DirMissing (λ _, None) None
    false None.

(** A project whose settings enable [fetch] and [sequential-thinking]; no
    agents directory, no memory file. *)
Definition sample_env_two_servers : Env.t :=
  Env.mk (Some sample_project) 1000 1000 1001 (λ _, 1002) 1003
    (Some (EnabledServers ["fetch"; "sequential-thinking"]%string)) None
    DirMissing (λ _, None) None
    false None.

(** The project a run works on: the one given to the constructor, else the
    one found from the working directory. *)
Definition resolved (e : Env.t) (given : option Project.t) : option Project.t :=
  match given with
  | Some p => Some p
  | None => Env.discovered e
  end.

(** What the analyzers take from the cache [c] when they are launched: the
    cached MCP result, the cached agents result, the cached memory-file
    tokens (from the snapshot or else from the file cache). *)
Definition mcp_served (e : Env.t) (p : Project.t) (c : Cache.t) : option McpCache.t :=
  if isCacheValid c (Env.now_launch e) (Project.projectRoot p)
  then Cache.mcpTools c else None.

Definition agents_served (e : Env.t) (p : Project.t) (c : Cache.t)
    : option AgentsCache.t :=
  if isCacheValid c (Env.now_launch e) (Project.projectRoot p)
  then Cache.customAgents c else None.

Definition memory_served (e : Env.t) (p : Project.t) (c : Cache.t) : option Z :=
  if isCacheValid c (Env.now_launch e) (Project.projectRoot p)
     && truthy_num (Cache.memoryFiles c)
  then Cache.memoryFiles c
  else if isFileCacheValid c (Env.now_launch e)
            (path_join (Project.claudeDir p) "CLAUDE.md")
  then Entry.tokens
         <$> map_get (path_join (Project.claudeDir p) "CLAUDE.md")
               (Cache.fileCache c)
  else None.

(** The list of enabled servers the MCP analyzer gets from the project
    settings or else from the global settings; [None] when it ends in its
    [catch]. *)
Definition settings_servers (e : Env.t) : option (list string) :=
  match Env.localSettings e with
  | Some (EnabledServers names) => Some names
  | Some _ => None
  | None =>
      match Env.globalSettings e with
      | Some (EnabledServers names) => Some names
      | _ => None
      end
  end.

(** The cache [c] with another file cache. *)
Definition with_fileCache (fc : jsmap Entry.t) (c : Cache.t) : Cache.t :=
  Cache.mk (Cache.mcpTools c) (Cache.customAgents c) (Cache.memoryFiles c)
    (Cache.timestamp c) (Cache.projectPath c) fc.

(** The value of a normal completion. *)
Definition completion_value {A : Type} (x : completion A) : option A :=
  match x with
  | Normal a => Some a
  | Throw _ => None
  end.

(** One agent file of eight characters that is still being read when the
    deadline of [analyze] comes; no settings, no memory file. *)
Definition sample_env_slow_agents : Env.t :=
  Env.mk (Some sample_project) 1000 1000 1001 (λ _, 1002) 1003
    None None
    (DirListing ["a0.md"%string]) (λ _, Some "12345678"%string) None
    false (Some O).

(** The same project once the read is not slow any more. *)
Definition sample_env_one_agent : Env.t :=
  Env.mk (Some sample_project) 1000 1000 1001 (λ _, 1002) 1003
    None None
    (DirListing ["a0.md"%string]) (λ _, Some "12345678"%string) None
    false None.

(** A project with one agent file and two enabled servers, and the same
    project a second later, its agents directory removed. *)
Definition sample_env_agents_and_servers : Env.t :=
  Env.mk (Some sample_project) 1000 1000 1001 (λ _, 1002) 1003
    (Some (EnabledServers ["fetch"; "sequential-thinking"]%string)) None
    (DirListing ["a0.md"%string]) (λ _, Some "12345678"%string) None
    false None.

Definition sample_env_agents_removed : Env.t :=
  Env.mk (Some sample_project) 2000 2000 2001 (λ _, 2002) 2003
    (Some (EnabledServers ["fetch"; "sequential-thinking"]%string)) None
    DirMissing (λ _, None) None
    false None.

(** A cache with a snapshot of the project that is exactly as old as the TTL
    when the next run starts, and that run: the settings cannot be read any
    more. *)
Definition sample_cache_stamped : Cache.t :=
  Cache.mk (Some (McpCache.mk (VNum 643) ∅ ∅)) None None (Some 1000)
    (Some "/work/app"%string) [].

Definition sample_env_late_unreadable : Env.t :=
  Env.mk (Some sample_project) 301000 301000 301001 (λ _, 301002) 301003
    None None
    DirMissing (λ _, None) None
    false None.

(** Two enabled servers in a settings file whose read has not finished when
    the deadline of [analyze] comes. *)
Definition sample_env_slow_settings : Env.t :=
  Env.mk (Some sample_project) 1000 1000 1001 (λ _, 1002) 1003
    (Some (EnabledServers ["fetch"; "sequential-thinking"]%string)) None
    DirMissing (λ _, None) None
    true None.

(** * Further notions and sample inputs *)

(** A file system with one project, [/work/app], and a working directory
    inside it. *)
Definition sample_fs : Fs.t :=
  Fs.mk (λ p, bool_decide (p = [".claude"; "app"; "work"]%string))
        (λ p, bool_decide (p = [".claude"; "app"; "work"]%string)).

Definition sample_cwd : path := ["src"; "app"; "work"]%string.

(** An entry of the file cache that [cleanupCache] does not delete at clock
    reading [now]: it is not older than the file TTL. *)
Definition kept_entry (now : Z) (kv : string * Entry.t) : bool :=
  negb (Cache.fileCacheTtl <? now - Entry.timestamp (kv.2)).

(** A cache with three file entries, the first of them older than the file
    TTL at clock reading 700200, and a snapshot for [/work/app] stored at
    650000. *)
Definition sample_cache_three : Cache.t :=
  Cache.mk (Some (McpCache.mk (VNum 643) ∅ ∅)) None None (Some 650000)
    (Some "/work/app"%string)
    [("/work/app/.claude/agents/a.md"%string, Entry.mk 12 100);
     ("/work/app/.claude/agents/b.md"%string, Entry.mk 7 700000);
     ("/work/app/.claude/CLAUDE.md"%string, Entry.mk 30 700100)].

(** The sum of the token counts of a breakdown. *)
Definition breakdown_sum (b : gmap string Z) : Z :=
  map_fold (λ _ tokens acc, tokens + acc) 0 b.

(** Three entries in the agents directory, two of them agent files; the
    second cannot be read. *)
Definition sample_env_three_entries : Env.t :=
  Env.mk (Some sample_project) 1000 1000 1001 (λ _, 1002) 1003
    None None
    (DirListing ["a.md"; "notes.txt"; "b.md"]%string)
    (λ f, if String.eqb f "a.md" then Some "12345678"%string else None) None
    false None.

(** A project with two enabled servers, one agent file and a memory file. *)
Definition sample_env_complete : Env.t :=
  Env.mk (Some sample_project) 1000 1000 1001 (λ _, 1002) 1003
    (Some (EnabledServers ["fetch"; "sequential-thinking"]%string)) None
    (DirListing ["a0.md"%string]) (λ _, Some "12345678"%string)
    (Some "# Project notes"%string)
    false None.

(** Another project, [/work/other], with one enabled server and no agents
    directory. *)
Definition sample_other_project : Project.t :=
  Project.mk "/work/other/.claude" "/work/other".

Definition sample_env_other_project : Env.t :=
  Env.mk (Some sample_other_project) 2000 2000 2001 (λ _, 2002) 2003
    (Some (EnabledServers ["fetch"%string])) None
    DirMissing (λ _, None) None
    false None.

(** The same project a second later. *)
Definition sample_env_other_project_again : Env.t :=
  Env.mk (Some sample_other_project) 3000 3000 3001 (λ _, 3002) 3003
    (Some (EnabledServers ["fetch"%string])) None
    DirMissing (λ _, None) None
    false None.

(** A file system without any [.claude] directory, and what an analyzer
    started in it finds. *)
Definition sample_fs_no_project : Fs.t := Fs.mk (λ _, false) (λ _, false).

Definition sample_env_no_project : Env.t :=
  Env.mk None 1000 1000 1001 (λ _, 1002) 1003
    None None DirMissing (λ _, None) None
    false None.

(** What one turn of the MCP loop adds to the total for [server]. *)
Definition step_tokens (table : gmap string ServerData.t) (server : string) : jsval :=
  match js_get table server with
  | Own serverData => VNum (ServerData.total serverData)
  | Inherited => VUndefined
  | Absent => VNum 2000
  end.

(** The server names on which the table of the full analyzer and the table
    of the simplified analyzer give different totals: two with different
    numbers, four that the simplified table does not have. *)
Definition table_differences : list string :=
  ["puppeteer"; "mcp-playwright"; "byterover-mcp"; "zen-mcp-server";
   "claude-flow_Docs"; "Prisma-Local"]%string.

(** A project that enables the server [puppeteer]. *)
Definition sample_env_puppeteer : Env.t :=
  Env.mk (Some sample_project) 1000 1000 1001 (λ _, 1002) 1003
    (Some (EnabledServers ["puppeteer"%string])) None
    DirMissing (λ _, None) None
    false None.

(** Two states of a run that cannot be told apart by reading them: the same
    results, the same snapshot slots, and file caches that answer the same
    for every path. *)
Definition same_answers (s s' : St.t) : Prop :=
  St.results s = St.results s'
  ∧ with_fileCache [] (St.cache s) = with_fileCache [] (St.cache s')
  ∧ ∀ path,
      map_get path (Cache.fileCache (St.cache s))
      = map_get path (Cache.fileCache (St.cache s')).






(** * Properties *)

(** ** Token estimator *)

Lemma Qceiling_quarter (n : Z) :
  Qceiling (inject_Z n / inject_Z 4)%Q = (n + 3) / 4.
Proof.
  unfold Qceiling, Qfloor, Qdiv, Qmult, Qinv, Qopp, inject_Z. simpl.
  rewrite Z.mul_1_r. change (Z.pos (1 * 4)) with 4.
  Z.to_euclidean_division_equations. lia.
Qed.

Lemma estimateTokens_quotient (text : string) :
  estimateTokens text = (Z.of_nat (String.length text) + 3) / 4.
Proof. apply Qceiling_quarter. Qed.

(** C9. The estimator returns the ceiling of a quarter of the length: the
    integer [k] with [4 (k - 1) < length ≤ 4 k]. It is never negative, it is
    0 on the empty string, it does not decrease when the length grows, and
    the simplified analyzer has the same estimator. *)
Theorem estimateTokens_ceiling (s1 s2 : string) :
  (4 * (estimateTokens s1 - 1) < Z.of_nat (String.length s1)
   ∧ Z.of_nat (String.length s1) ≤ 4 * estimateTokens s1)
  ∧ 0 ≤ estimateTokens s1
  ∧ estimateTokens "" = 0
  ∧ ((String.length s1 ≤ String.length s2)%nat →
     estimateTokens s1 ≤ estimateTokens s2)
  ∧ Simple.estimateTokens s1 = estimateTokens s1.
Proof.
  rewrite !estimateTokens_quotient.
  repeat split; try reflexivity.
  - Z.to_euclidean_division_equations. lia.
  - Z.to_euclidean_division_equations. lia.
  - Z.to_euclidean_division_equations. lia.
  - intros Hle. apply Z.div_le_mono; lia.
Qed.

Lemma estimateTokens_ceiling_witness :
  estimateTokens "abcde" ≤ estimateTokens "abcdefghi".
Proof.
  apply (estimateTokens_ceiling "abcde" "abcdefghi"). simpl. lia.
Defined.

(** ** Sorting and the [Map] *)

Section SortFacts.
Context {A : Type} (key : A → Z) (cmp : A → A → Z).
Hypothesis cmp_key : ∀ a b, cmp a b = key a - key b.

Lemma sort_insert_perm x l : sort_insert cmp x l ≡ₚ x :: l.
Proof.
  induction l as [|y l IH]; simpl; [done|].
  destruct (cmp x y <=? 0); [done|].
  rewrite IH. apply Permutation_swap.
Qed.

Lemma js_sort_perm l : js_sort cmp l ≡ₚ l.
Proof.
  induction l as [|x l IH]; simpl; [done|].
  rewrite sort_insert_perm. by rewrite IH.
Qed.

Lemma sort_insert_sorted x l :
  StronglySorted (λ a b, key a ≤ key b) l →
  StronglySorted (λ a b, key a ≤ key b) (sort_insert cmp x l).
Proof.
  induction 1 as [|y l Hs IH Hall]; simpl.
  - repeat constructor.
  - rewrite cmp_key. destruct (Z.leb_spec (key x - key y) 0) as [Hle|Hgt].
    + constructor; [by constructor|].
      constructor; [lia|].
      eapply Forall_impl; [exact Hall|]. intros z Hz. simpl in Hz. lia.
    + constructor; [exact IH|].
      rewrite (sort_insert_perm x l). constructor; [lia|exact Hall].
Qed.

Lemma js_sort_sorted l : StronglySorted (λ a b, key a ≤ key b) (js_sort cmp l).
Proof.
  induction l as [|x l IH]; simpl; [constructor|].
  by apply sort_insert_sorted.
Qed.

(** In a sorted list, an element of the suffix from [n] on has fewer
    elements of greater key than the suffix is long. *)
Lemma sorted_suffix_rank (l : list A) (n : nat) (x : A) :
  StronglySorted (λ a b, key a ≤ key b) l →
  x ∈ drop n l →
  (length (filter (λ y, (key x < key y)%Z) l) < length (drop n l))%nat.
Proof.
  intros Hs Hx.
  rewrite <- (take_drop n l) in Hs.
  rewrite <- (take_drop n l) at 1.
  rewrite filter_app, length_app.
  assert (length (filter (λ y, key x < key y) (take n l)) = 0%nat) as ->.
  { apply length_zero_iff_nil.
    induction (take n l) as [|y t IH] in Hs |- *; [done|].
    rewrite filter_cons_False.
    - apply IH. simpl in Hs. by apply StronglySorted_inv in Hs as [? _].
    - pose proof (StronglySorted_app_1_elem_of _ _ _ y x Hs) as Hle.
      cut (key y ≤ key x); [lia|]. apply Hle; [left|done]. }
  simpl. apply (length_filter_lt _ _ x); [done|lia].
Qed.
End SortFacts.

Section MapFacts.
Context {V : Type}.

Lemma map_set_fresh (k : string) (v : V) (m : jsmap V) :
  k ∉ map_keys m → map_set k v m = m ++ [(k, v)].
Proof.
  induction m as [|[k' v'] m IH]; simpl; [done|].
  intros Hk. destruct (String.eqb_spec k k') as [->|Hne].
  - exfalso. apply Hk. left.
  - rewrite IH; [done|]. intros Hin. apply Hk. by right.
Qed.

Lemma fold_map_set (l m : jsmap V) :
  NoDup (map_keys (m ++ l)) →
  fold_left (λ m kv, map_set (kv.1) (kv.2) m) l m = m ++ l.
Proof.
  revert m. induction l as [|[k v] l IH]; intros m Hnd; simpl.
  - by rewrite app_nil_r.
  - rewrite map_set_fresh.
    + rewrite IH; [by rewrite <- app_assoc|].
      by rewrite <- app_assoc.
    + unfold map_keys in *. rewrite fmap_app in Hnd.
      apply NoDup_app in Hnd as (_ & Hd & _).
      intros Hin. apply (Hd _ Hin). simpl. left.
Qed.

Lemma fold_delete_none (P : string * V → bool) (l m : jsmap V) :
  Forall (λ kv, P kv = false) l →
  fold_left (λ m kv, if P kv then map_delete (kv.1) m else m) l m = m.
Proof.
  induction 1 as [|kv l Hkv _ IH]; simpl; [done|]. by rewrite Hkv.
Qed.
End MapFacts.

(** ** Pruning of the file cache *)

(** C3. A file cache of 101 entries with distinct paths and distinct
    timestamps, all younger than the file TTL, is left by one [cleanupCache]
    with exactly 50 entries; each of them was in the cache and has fewer than
    50 entries written after it, and every evicted entry is older than every
    entry kept. *)
Theorem cleanupCache_keeps_50_newest (now : Z) (c : Cache.t) :
  length (Cache.fileCache c) = 101%nat →
  NoDup (map_keys (Cache.fileCache c)) →
  NoDup ((λ kv, Entry.timestamp (kv.2)) <$> Cache.fileCache c) →
  Forall (λ kv, now - Entry.timestamp (kv.2) < Cache.fileCacheTtl)
    (Cache.fileCache c) →
  let kept := Cache.fileCache (cleanupCache now c) in
  length kept = 50%nat ∧
  (∀ kv, kv ∈ kept →
     kv ∈ Cache.fileCache c ∧ (newer_entries kv (Cache.fileCache c) < 50)%nat) ∧
  (∀ old kv, old ∈ Cache.fileCache c → old ∉ kept → kv ∈ kept →
     Entry.timestamp (old.2) < Entry.timestamp (kv.2)).
Proof.
  intros Hlen Hkeys Hstamps Hfresh kept.
  set (l := Cache.fileCache c) in *.
  pose proof (js_sort_perm by_timestamp l) as Hperm.
  assert (kept = drop 51 (js_sort by_timestamp l)) as Hkept.
  { subst kept. unfold cleanupCache. fold l.
    rewrite fold_delete_none.
    2:{ eapply Forall_impl; [exact Hfresh|]. intros kv Hkv. simpl in Hkv.
        apply Z.ltb_ge. unfold Cache.fileCacheTtl in *. lia. }
    assert ((100 <? map_size l) = true) as ->.
    { unfold map_size. rewrite Hlen. done. }
    assert (slice_last 50 (js_sort by_timestamp l) = drop 51 (js_sort by_timestamp l)) as ->.
    { unfold slice_last. rewrite (Permutation_length Hperm), Hlen. done. }
    rewrite (fold_map_set _ []).
    - by destruct (_ && _).
    - simpl. unfold map_keys in *. rewrite fmap_drop.
      eapply sublist_NoDup; [|apply sublist_drop]. by rewrite Hperm. }
  assert (length kept = 50%nat) as Hlen'.
  { rewrite Hkept, length_drop, (Permutation_length Hperm), Hlen. done. }
  pose proof (js_sort_sorted (λ kv, Entry.timestamp (kv.2)) by_timestamp
                (λ _ _, eq_refl) l) as Hsorted.
  split; [done|]. split; [|shelve].
  intros kv Hkv. rewrite Hkept in Hkv. split.
  - rewrite <- Hperm. eapply elem_of_sublist; [exact Hkv|apply sublist_drop].
  - unfold newer_entries. rewrite <- Hlen', Hkept.
    rewrite <- (Permutation_length
                  (filter_Permutation (λ x, Entry.timestamp (kv.2) < Entry.timestamp (x.2)) _ _ Hperm)).
    by apply (sorted_suffix_rank (λ kv, Entry.timestamp (kv.2))).
    Unshelve.
    intros old kv Hold Hnot Hkv. rewrite Hkept in Hnot, Hkv.
    rewrite <- Hperm, <- (take_drop 51 (js_sort by_timestamp l)) in Hold.
    apply elem_of_app in Hold as [Hold|Hold]; [|done].
    rewrite <- (take_drop 51 (js_sort by_timestamp l)) in Hsorted.
    pose proof (StronglySorted_app_1_elem_of _ _ _ old kv Hsorted Hold Hkv) as Hle.
    simpl in Hle.
    destruct (decide (Entry.timestamp (old.2) = Entry.timestamp (kv.2))) as [Heq|]; [|lia].
    rewrite <- Hperm in Hstamps.
    rewrite <- (take_drop 51 (js_sort by_timestamp l)), fmap_app in Hstamps.
    apply NoDup_app in Hstamps as (_ & Hdisj & _).
    exfalso. apply (Hdisj (Entry.timestamp (old.2))).
    + by apply (list_elem_of_fmap_2 (λ kv, Entry.timestamp (kv.2))).
    + rewrite Heq. by apply (list_elem_of_fmap_2 (λ kv, Entry.timestamp (kv.2))).
Qed.


Lemma cleanupCache_keeps_50_newest_witness :
  length (Cache.fileCache (cleanupCache 200 sample_cache_101)) = 50%nat.
Proof.
  apply (cleanupCache_keeps_50_newest 200 sample_cache_101).
  - reflexivity.
  - apply (bool_decide_unpack _). vm_compute. exact I.
  - apply (bool_decide_unpack _). vm_compute. exact I.
  - apply (bool_decide_unpack _). vm_compute. exact I.
Defined.


(** ** Recommendations *)

(** C8. The recommendations are a function of the MCP total, the agents
    total and the number of servers: the server consolidation (high) when
    the MCP total exceeds 100000, then the agent architecture (high) when the
    agents total exceeds 10000, then the selective loading (medium) when
    there are more than 15 servers, and nothing else. For 150000, 500 and 3
    servers there is one recommendation, of high impact. *)
Theorem generateOptimizationRecommendations_spec (m a n : Z) (s : St.t) :
  recommendations (VNum m) (VNum a) n =
    (if decide (100000 < m) then [consolidate_mcp_servers] else [])
    ++ (if decide (10000 < a) then [optimize_agent_architecture] else [])
    ++ (if decide (15 < n) then [selective_mcp_loading] else [])
  ∧ Recommendation.impact consolidate_mcp_servers = high
  ∧ Recommendation.impact optimize_agent_architecture = high
  ∧ Recommendation.impact selective_mcp_loading = medium
  ∧ recommendations (VNum 150000) (VNum 500) 3 = [consolidate_mcp_servers]
  ∧ generateOptimizationRecommendations s =
      (Normal tt,
       St.mk
         (Results.set_optimization
            (recommendations (Results.mcpTools (St.results s))
               (Results.customAgents (St.results s))
               (serverCount (St.results s)))
            (St.results s))
         (St.cache s)).
Proof.
  split; [|by repeat split].
  unfold recommendations, js_gt.
  destruct (Z.ltb_spec 100000 m), (Z.ltb_spec 10000 a), (Z.ltb_spec 15 n);
    repeat case_decide; try lia; reflexivity.
Qed.

(** ** Agent files of the simplified analyzer *)

Lemma simple_agent_file_other (e : Env.t) (acc : Z * gmap string Z)
    (file f : string) :
  f ≠ file → (Simple.agent_file e acc file).2 !! f = acc.2 !! f.
Proof.
  intros Hne. unfold Simple.agent_file.
  destruct (endsWith file ".md"); [|done].
  destruct (Env.readAgent e file); simpl; by rewrite lookup_insert_ne.
Qed.

Lemma simple_agents_untouched (e : Env.t) (files : list string)
    (acc : Z * gmap string Z) (f : string) :
  f ∉ files →
  (fold_left (Simple.agent_file e) files acc).2 !! f = acc.2 !! f.
Proof.
  revert acc. induction files as [|file files IH]; intros acc Hf; [done|].
  simpl. rewrite IH.
  - apply simple_agent_file_other. intros ->. apply Hf. left.
  - intros Hin. apply Hf. by right.
Qed.

(** C10. The simplified analyzer reads the first ten entries of the
    listing only: whatever follows them changes neither the agents total nor
    the breakdown, in which a file listed after the tenth entry does not
    appear. *)
Theorem simple_analyze_first_ten (e : Env.t) (first rest : list string) :
  Env.agentsDir e = DirListing (first ++ rest) →
  length first = 10%nat →
  Simple.analyze_agents e = fold_left (Simple.agent_file e) first (0, ∅)
  ∧ (∀ f, f ∈ rest → f ∉ first → (Simple.analyze_agents e).2 !! f = None)
  ∧ (∀ r, Simple.analyze e = Some r →
       Simple.customAgents r = VNum (Simple.analyze_agents e).1
       ∧ Simple.agentBreakdown r = (Simple.analyze_agents e).2).
Proof.
  intros Hdir Hlen.
  assert (Simple.analyze_agents e = fold_left (Simple.agent_file e) first (0, ∅))
    as Heq.
  { unfold Simple.analyze_agents, slice_first. rewrite Hdir.
    rewrite <- Hlen. change firstn with (@take string).
    by rewrite take_app_length. }
  split; [exact Heq|]. split.
  - intros f _ Hf. rewrite Heq. by rewrite simple_agents_untouched.
  - intros r Hr. unfold Simple.analyze in Hr.
    destruct (Env.discovered e); [|done]. by simplify_eq.
Qed.

Lemma simple_analyze_first_ten_witness :
  Simple.analyze_agents sample_env_eleven_agents
  = fold_left (Simple.agent_file sample_env_eleven_agents)
      ["a0.md"; "a1.md"; "a2.md"; "a3.md"; "a4.md";
       "a5.md"; "a6.md"; "a7.md"; "a8.md"; "a9.md"]%string (0, ∅).
Proof.
  apply (simple_analyze_first_ten sample_env_eleven_agents _ ["late.md"%string]);
    reflexivity.
Defined.

(** ** The MCP loop *)

Lemma mcp_loop_snoc (table : gmap string ServerData.t) (names : list string)
    (server : string) :
  mcp_loop table (names ++ [server]) = mcp_step table (mcp_loop table names) server.
Proof. unfold mcp_loop. by rewrite fold_left_app. Qed.

Lemma js_get_not_inherited {V : Type} (obj : gmap string V) (k : string) :
  k ∉ object_prototype_keys →
  js_get obj k = match obj !! k with Some v => Own v | None => Absent end.
Proof.
  intros Hk. unfold js_get. destruct (obj !! k); [done|].
  by rewrite bool_decide_eq_false_2.
Qed.

Lemma js_set_lookup {V : Type} (k : string) (v : V) (obj : gmap string V) :
  k ∉ object_prototype_keys → js_set k v obj !! k = Some v.
Proof.
  intros Hk. unfold js_set. destruct (String.eqb_spec k "__proto__") as [->|_].
  - exfalso. apply Hk. vm_compute. set_solver.
  - apply lookup_insert_eq.
Qed.

Lemma js_set_lookup_ne {V : Type} (k k' : string) (v : V) (obj : gmap string V) :
  k ≠ k' → js_set k v obj !! k' = obj !! k'.
Proof.
  intros Hne. unfold js_set. destruct (String.eqb k "__proto__"); [done|].
  by apply lookup_insert_ne.
Qed.

(** On names that are not inherited property names, the loop adds up what
    the table says, 2000 for a name without entry. *)
Lemma mcp_loop_total (table : gmap string ServerData.t) (names : list string) :
  Forall (λ n, n ∉ object_prototype_keys) names →
  McpCache.total (mcp_loop table names) = VNum (servers_tokens table names).
Proof.
  induction names as [|server names IH] using rev_ind; intros Hall; [done|].
  apply Forall_app in Hall as [Hnames Hserver].
  apply Forall_inv in Hserver.
  rewrite mcp_loop_snoc. unfold mcp_step.
  rewrite (js_get_not_inherited _ _ Hserver).
  assert (servers_tokens table (names ++ [server])
          = servers_tokens table names + server_tokens table server) as ->.
  { unfold servers_tokens. rewrite foldr_app. simpl.
    generalize (server_tokens table server). clear.
    induction names as [|n names IH]; intros z; simpl; [lia|].
    rewrite IH. lia. }
  unfold server_tokens.
  destruct (table !! server); simpl; by rewrite (IH Hnames).
Qed.

(** A name without entry, not an inherited property name, is left with
    2000 tokens and one made-up tool. *)
Lemma mcp_loop_unknown (table : gmap string ServerData.t) (names : list string)
    (server : string) :
  server ∈ names →
  table !! server = None →
  server ∉ object_prototype_keys →
  McpCache.breakdown (mcp_loop table names) !! server = Some (VNum 2000)
  ∧ McpCache.detailed (mcp_loop table names) !! server
    = Some (Some (unknown_tool server)).
Proof.
  intros Hin Hnone Hown.
  induction names as [|x names IH] using rev_ind; [by apply elem_of_nil in Hin|].
  rewrite mcp_loop_snoc.
  destruct (decide (x = server)) as [->|Hne].
  - unfold mcp_step. rewrite (js_get_not_inherited _ _ Hown), Hnone. simpl.
    by rewrite !js_set_lookup.
  - apply elem_of_app in Hin as [Hin|Hin];
      [|apply list_elem_of_singleton in Hin; congruence].
    destruct (IH Hin) as [IHb IHd].
    unfold mcp_step. destruct (js_get table x); simpl;
      by rewrite !js_set_lookup_ne.
Qed.

(** C5. With the one server [constructor] enabled, a name that has no
    entry in either table, the MCP total is not 2000 but [NaN]: the lookup
    finds the property every object literal inherits and takes the branch of
    the known servers. The full run and the simplified run both report
    [NaN]. *)
Theorem analyzeMcpTools_inherited_name :
  mcpToolsData !! "constructor"%string = None
  ∧ mcpServers !! "constructor"%string = None
  ∧ McpCache.total (mcp_loop mcpToolsData ["constructor"%string]) = VNaN
  ∧ McpCache.breakdown (mcp_loop mcpToolsData ["constructor"%string])
    = {[ "constructor"%string := VUndefined ]}
  ∧ (Results.mcpTools
       <$> match (run_analyze sample_env_inherited_name None Cache.empty).1 with
           | Normal r => Some r
           | Throw _ => None
           end) = Some VNaN
  ∧ (Simple.mcpTools <$> Simple.analyze sample_env_inherited_name) = Some VNaN.
Proof. repeat split; vm_compute; reflexivity. Qed.

(** The two servers of the end-to-end scenario. *)
Lemma mcp_loop_fetch_sequential_thinking :
  McpCache.total (mcp_loop mcpToolsData ["fetch"; "sequential-thinking"]%string)
  = VNum 1943
  ∧ McpCache.total (mcp_loop mcpServers ["fetch"; "sequential-thinking"]%string)
    = VNum 1943.
Proof. split; vm_compute; reflexivity. Qed.

(** ** The two result caches *)

Ltac run :=
  unfold mbind, M_bind, mret, M_ret, try_catch, throw, get_cache, get_results,
    modify_results, modify_cache, await, timedExecution, before_deadline in *;
  simpl in *.

(** What the MCP analyzer leaves in the snapshot slots when it has read a
    list of servers. *)
Lemma analyzeMcpTools_async_stores (e : Env.t) (p : Project.t) (s : St.t)
    (names : list string) :
  Env.localSettings e = Some (EnabledServers names)
  ∨ (Env.localSettings e = None
     ∧ Env.globalSettings e = Some (EnabledServers names)) →
  St.cache (analyzeMcpTools_async e p s).2
  = Cache.mk (Some (mcp_loop mcpToolsData names))
      (Cache.customAgents (St.cache s)) (Cache.memoryFiles (St.cache s))
      (Some (Env.now_mcp e)) (Some (Project.projectRoot p))
      (Cache.fileCache (St.cache s)).
Proof.
  intros [Hl|[Hl Hg]]; unfold analyzeMcpTools_async, enabledMcpjsonServers;
    run; rewrite Hl; try rewrite Hg; reflexivity.
Qed.

(** C4, amended. After the MCP analyzer has stored its result for a project
    at a clock reading other than 0, [isCacheValid] misses for any other
    project path and hits for the same path exactly while less than 300000
    ms (5 minutes) have passed. After the command wrapper has stored a report
    that is not empty, [shouldUseCache] misses for any other project and hits
    for the same project exactly while less than 120000 ms (2 minutes) have
    passed. *)
Theorem snapshot_caches_hit_rule (e : Env.t) (p : Project.t) (s : St.t)
    (names : list string) (cmd : ContextCommand.t) (A B out fallback : string)
    (asked stored now : Z) :
  Env.localSettings e = Some (EnabledServers names)
  ∨ (Env.localSettings e = None
     ∧ Env.globalSettings e = Some (EnabledServers names)) →
  Env.now_mcp e ≠ 0 →
  ContextCommand.shouldUseCache cmd asked A = false →
  out ≠ ""%string →
  stored ≠ 0 →
  let c' := St.cache (analyzeMcpTools_async e p s).2 in
  let cmd' :=
    (ContextCommand.execute cmd (Some A) (Some out) asked stored fallback).2 in
  ((B ≠ Project.projectRoot p → isCacheValid c' now B = false)
   ∧ (isCacheValid c' now (Project.projectRoot p) = true
      ↔ now - Env.now_mcp e < 300000))
  ∧ ((B ≠ A → ContextCommand.shouldUseCache cmd' now B = false)
     ∧ (ContextCommand.shouldUseCache cmd' now A = true
        ↔ now - stored < 120000)).
Proof.
  intros Hsettings Hclock Hmiss Hout Hstored c' cmd'.
  subst c'. rewrite (analyzeMcpTools_async_stores e p s names Hsettings).
  subst cmd'. unfold ContextCommand.execute. rewrite Hmiss. simpl.
  unfold isCacheValid, ContextCommand.shouldUseCache, truthy_num,
    ContextCommand.truthy_str, Cache.ttl, ContextCommand.cacheTimeout. simpl.
  assert ((Env.now_mcp e =? 0) = false) as -> by by apply Z.eqb_neq.
  assert ((stored =? 0) = false) as -> by by apply Z.eqb_neq.
  assert ((out =? "")%string = false) as -> by by apply String.eqb_neq.
  simpl. repeat split.
  - intros HB. rewrite bool_decide_eq_false_2; [done|congruence].
  - rewrite bool_decide_eq_true_2 by done. simpl. apply Z.ltb_lt.
  - rewrite bool_decide_eq_true_2 by done. simpl. apply Z.ltb_lt.
  - intros HB. rewrite bool_decide_eq_false_2; [done|congruence].
  - rewrite bool_decide_eq_true_2 by done. simpl. apply Z.ltb_lt.
  - rewrite bool_decide_eq_true_2 by done. simpl. apply Z.ltb_lt.
Qed.

Lemma snapshot_caches_hit_rule_witness :
  isCacheValid
    (St.cache
       (analyzeMcpTools_async sample_env_two_servers sample_project
          (St.mk (Results.initial None) Cache.empty)).2)
    200000 "/work/app" = true.
Proof.
  apply (snapshot_caches_hit_rule sample_env_two_servers sample_project
           (St.mk (Results.initial None) Cache.empty)
           ["fetch"; "sequential-thinking"]%string
           ContextCommand.new "/work/app" "/work/other" "report" "canned"
           5000 5001 200000).
  - left. reflexivity.
  - vm_compute. discriminate.
  - reflexivity.
  - discriminate.
  - discriminate.
  - vm_compute. reflexivity.
Defined.

(** C4 as stated fails on the cache of the command wrapper: two minutes
    after a report was stored for a project, well below five minutes, the
    same project misses. A stored report that is empty never hits. *)
Lemma shouldUseCache_two_minutes :
  let cmd :=
    (ContextCommand.execute ContextCommand.new (Some "/work/app"%string)
       (Some "report"%string) 5000 5001 "canned").2 in
  let quiet :=
    (ContextCommand.execute ContextCommand.new (Some "/work/app"%string)
       (Some ""%string) 5000 5001 "canned").2 in
  (5001 + 120000) - 5001 < Cache.ttl
  ∧ ContextCommand.shouldUseCache cmd (5001 + 120000) "/work/app" = false
  ∧ ContextCommand.shouldUseCache quiet 5002 "/work/app" = false.
Proof. vm_compute. repeat split. Qed.

(** ** Runs of the analyzers *)

Section Runs.
Variable e : Env.t.
Variable p : Project.t.

Local Arguments cleanupCache : simpl never.
Local Arguments isCacheValid : simpl never.
Local Arguments isFileCacheValid : simpl never.
Local Arguments mcp_loop : simpl never.
Local Arguments estimateTokens : simpl never.
Local Arguments path_join : simpl never.
Local Arguments endsWith : simpl never.

(** The callback on an agent file ends normally and writes the file cache
    only. *)
Lemma agent_file_shape (dir : string) (acc : Z * gmap string Z) (file : string)
    (r : Results.t) (c : Cache.t) :
  ∃ acc' fc,
    agent_file e dir acc file (St.mk r c)
    = (Normal acc', St.mk r (with_fileCache fc c)).
Proof.
  destruct c. unfold agent_file, with_fileCache. run.
  destruct (endsWith file ".md"); [|by eauto].
  destruct (isFileCacheValid _ _ _).
  - destruct (map_get _ _); by eauto.
  - destruct (Env.readAgent e file); by eauto.
Qed.

Lemma foldM_agent_file_shape (dir : string) (files : list string)
    (acc : Z * gmap string Z) (r : Results.t) (c : Cache.t) :
  ∃ acc' fc,
    foldM (agent_file e dir) acc files (St.mk r c)
    = (Normal acc', St.mk r (with_fileCache fc c)).
Proof.
  revert acc c. induction files as [|file files IH]; intros acc c; simpl.
  - exists acc, (Cache.fileCache c). by destruct c.
  - destruct (agent_file_shape dir acc file r c) as (acc1 & fc1 & H1).
    destruct (IH acc1 (with_fileCache fc1 c)) as (acc2 & fc2 & H2).
    exists acc2, fc2. run. by rewrite H1, H2.
Qed.

Lemma process_batches_shape (fuel : nat) (dir : string) (files : list string)
    (acc : Z * gmap string Z) (r : Results.t) (c : Cache.t) :
  ∃ acc' fc,
    process_batches e fuel dir files acc (St.mk r c)
    = (Normal acc', St.mk r (with_fileCache fc c)).
Proof.
  revert files acc c. induction fuel as [|fuel IH]; intros files acc c; simpl.
  - exists acc, (Cache.fileCache c). by destruct c.
  - destruct files as [|file files].
    + exists acc, (Cache.fileCache c). by destruct c.
    + destruct (foldM_agent_file_shape dir (slice_first 5 (file :: files)) acc r c)
        as (acc1 & fc1 & H1).
      destruct (IH (skipn 5 (file :: files)) acc1 (with_fileCache fc1 c))
        as (acc2 & fc2 & H2).
      exists acc2, fc2. run. by rewrite H1, H2.
Qed.

(** The agents analyzer after its cache test: it ends normally; it writes
    the agents total and, unless the listing fails, the agents breakdown; in
    the cache it writes the agents slot and the file cache only. *)
Lemma analyzeCustomAgents_async_shape (r : Results.t) (c : Cache.t) :
  ∃ (v : Z) (b : option (gmap string Z)) (a : option AgentsCache.t) fc,
    analyzeCustomAgents_async e p (St.mk r c)
    = (Normal tt,
       St.mk
         (Results.set_breakdown
            (Breakdown.mk (Breakdown.mcpServers (Results.breakdown r))
               (Breakdown.mcpToolsDetailed (Results.breakdown r)) b)
            (Results.set_customAgents (VNum v) r))
         (Cache.mk (Cache.mcpTools c) a (Cache.memoryFiles c)
            (Cache.timestamp c) (Cache.projectPath c) fc))
    ∧ match Env.agentsDir e with
      | DirMissing => v = 0 ∧ b = Some ∅ ∧ a = Cache.customAgents c
      | DirUnlistable =>
          v = 8900 ∧ b = Breakdown.agents (Results.breakdown r)
          ∧ a = Cache.customAgents c
      | DirListing _ => a = Some (AgentsCache.mk v (default ∅ b))
      end.
Proof.
  unfold analyzeCustomAgents_async, fs_access, fs_readdir.
  destruct (Env.agentsDir e) as [| |files] eqn:Hdir; run.
  - exists 0, (Some ∅), (Cache.customAgents c), (Cache.fileCache c).
    by destruct c, r.
  - exists 8900, (Breakdown.agents (Results.breakdown r)),
      (Cache.customAgents c), (Cache.fileCache c).
    destruct c, r as [? ? ? ? ? ? [] ? ?]. done.
  - destruct (process_batches_shape (length files)
                (path_join (Project.claudeDir p) "agents") files (0, ∅) r c)
      as ([v b] & fc & H).
    exists v, (Some b), (Some (AgentsCache.mk v b)), fc.
    rewrite H. by destruct c, r.
Qed.

Lemma analyzeCustomAgents_partial_shape (n : nat) (r : Results.t) (c : Cache.t) :
  ∃ fc,
    analyzeCustomAgents_partial e p n (St.mk r c)
    = (Normal tt, St.mk r (with_fileCache fc c)).
Proof.
  unfold analyzeCustomAgents_partial.
  destruct (Env.agentsDir e) as [| |files]; run;
    try (exists (Cache.fileCache c); by destruct c).
  destruct (foldM_agent_file_shape (path_join (Project.claudeDir p) "agents")
              (slice_first n files) (0, ∅) r c) as (acc & fc & H).
  exists fc. by rewrite H.
Qed.


Lemma initialize_run (given : option Project.t) (c : Cache.t) :
  resolved e given = Some p →
  initialize e given (St.mk (Results.initial (Project.projectRoot <$> given)) c)
  = (Normal p,
     St.mk (Results.initial (Some (Project.projectRoot p)))
       (cleanupCache (Env.now_cleanup e) c)).
Proof.
  unfold resolved, initialize. intros Hres. run.
  destruct given as [q|]; simplify_eq; [done|]. by rewrite Hres.
Qed.

Lemma analyzeMcpTools_sync_run (r : Results.t) (c : Cache.t) :
  analyzeMcpTools_sync e p (St.mk r c)
  = match mcp_served e p c with
    | Some m =>
        (Normal true,
         St.mk
           (Results.set_mcp_breakdown (McpCache.breakdown m) (McpCache.detailed m)
              (Results.set_mcpTools (McpCache.total m) r)) c)
    | None => (Normal false, St.mk r c)
    end.
Proof.
  unfold analyzeMcpTools_sync, mcp_served. run.
  destruct (isCacheValid _ _ _); [|done]. by destruct (Cache.mcpTools c).
Qed.

Lemma analyzeCustomAgents_sync_run (r : Results.t) (c : Cache.t) :
  analyzeCustomAgents_sync e p (St.mk r c)
  = match agents_served e p c with
    | Some a =>
        (Normal true,
         St.mk
           (Results.set_agents_breakdown (AgentsCache.breakdown a)
              (Results.set_customAgents (VNum (AgentsCache.total a)) r)) c)
    | None => (Normal false, St.mk r c)
    end.
Proof.
  unfold analyzeCustomAgents_sync, agents_served. run.
  destruct (isCacheValid _ _ _); [|done]. by destruct (Cache.customAgents c).
Qed.

Lemma analyzeMemoryFiles_sync_run (r : Results.t) (c : Cache.t) :
  ∃ mf,
    analyzeMemoryFiles_sync e p (St.mk r c)
    = match memory_served e p c with
      | Some tokens =>
          (Normal true,
           St.mk (Results.set_memoryFiles (VNum tokens) r)
             (Cache.mk (Cache.mcpTools c) (Cache.customAgents c) mf
                (Cache.timestamp c) (Cache.projectPath c) (Cache.fileCache c)))
      | None => (Normal false, St.mk r c)
      end.
Proof.
  unfold analyzeMemoryFiles_sync, memory_served. run.
  destruct (isCacheValid _ _ _ && truthy_num _) eqn:Hsnap.
  - destruct c as [? ? mf ? ? ?]. exists mf. simpl in *. by destruct mf.
  - destruct (isFileCacheValid _ _ _) eqn:Hfile; [|by exists None].
    destruct (map_get _ _) as [cachedData|]; simpl; [|by exists None].
    by exists (Some (Entry.tokens cachedData)).
Qed.

Lemma analyzeMcpTools_async_run (r : Results.t) (c : Cache.t) :
  analyzeMcpTools_async e p (St.mk r c)
  = match settings_servers e with
    | Some names =>
        let m := mcp_loop mcpToolsData names in
        (Normal tt,
         St.mk
           (Results.set_mcp_breakdown (McpCache.breakdown m) (McpCache.detailed m)
              (Results.set_mcpTools (McpCache.total m) r))
           (Cache.mk (Some m) (Cache.customAgents c) (Cache.memoryFiles c)
              (Some (Env.now_mcp e)) (Some (Project.projectRoot p))
              (Cache.fileCache c)))
    | None => (Normal tt, St.mk (Results.set_mcpTools (VNum 120000) r) c)
    end.
Proof.
  unfold analyzeMcpTools_async, settings_servers, enabledMcpjsonServers. run.
  destruct (Env.localSettings e) as [[]|]; try done.
  destruct (Env.globalSettings e) as [[]|]; done.
Qed.

Lemma analyzeMemoryFiles_async_run (r : Results.t) (c : Cache.t) :
  analyzeMemoryFiles_async e p (St.mk r c)
  = match Env.readMemory e with
    | Some content =>
        (Normal tt,
         St.mk (Results.set_memoryFiles (VNum (estimateTokens content)) r)
           (Cache.mk (Cache.mcpTools c) (Cache.customAgents c)
              (Some (estimateTokens content)) (Cache.timestamp c)
              (Cache.projectPath c)
              (map_set (path_join (Project.claudeDir p) "CLAUDE.md")
                 (Entry.mk (estimateTokens content) (Env.now_memory e))
                 (Cache.fileCache c))))
    | None => (Normal tt, St.mk (Results.set_memoryFiles (VNum 2700) r) c)
    end.
Proof.
  unfold analyzeMemoryFiles_async. run. by destruct (Env.readMemory e).
Qed.

Local Arguments analyzeMcpTools_sync : simpl never.
Local Arguments analyzeCustomAgents_sync : simpl never.
Local Arguments analyzeMemoryFiles_sync : simpl never.
Local Arguments analyzeMcpTools_async : simpl never.
Local Arguments analyzeCustomAgents_async : simpl never.
Local Arguments analyzeCustomAgents_partial : simpl never.
Local Arguments analyzeMemoryFiles_async : simpl never.
Local Arguments initialize : simpl never.
Local Arguments Results.sum_of_categories : simpl never.
Local Arguments recommendations : simpl never.

(** A run of [analyze] on a resolved project, field by field. [c0] is the
    cache after [cleanupCache]. *)
Lemma analyze_run (given : option Project.t) (c : Cache.t) :
  resolved e given = Some p →
  let c0 := cleanupCache (Env.now_cleanup e) c in
  ∃ r c',
    run_analyze e given c = (Normal r, St.mk r c')
    ∧ Results.systemPrompt r = VNum 8500
    ∧ Results.systemTools r = VNum 15200
    ∧ Results.mcpTools r
      = match mcp_served e p c0 with
        | Some m => McpCache.total m
        | None =>
            if Env.mcp_pending e then VNum 0
            else match settings_servers e with
                 | Some names => McpCache.total (mcp_loop mcpToolsData names)
                 | None => VNum 120000
                 end
        end
    ∧ match agents_served e p c0 with
      | Some a => Results.customAgents r = VNum (AgentsCache.total a)
      | None =>
          match Env.agents_pending e with
          | Some _ => Results.customAgents r = VNum 0
          | None =>
              match Env.agentsDir e with
              | DirMissing =>
                  Results.customAgents r = VNum 0
                  ∧ Breakdown.agents (Results.breakdown r) = Some ∅
              | DirUnlistable => Results.customAgents r = VNum 8900
              | DirListing _ => is_integer (Results.customAgents r)
              end
          end
      end
    ∧ Results.memoryFiles r
      = match memory_served e p c0 with
        | Some tokens => VNum tokens
        | None =>
            match Env.readMemory e with
            | Some content => VNum (estimateTokens content)
            | None => VNum 2700
            end
        end
    ∧ Results.total r = Results.sum_of_categories r
    ∧ match mcp_served e p c0, Env.mcp_pending e, settings_servers e with
      | None, false, Some names =>
          Cache.mcpTools c' = Some (mcp_loop mcpToolsData names)
          ∧ Cache.timestamp c' = Some (Env.now_mcp e)
          ∧ Cache.projectPath c' = Some (Project.projectRoot p)
      | _, _, _ =>
          Cache.mcpTools c' = Cache.mcpTools c0
          ∧ Cache.timestamp c' = Cache.timestamp c0
          ∧ Cache.projectPath c' = Cache.projectPath c0
      end.
Proof.
  intros Hres c0. unfold run_analyze, analyze.
  unfold mbind at 1, M_bind at 1. rewrite (initialize_run given c Hres). fold c0.
  unfold analyzeSystemPrompt, analyzeSystemTools, generateOptimizationRecommendations.
  do 4 run.
  rewrite analyzeMcpTools_sync_run.
  destruct (mcp_served e p c0) as [m|] eqn:Hmcp;
    rewrite analyzeCustomAgents_sync_run;
    destruct (agents_served e p c0) as [a|] eqn:Hagents;
    match goal with
    | |- context [analyzeMemoryFiles_sync e p (St.mk ?r ?c)] =>
        destruct (analyzeMemoryFiles_sync_run r c) as [mf ->]
    end;
    destruct (memory_served e p c0) as [tokens|] eqn:Hmemory; simpl.
  all: destruct (Env.mcp_pending e); simpl;
    rewrite ?analyzeMcpTools_async_run;
    destruct (settings_servers e) as [names|]; simpl.
  all: destruct (Env.agents_pending e) as [n|]; simpl;
    repeat match goal with
    | |- context [analyzeCustomAgents_partial e p ?n (St.mk ?r ?c)] =>
        destruct (analyzeCustomAgents_partial_shape n r c) as [fc ->]; simpl
    | |- context [analyzeCustomAgents_async e p (St.mk ?r ?c)] =>
        destruct (analyzeCustomAgents_async_shape r c)
          as (v & b & ac & fc & -> & Hdir); simpl
    end.
  all: rewrite ?analyzeMemoryFiles_async_run;
    destruct (Env.readMemory e) as [content|]; simpl.
  all: eexists _, _; (split; [reflexivity|]); simpl.
  all: unfold Results.sum_of_categories; simpl.
  all: try (destruct (Env.agentsDir e); simpl in *; destruct_and?; subst).
  all: repeat split; try done.
Qed.

(** ** The aggregator *)

(** On a resolved project the [analyze] of a new analyzer returns and does
    not throw, whatever is missing, malformed or slow. The system prompt is
    8500 and the system tools 15200. The MCP and the agents category hold
    what their analyzer took from the cache at launch; else, when the
    analyzer is still pending at the deadline, the 0 the constructor gave
    them; else what the analyzer assigned, the computed value or the
    constant of its [catch] (120000, 8900). The memory category holds what
    its analyzer took from the cache, else the tokens of the file, else the
    2700 of its [catch], also when the read was cut short by its timer. The
    total is the sum of the five. *)
Lemma analyze_never_throws (given : option Project.t) (c : Cache.t) :
  resolved e given = Some p →
  let c0 := cleanupCache (Env.now_cleanup e) c in
  ∃ r c',
    run_analyze e given c = (Normal r, St.mk r c')
    ∧ Results.systemPrompt r = VNum 8500
    ∧ Results.systemTools r = VNum 15200
    ∧ Results.mcpTools r
      = match mcp_served e p c0 with
        | Some m => McpCache.total m
        | None =>
            if Env.mcp_pending e then VNum 0
            else match settings_servers e with
                 | Some names => McpCache.total (mcp_loop mcpToolsData names)
                 | None => VNum 120000
                 end
        end
    ∧ match agents_served e p c0 with
      | Some a => Results.customAgents r = VNum (AgentsCache.total a)
      | None =>
          match Env.agents_pending e with
          | Some _ => Results.customAgents r = VNum 0
          | None =>
              match Env.agentsDir e with
              | DirMissing => Results.customAgents r = VNum 0
              | DirUnlistable => Results.customAgents r = VNum 8900
              | DirListing _ => is_integer (Results.customAgents r)
              end
          end
      end
    ∧ Results.memoryFiles r
      = match memory_served e p c0 with
        | Some tokens => VNum tokens
        | None =>
            match Env.readMemory e with
            | Some content => VNum (estimateTokens content)
            | None => VNum 2700
            end
        end
    ∧ Results.total r = Results.sum_of_categories r.
Proof.
  intros Hres c0.
  destruct (analyze_run given c Hres)
    as (r & c' & Hrun & Hsp & Hst & Hmcp & Hag & Hmem & Htot & _).
  exists r, c'. repeat split; try done.
  fold c0 in Hag. destruct (agents_served e p c0); [done|].
  destruct (Env.agents_pending e); [done|].
  destruct (Env.agentsDir e); [by destruct Hag|done|done].
Qed.

(** C7, amended. What [analyze] leaves in the snapshot slots (MCP result,
    timestamp, project path) of the cache. If the MCP analyzer was served
    from the cache, the three slots are what they were before the run: the
    entry of the project stays, with the timestamp it had. If the MCP
    analyzer took nothing from the cache, settled before the deadline and
    read a list of servers, the slots hold the result of this run, the clock
    reading of this run and the project of this run. Otherwise, the MCP
    analyzer still pending at the deadline or ended in its [catch] with
    120000, [analyze] writes none of the three slots: they are as
    [cleanupCache] left them, empty when the snapshot was older than the TTL
    at the cleanup or when there was none, else the earlier snapshot with
    its timestamp and its project, valid or not. *)
Theorem analyze_snapshot_slots (given : option Project.t) (c : Cache.t) :
  resolved e given = Some p →
  let c0 := cleanupCache (Env.now_cleanup e) c in
  let expired :=
    truthy_num (Cache.timestamp c)
    && match Cache.timestamp c with
       | Some ts => Cache.ttl <? Env.now_cleanup e - ts
       | None => false
       end in
  let unwritten (c' : Cache.t) :=
    Cache.mcpTools c' = (if expired then None else Cache.mcpTools c)
    ∧ Cache.timestamp c' = (if expired then None else Cache.timestamp c)
    ∧ Cache.projectPath c' = (if expired then None else Cache.projectPath c) in
  ∃ r c',
    run_analyze e given c = (Normal r, St.mk r c')
    ∧ match mcp_served e p c0 with
      | Some m =>
          Results.mcpTools r = McpCache.total m
          ∧ Cache.mcpTools c = Some m
          ∧ Cache.projectPath c = Some (Project.projectRoot p)
          ∧ (∃ ts, Cache.timestamp c = Some ts
                   ∧ Env.now_launch e - ts < Cache.ttl)
          ∧ Cache.mcpTools c' = Cache.mcpTools c
          ∧ Cache.timestamp c' = Cache.timestamp c
          ∧ Cache.projectPath c' = Cache.projectPath c
      | None =>
          if Env.mcp_pending e then
            Results.mcpTools r = VNum 0 ∧ unwritten c'
          else match settings_servers e with
               | Some names =>
                   Results.mcpTools r
                   = McpCache.total (mcp_loop mcpToolsData names)
                   ∧ Cache.mcpTools c' = Some (mcp_loop mcpToolsData names)
                   ∧ Cache.timestamp c' = Some (Env.now_mcp e)
                   ∧ Cache.projectPath c' = Some (Project.projectRoot p)
               | None =>
                   Results.mcpTools r = VNum 120000 ∧ unwritten c'
               end
      end.
Proof.
  intros Hres c0 expired unwritten.
  destruct (analyze_run given c Hres)
    as (r & c' & Hrun & _ & _ & Hmcp & _ & _ & _ & Hslots).
  exists r, c'. split; [done|]. fold c0 in Hslots, Hmcp.
  assert (Cache.mcpTools c0 = (if expired then None else Cache.mcpTools c)
          ∧ Cache.timestamp c0 = (if expired then None else Cache.timestamp c)
          ∧ Cache.projectPath c0
            = (if expired then None else Cache.projectPath c))
    as (Hm0 & Hts0 & Hpath0).
  { subst c0 expired. unfold cleanupCache. cbn zeta. by destruct (_ && _). }
  destruct (mcp_served e p c0) as [m|] eqn:Hserved.
  - assert (Cache.mcpTools c' = Cache.mcpTools c0
            ∧ Cache.timestamp c' = Cache.timestamp c0
            ∧ Cache.projectPath c' = Cache.projectPath c0) as (Hm & Hts & Hpath).
    { by destruct (Env.mcp_pending e), (settings_servers e). }
    clear Hslots.
    assert (Cache.mcpTools c0 = Some m
            ∧ Cache.projectPath c0 = Some (Project.projectRoot p)
            ∧ ∃ ts, Cache.timestamp c0 = Some ts
                    ∧ Env.now_launch e - ts < Cache.ttl)
      as (Hm1 & Hpath1 & ts & Hts1 & Hyoung).
    { unfold mcp_served, isCacheValid in Hserved.
      destruct (truthy_num (Cache.timestamp c0)); [|done].
      destruct (bool_decide_reflect (Cache.projectPath c0
                                     = Some (Project.projectRoot p)));
        [|done].
      destruct (Cache.timestamp c0) as [ts|]; [|done]. simpl in Hserved.
      destruct (Z.ltb_spec (Env.now_launch e - ts) Cache.ttl); [|done].
      by eauto. }
    destruct expired; [congruence|].
    rewrite Hm, Hts, Hpath, <- Hm0, <- Hts0, <- Hpath0.
    split_and!; try done. by exists ts.
  - unfold unwritten. rewrite <- Hm0, <- Hts0, <- Hpath0.
    destruct (Env.mcp_pending e); [done|].
    by destruct (settings_servers e).
Qed.

(** When no enabled server bears the name of an inherited property and the
    cached MCP total, if one is used, is an integer, the five categories are
    integers and the total is their sum. *)
Lemma analyze_total_of_integers (given : option Project.t) (c : Cache.t) :
  resolved e given = Some p →
  (∀ names, settings_servers e = Some names →
     Forall (λ n, n ∉ object_prototype_keys) names) →
  (∀ m, mcp_served e p (cleanupCache (Env.now_cleanup e) c) = Some m →
     is_integer (McpCache.total m)) →
  ∃ r c' (sp st mcp ag mem : Z),
    run_analyze e given c = (Normal r, St.mk r c')
    ∧ Results.systemPrompt r = VNum sp
    ∧ Results.systemTools r = VNum st
    ∧ Results.mcpTools r = VNum mcp
    ∧ Results.customAgents r = VNum ag
    ∧ Results.memoryFiles r = VNum mem
    ∧ Results.total r = VNum (sp + st + mcp + ag + mem).
Proof.
  intros Hres Hnames Hcached.
  destruct (analyze_run given c Hres)
    as (r & c' & Hrun & Hsp & Hst & Hmcp & Hag & Hmem & Htot & _).
  assert (∃ mcp, Results.mcpTools r = VNum mcp) as [mcp Hmcp'].
  { rewrite Hmcp. destruct (mcp_served _ _ _) as [m|].
    - specialize (Hcached m eq_refl). destruct (McpCache.total m); by eauto.
    - destruct (Env.mcp_pending e); [by eauto|].
      destruct (settings_servers e) as [names|]; [|by eauto].
      rewrite mcp_loop_total; by eauto. }
  assert (∃ ag, Results.customAgents r = VNum ag) as [ag Hag'].
  { destruct (agents_served _ _ _); [by eauto|].
    destruct (Env.agents_pending e); [by eauto|].
    destruct (Env.agentsDir e); [destruct Hag; by eauto|by eauto|].
    destruct (Results.customAgents r); by eauto. }
  assert (∃ mem, Results.memoryFiles r = VNum mem) as [mem Hmem'].
  { rewrite Hmem. destruct (memory_served _ _ _); [by eauto|].
    destruct (Env.readMemory e); by eauto. }
  exists r, c', 8500, 15200, mcp, ag, mem. repeat split; try done.
  rewrite Htot. unfold Results.sum_of_categories.
  by rewrite Hsp, Hst, Hmcp', Hag', Hmem'.
Qed.

(** C6, amended. With no agents directory, the full analyzer, when it does
    not take the category from the cache, sets the agents total to 0 and the
    agents breakdown to the empty object and ends normally, the cache
    untouched; the simplified analyzer sets the agents total to 4500, the
    constant of its [catch], and leaves the breakdown empty. *)
Theorem analyzeCustomAgents_missing_directory (r : Results.t) (c : Cache.t) :
  Env.agentsDir e = DirMissing →
  agents_served e p c = None →
  (∃ r',
     analyzeCustomAgents e p (St.mk r c) = (Normal tt, St.mk r' c)
     ∧ Results.customAgents r' = VNum 0
     ∧ Breakdown.agents (Results.breakdown r') = Some ∅)
  ∧ Simple.analyze_agents e = (4500, ∅)
  ∧ (∀ out, Simple.analyze e = Some out →
       Simple.customAgents out = VNum 4500 ∧ Simple.agentBreakdown out = ∅).
Proof.
  intros Hdir Hserved. split; [|split].
  - unfold analyzeCustomAgents. run.
    rewrite analyzeCustomAgents_sync_run, Hserved.
    destruct (analyzeCustomAgents_async_shape r c)
      as (v & b & a & fc & Hrun & Hshape).
    rewrite Hdir in Hshape. destruct Hshape as (-> & -> & ->).
    unfold analyzeCustomAgents_async, fs_access in *. rewrite Hdir in *.
    run. eexists. split; [reflexivity|]. by destruct r.
  - unfold Simple.analyze_agents. by rewrite Hdir.
  - intros out Hout. unfold Simple.analyze, Simple.analyze_agents in Hout.
    rewrite Hdir in Hout. destruct (Env.discovered e); by simplify_eq.
Qed.
End Runs.

Lemma analyze_never_throws_witness :
  ∃ r c',
    run_analyze sample_env_slow_agents None Cache.empty = (Normal r, St.mk r c')
    ∧ Results.customAgents r = VNum 0.
Proof.
  destruct (analyze_never_throws sample_env_slow_agents sample_project None
              Cache.empty eq_refl)
    as (r & c' & Hrun & _ & _ & _ & Hagents & _).
  exists r, c'. split; [exact Hrun|exact Hagents].
Defined.

(** C2. The claim fails on the code when the deadline of [analyze] comes
    before an analyzer has settled. A new analyzer on an empty cache, the
    read of the settings still pending at the deadline: [analyze] returns
    and the MCP category holds 0, the value of the constructor, which is
    neither the 1943 of the completed analysis nor the 120000 that the
    [catch] of the analyzer assigns when the settings cannot be read; the
    total, 26400, is that of a project without MCP servers. Likewise with
    the read of the one agent file still pending: the agents category holds
    0, neither the 2 of the completed analysis nor the 8900 of the [catch]. *)
Theorem analyze_deadline_leaves_zero :
  let result e := completion_value (run_analyze e None Cache.empty).1 in
  Env.mcp_pending sample_env_slow_settings = true
  ∧ (Results.mcpTools <$> result sample_env_slow_settings) = Some (VNum 0)
  ∧ (Results.total <$> result sample_env_slow_settings)
    = Some (VNum (8500 + 15200 + 0 + 0 + 2700))
  ∧ (Results.mcpTools <$> result sample_env_two_servers) = Some (VNum 1943)
  ∧ (Results.mcpTools <$> result sample_env_one_agent) = Some (VNum 120000)
  ∧ Env.agents_pending sample_env_slow_agents = Some O
  ∧ (Results.customAgents <$> result sample_env_slow_agents) = Some (VNum 0)
  ∧ (Results.customAgents <$> result sample_env_one_agent) = Some (VNum 2)
  ∧ VNum 0 ≠ VNum 8900.
Proof. repeat split; try discriminate; vm_compute; reflexivity. Qed.

Lemma analyze_snapshot_slots_witness :
  (∃ r c',
     run_analyze sample_env_two_servers None Cache.empty = (Normal r, St.mk r c')
     ∧ Cache.timestamp c' = Some 1001)
  ∧ (∃ r c',
       run_analyze sample_env_late_unreadable None sample_cache_stamped
       = (Normal r, St.mk r c')
       ∧ Results.mcpTools r = VNum 120000
       ∧ Cache.timestamp c' = Some 1000
       ∧ Cache.projectPath c' = Some "/work/app"%string
       ∧ isCacheValid c' 301000 "/work/app" = false).
Proof.
  split.
  - destruct (analyze_snapshot_slots sample_env_two_servers sample_project None
                Cache.empty eq_refl)
      as (r & c' & Hrun & _ & _ & Hstamp & _).
    exists r, c'. split; [exact Hrun|exact Hstamp].
  - destruct (analyze_snapshot_slots sample_env_late_unreadable sample_project
                None sample_cache_stamped eq_refl)
      as (r & c' & Hrun & Hmcp & _ & Hstamp & Hpath).
    exists r, c'. split_and!; [exact Hrun|exact Hmcp|exact Hstamp|exact Hpath|].
    unfold isCacheValid. cbn in Hstamp. rewrite Hstamp.
    apply andb_false_intro2. reflexivity.
Defined.

(** C7 as stated fails when the settings cannot be read: [analyze] returns
    with the MCP constant 120000 and the snapshot slots still empty. It fails
    as well when the MCP analyzer is still pending at the deadline. *)
Lemma analyze_fallback_stores_no_snapshot :
  let out := run_analyze sample_env_eleven_agents None Cache.empty in
  let slow := run_analyze sample_env_slow_settings None Cache.empty in
  (Results.mcpTools <$> completion_value out.1) = Some (VNum 120000)
  ∧ Cache.timestamp (St.cache out.2) = None
  ∧ Cache.projectPath (St.cache out.2) = None
  ∧ (Results.mcpTools <$> completion_value slow.1) = Some (VNum 0)
  ∧ Cache.timestamp (St.cache slow.2) = None
  ∧ Cache.projectPath (St.cache slow.2) = None.
Proof. vm_compute. repeat split. Qed.

Lemma analyzeCustomAgents_missing_directory_witness :
  Simple.analyze_agents sample_env_two_servers = (4500, ∅).
Proof.
  apply (analyzeCustomAgents_missing_directory sample_env_two_servers
           sample_project (Results.initial None) Cache.empty);
    reflexivity.
Defined.

(** C6 as stated fails on the simplified analyzer, which reports 4500 for a
    project without agents directory. It fails as well on the full analyzer
    when the category is served from the cache: a second after a run that
    found one agent file, the directory now removed, the agents total is
    still 2. *)
Lemma simple_missing_directory_not_zero :
  Env.agentsDir sample_env_two_servers = DirMissing
  ∧ (Simple.customAgents <$> Simple.analyze sample_env_two_servers)
    = Some (VNum 4500)
  ∧ Env.agentsDir sample_env_agents_removed = DirMissing
  ∧ (Results.customAgents
       <$> completion_value
             (run_analyze sample_env_agents_removed None
                (St.cache
                   (run_analyze sample_env_agents_and_servers None
                      Cache.empty).2)).1)
    = Some (VNum 2).
Proof. repeat split; vm_compute; reflexivity. Qed.

(** C1. With the one server [constructor] enabled, the result of [analyze]
    has [NaN] for the MCP category and for the total, and so has the
    simplified analyzer: neither is an integer. *)
Theorem analyze_total_not_a_number :
  let out := run_analyze sample_env_inherited_name None Cache.empty in
  (Results.mcpTools <$> completion_value out.1) = Some VNaN
  ∧ (Results.total <$> completion_value out.1) = Some VNaN
  ∧ (Simple.total <$> Simple.analyze sample_env_inherited_name) = Some VNaN
  ∧ ¬ is_integer VNaN.
Proof. repeat split; try (vm_compute; reflexivity). intros []. Qed.

(** Without a project, neither given nor found, [analyze] throws from
    [initialize], after the cache has been cleaned. *)
Lemma analyze_throws_without_project (e : Env.t) (c : Cache.t) :
  Env.discovered e = None →
  ∃ message,
    run_analyze e None c
    = (Throw message,
       St.mk (Results.initial None) (cleanupCache (Env.now_cleanup e) c)).
Proof.
  intros Hnone. unfold run_analyze, analyze, initialize. run.
  rewrite Hnone. by eexists.
Qed.

(** The end-to-end scenario: [fetch] and [sequential-thinking] enabled, no
    agents directory, no memory file. The full analyzer reports 1943, 0 and
    2700, in total 28343; the simplified analyzer reports 1943, 4500 and
    13200, in total 43343. *)
Lemma end_to_end_two_servers :
  let full :=
    completion_value (run_analyze sample_env_two_servers None Cache.empty).1 in
  let simple := Simple.analyze sample_env_two_servers in
  (Results.mcpTools <$> full) = Some (VNum 1943)
  ∧ (Results.customAgents <$> full) = Some (VNum 0)
  ∧ (Results.memoryFiles <$> full) = Some (VNum 2700)
  ∧ (Results.total <$> full) = Some (VNum (8500 + 15200 + 1943 + 0 + 2700))
  ∧ (Simple.mcpTools <$> simple) = Some (VNum 1943)
  ∧ (Simple.customAgents <$> simple) = Some (VNum 4500)
  ∧ (Simple.memoryFiles <$> simple) = Some (VNum 13200)
  ∧ (Simple.total <$> simple)
    = Some (VNum (8500 + 15200 + 1943 + 4500 + 13200)).
Proof. repeat split; vm_compute; reflexivity. Qed.


(** * Further properties

    ** The directory locator *)

Lemma string_app_cons (ch : Ascii.ascii) (a b : string) :
  (String ch a +:+ b)%string = String ch (a +:+ b).
Proof. reflexivity. Qed.

Lemma prefix_app (a b : string) : String.prefix a (a +:+ b) = true.
Proof.
  induction a as [|ch a IH]; [by destruct b|].
  rewrite string_app_cons. simpl.
  destruct (Ascii.ascii_dec ch ch); [exact IH|done].
Qed.

Lemma string_app_assoc (a b c : string) : ((a +:+ b) +:+ c = a +:+ (b +:+ c))%string.
Proof. induction a as [|ch a IH]; [done|]. rewrite !string_app_cons. by f_equal. Qed.

Lemma string_app_nil_r (a : string) : (a +:+ "" = a)%string.
Proof. induction a as [|ch a IH]; [done|]. rewrite string_app_cons. by f_equal. Qed.

Lemma path_string_child (p : path) (name : string) :
  p ≠ [] → path_string (path_child p name) = (path_string p +:+ ("/" +:+ name))%string.
Proof.
  intros Hp. destruct p as [|x p]; [done|]. unfold path_child, path_string.
  change (rev (name :: x :: p)) with (rev (x :: p) ++ [name]).
  rewrite foldr_app. simpl foldr at 2.
  generalize (rev (x :: p)). intros l. rewrite string_app_nil_r.
  induction l as [|y l IH]; [done|].
  cbn [foldr]. rewrite IH. by rewrite !string_app_assoc.
Qed.

Lemma startsWith_child (p : path) (name : string) :
  p ≠ [] → startsWith (path_string (path_child p name)) (path_string p) = true.
Proof. intros Hp. unfold startsWith. rewrite path_string_child by done. apply prefix_app. Qed.

Lemma full_locator_spec (fs : Fs.t) (start : path) :
  match findClaudeDirectory fs start with
  | Some claudePath =>
      ∃ k, (k < length start)%nat
           ∧ claudePath = path_child (drop k start) ".claude"
           ∧ Fs.is_directory fs claudePath = true
           ∧ ∀ j, (j < k)%nat →
               Fs.is_directory fs (path_child (drop j start) ".claude") = false
  | None =>
      ∀ k, (k < length start)%nat →
        Fs.is_directory fs (path_child (drop k start) ".claude") = false
  end.
Proof.
  induction start as [|name parent IH]; simpl.
  - intros k Hk. lia.
  - destruct (Fs.is_directory fs (path_child (name :: parent) ".claude")) eqn:Hdir.
    + exists 0%nat. repeat split; [lia|done|]. intros j Hj. lia.
    + destruct (findClaudeDirectory fs parent) as [c|].
      * destruct IH as (k & Hk & -> & Hc & Hnear).
        exists (S k). repeat split; [lia|done|].
        intros [|j] Hj; [done|]. apply Hnear. lia.
      * intros [|k] Hk; [done|]. apply IH. lia.
Qed.

Lemma simple_loop_spec (fs : Fs.t) (start : path) (iterations : nat) :
  match SimpleLocator.loop fs iterations start with
  | (Some claudePath, events) =>
      events = []
      ∧ ∃ k, (k < length start)%nat
             ∧ (k < SimpleLocator.maxIterations - iterations)%nat
             ∧ claudePath = path_child (drop k start) ".claude"
             ∧ Fs.accessible fs claudePath = true
             ∧ ∀ j, (j < k)%nat →
                 Fs.accessible fs (path_child (drop j start) ".claude") = false
  | (None, events) =>
      (∀ k, (k < length start)%nat →
         (k < SimpleLocator.maxIterations - iterations)%nat →
         Fs.accessible fs (path_child (drop k start) ".claude") = false)
      ∧ events
        = if decide (SimpleLocator.maxIterations - iterations ≤ length start)%nat
          then ["max_iterations_exceeded_simple"%string] else []
  end.
Proof.
  revert iterations. unfold SimpleLocator.maxIterations.
  induction start as [|name parent IH]; intros iterations.
  - simpl. split; [intros; lia|].
    unfold SimpleLocator.after_loop, SimpleLocator.maxIterations.
    destruct (Nat.leb_spec 50 iterations);
      case_decide; simpl in *; try done; lia.
  - cbn [SimpleLocator.loop].
    unfold SimpleLocator.after_loop, SimpleLocator.maxIterations.
    destruct (Nat.ltb_spec iterations 50) as [Hlt|Hge].
    + rewrite startsWith_child by done. cbn [negb].
      destruct (Fs.accessible fs (path_child (name :: parent) ".claude")) eqn:Hacc.
      * split; [done|]. exists 0%nat.
        repeat split; [simpl; lia|lia|done|]. intros; lia.
      * specialize (IH (S iterations)).
        destruct (SimpleLocator.loop fs (S iterations) parent) as [[c|] events].
        -- destruct IH as (-> & k & Hk & Hb & -> & Hc & Hnear). split; [done|].
           exists (S k). repeat split; [simpl; lia|lia|done|].
           intros [|j] Hj; [done|]. apply Hnear. lia.
        -- destruct IH as [Hnone ->]. split.
           ++ intros [|k] Hk Hb; [done|]. apply Hnone; simpl in *; lia.
           ++ simpl length. repeat case_decide; try done; lia.
    + split; [intros; lia|].
      destruct (Nat.leb_spec 50 iterations); [|lia].
      case_decide; [done|lia].
Qed.

(** X1. The locator of the full analyzer answers the [.claude] directory of
    the nearest ancestor of the start path, the start path included and the
    file system root excluded, that has one; it answers [null] exactly when
    none below the root has one. A [.claude] directly under the root is never
    looked at. *)
Theorem findClaudeDirectory_nearest (fs : Fs.t) (start : path) :
  match findClaudeDirectory fs start with
  | Some claudePath =>
      ∃ k, (k < length start)%nat
           ∧ claudePath = path_child (drop k start) ".claude"
           ∧ Fs.is_directory fs claudePath = true
           ∧ ∀ j, (j < k)%nat →
               Fs.is_directory fs (path_child (drop j start) ".claude") = false
  | None =>
      ∀ k, (k < length start)%nat →
        Fs.is_directory fs (path_child (drop k start) ".claude") = false
  end.
Proof. apply full_locator_spec. Qed.

(** X2. The locator of the simplified analyzer looks at the working
    directory and its ancestors below the root, 50 of them at most, and
    answers the first [.claude] entry that [fs.access] accepts; deeper
    ancestors are never tried. It never logs a path traversal event, and it
    logs the event of the exceeded bound exactly when it finds nothing from a
    working directory 50 or more levels deep. *)
Theorem simple_findClaudeDirectory_bounded (fs : Fs.t) (cwd : path) :
  match SimpleLocator.findClaudeDirectory fs cwd with
  | (Some claudePath, events) =>
      events = []
      ∧ ∃ k, (k < length cwd)%nat ∧ (k < 50)%nat
             ∧ claudePath = path_child (drop k cwd) ".claude"
             ∧ Fs.accessible fs claudePath = true
             ∧ ∀ j, (j < k)%nat →
                 Fs.accessible fs (path_child (drop j cwd) ".claude") = false
  | (None, events) =>
      (∀ k, (k < length cwd)%nat → (k < 50)%nat →
         Fs.accessible fs (path_child (drop k cwd) ".claude") = false)
      ∧ events
        = if decide (50 ≤ length cwd)%nat
          then ["max_iterations_exceeded_simple"%string] else []
  end.
Proof. apply (simple_loop_spec fs cwd 0). Qed.

(** X3. From a start path at most 50 levels deep, on which every [.claude]
    entry that can be accessed is a directory and conversely, the simplified
    locator and the locator of the full analyzer answer the same. *)
Theorem locators_agree (fs : Fs.t) (start : path) :
  (length start ≤ 50)%nat →
  (∀ k, (k < length start)%nat →
     Fs.accessible fs (path_child (drop k start) ".claude")
     = Fs.is_directory fs (path_child (drop k start) ".claude")) →
  (SimpleLocator.findClaudeDirectory fs start).1 = findClaudeDirectory fs start.
Proof.
  intros Hdepth Hsame.
  pose proof (simple_loop_spec fs start 0) as Hs.
  unfold SimpleLocator.maxIterations in Hs. rewrite Nat.sub_0_r in Hs.
  fold (SimpleLocator.findClaudeDirectory fs start) in Hs.
  pose proof (full_locator_spec fs start) as Hf.
  destruct (SimpleLocator.findClaudeDirectory fs start) as [[c|] events];
    destruct (findClaudeDirectory fs start) as [c'|]; simpl; try done.
  - destruct Hs as (_ & k & Hk & _ & -> & Hc & Hnear).
    destruct Hf as (k' & Hk' & -> & Hc' & Hnear').
    destruct (Nat.lt_trichotomy k k') as [Hlt|[->|Hgt]]; [|done|].
    + specialize (Hnear' k Hlt). rewrite <- Hsame in Hnear' by done. congruence.
    + specialize (Hnear k' Hgt). rewrite Hsame in Hnear by done. congruence.
  - destruct Hs as (_ & k & Hk & _ & -> & Hc & _).
    specialize (Hf k Hk). rewrite <- Hsame in Hf by done. congruence.
  - destruct Hs as [Hnone _]. destruct Hf as (k & Hk & -> & Hc & _).
    specialize (Hnone k Hk ltac:(lia)). rewrite Hsame in Hnone by done. congruence.
Qed.

Lemma locators_agree_witness :
  (SimpleLocator.findClaudeDirectory sample_fs sample_cwd).1
  = findClaudeDirectory sample_fs sample_cwd.
Proof.
  apply (locators_agree sample_fs sample_cwd).
  - simpl. lia.
  - intros k Hk. reflexivity.
Defined.

(** X4. The locator of the command wrapper finds what the locator of the
    full analyzer finds: its [claudeDir] is the directory the other answers,
    its [projectRoot] the parent of that directory, and it answers [null]
    exactly when the other does. *)
Theorem command_locator_agrees (fs : Fs.t) (start : path) :
  CommandLocator.findClaudeDirectory fs start
  = (λ claudePath, (claudePath, path_dirname claudePath))
      <$> findClaudeDirectory fs start.
Proof.
  induction start as [|name parent IH]; simpl; [done|].
  by destruct (Fs.is_directory fs _).
Qed.

(** ** [cleanupCache] on any cache *)

Section CleanupFacts.
Context {V : Type}.
Implicit Types (m l : jsmap V) (P : string * V → bool).

(** The deleting loop keeps the entries whose key no deleted entry has. *)
Lemma fold_delete_filter P l m :
  fold_left (λ m kv, if P kv then map_delete (kv.1) m else m) l m
  = List.filter
      (λ e, negb (existsb (λ kv, P kv && String.eqb (kv.1) (e.1)) l)) m.
Proof.
  revert m. induction l as [|kv l IH]; intros m; simpl.
  - induction m as [|e m IHm]; simpl; [done|]. by rewrite <- IHm.
  - rewrite IH. destruct (P kv) eqn:HP; simpl; [|done].
    unfold map_delete. clear IH.
    induction m as [|e m IHm]; simpl; [done|].
    destruct (String.eqb (kv.1) (e.1)); simpl; [done|].
    destruct (existsb _ l); simpl; by rewrite IHm.
Qed.

Lemma fold_delete_unique_keys P l :
  NoDup (map_keys l) →
  fold_left (λ m kv, if P kv then map_delete (kv.1) m else m) l l
  = List.filter (λ e, negb (P e)) l.
Proof.
  intros Hnd. rewrite fold_delete_filter.
  apply List.filter_ext_in. intros e He. f_equal.
  apply list_elem_of_In in He.
  destruct (P e) eqn:HPe.
  - apply existsb_exists. exists e. split; [by apply list_elem_of_In|].
    by rewrite HPe, String.eqb_refl.
  - apply not_true_is_false. intros (kv & Hkv & Hc)%existsb_exists.
    apply andb_true_iff in Hc as [HPkv Heq]. apply String.eqb_eq in Heq.
    apply list_elem_of_In in Hkv.
    assert (kv = e) as ->; [|congruence].
    clear -Hnd He Hkv Heq. unfold map_keys in Hnd.
    induction l as [|x l IH]; [by apply elem_of_nil in He|].
    apply NoDup_cons in Hnd as [Hx Hnd].
    apply elem_of_cons in He as [->|He]; apply elem_of_cons in Hkv as [->|Hkv];
      try done.
    + exfalso. apply Hx. rewrite <- Heq. by apply list_elem_of_fmap_2.
    + exfalso. apply Hx. rewrite Heq. by apply list_elem_of_fmap_2.
    + by apply IH.
Qed.

Lemma map_set_length k (v : V) m : (length (map_set k v m) ≤ S (length m))%nat.
Proof.
  induction m as [|[k' v'] m IH]; simpl; [lia|].
  destruct (String.eqb k k'); simpl; lia.
Qed.

Lemma fold_map_set_length l m :
  (length (fold_left (λ m kv, map_set (kv.1) (kv.2) m) l m)
   ≤ length m + length l)%nat.
Proof.
  revert m. induction l as [|kv l IH]; intros m; simpl; [lia|].
  specialize (IH (map_set (kv.1) (kv.2) m)).
  pose proof (map_set_length (kv.1) (kv.2) m). lia.
Qed.

Lemma map_set_elem_of k (v : V) m e :
  e ∈ map_set k v m → e = (k, v) ∨ e ∈ m.
Proof.
  induction m as [|[k' v'] m IH]; simpl.
  - intros ->%list_elem_of_singleton. by left.
  - destruct (String.eqb k k').
    + intros [->|He]%elem_of_cons; [by left|right; by right].
    + intros [->|He]%elem_of_cons; [right; left|].
      destruct (IH He); [by left|right; by right].
Qed.

Lemma fold_map_set_elem_of l m e :
  e ∈ fold_left (λ m kv, map_set (kv.1) (kv.2) m) l m → e ∈ m ∨ e ∈ l.
Proof.
  revert m. induction l as [|[k v] l IH]; intros m; simpl; [by left|].
  intros [He|He]%IH; [|right; by right].
  apply map_set_elem_of in He as [->|He]; [right; left|by left].
Qed.

Lemma map_set_keys_NoDup k (v : V) m :
  NoDup (map_keys m) → NoDup (map_keys (map_set k v m)).
Proof.
  unfold map_keys. induction m as [|[k' v'] m IH]; simpl.
  - intros _. apply NoDup_singleton.
  - intros [Hk' Hnd]%NoDup_cons. destruct (String.eqb_spec k k') as [->|Hne]; simpl.
    + by apply NoDup_cons.
    + apply NoDup_cons. split; [|by apply IH].
      intros (e & He1 & He2)%list_elem_of_fmap.
      apply map_set_elem_of in He2 as [->|He2]; [done|].
      apply Hk'. rewrite He1. by apply list_elem_of_fmap_2.
Qed.

Lemma fold_map_set_keys_NoDup l m :
  NoDup (map_keys m) →
  NoDup (map_keys (fold_left (λ m kv, map_set (kv.1) (kv.2) m) l m)).
Proof.
  revert m. induction l as [|kv l IH]; intros m Hnd; simpl; [done|].
  by apply IH, map_set_keys_NoDup.
Qed.
End CleanupFacts.

Lemma filter_keys_NoDup {V : Type} (f : string * V → bool) (l : jsmap V) :
  NoDup (map_keys l) → NoDup (map_keys (List.filter f l)).
Proof.
  unfold map_keys. induction l as [|e l IH]; simpl; [done|].
  intros [He Hnd]%NoDup_cons. destruct (f e); simpl; [|by apply IH].
  apply NoDup_cons. split; [|by apply IH].
  intros (x & Hx1 & Hx2)%list_elem_of_fmap. apply He. rewrite Hx1.
  apply list_elem_of_fmap_2. apply list_elem_of_In in Hx2.
  apply List.filter_In in Hx2 as [Hx2 _]. by apply list_elem_of_In.
Qed.

(** The file cache that [cleanupCache] leaves, in two steps. *)
Lemma cleanupCache_fileCache (now : Z) (c : Cache.t) :
  let fc1 :=
    fold_left
      (λ m kv,
         if Cache.fileCacheTtl <? now - Entry.timestamp (kv.2)
         then map_delete (kv.1) m else m)
      (Cache.fileCache c) (Cache.fileCache c) in
  Cache.fileCache (cleanupCache now c)
  = if 100 <? map_size fc1
    then fold_left (λ m kv, map_set (kv.1) (kv.2) m)
           (slice_last 50 (js_sort by_timestamp fc1)) []
    else fc1.
Proof. unfold cleanupCache. simpl. by destruct (_ && _). Qed.

Lemma expiry_pass_elem_of (now : Z) (l : jsmap Entry.t) (e : string * Entry.t) :
  e ∈ fold_left
        (λ m kv,
           if Cache.fileCacheTtl <? now - Entry.timestamp (kv.2)
           then map_delete (kv.1) m else m) l l →
  e ∈ l ∧ kept_entry now e = true.
Proof.
  rewrite (fold_delete_filter
             (λ kv, Cache.fileCacheTtl <? now - Entry.timestamp (kv.2))).
  intros He. apply list_elem_of_In, List.filter_In in He as [He Hf].
  split; [by apply list_elem_of_In|].
  unfold kept_entry. destruct (Cache.fileCacheTtl <? _) eqn:Hexp; [|done].
  exfalso. apply negb_true_iff in Hf.
  assert (existsb
            (λ kv, (Cache.fileCacheTtl <? now - Entry.timestamp (kv.2))
                   && String.eqb (kv.1) (e.1)) l = true) as Hex; [|congruence].
  apply existsb_exists. exists e. split; [done|].
  by rewrite Hexp, String.eqb_refl.
Qed.

(** What [cleanupCache] leaves in the file cache. *)
Lemma cleanupCache_fileCache_kept (now : Z) (c : Cache.t) :
  (length (Cache.fileCache (cleanupCache now c)) ≤ 100)%nat
  ∧ ∀ e, e ∈ Cache.fileCache (cleanupCache now c) →
      e ∈ Cache.fileCache c
      ∧ now - Entry.timestamp (e.2) ≤ Cache.fileCacheTtl.
Proof.
  rewrite cleanupCache_fileCache. cbn zeta.
  set (fc1 := fold_left _ (Cache.fileCache c) (Cache.fileCache c)).
  assert (∀ e, e ∈ fc1 →
            e ∈ Cache.fileCache c
            ∧ now - Entry.timestamp (e.2) ≤ Cache.fileCacheTtl) as Hfc1.
  { intros e [He Hk]%expiry_pass_elem_of. split; [done|].
    unfold kept_entry in Hk. apply negb_true_iff, Z.ltb_ge in Hk. lia. }
  destruct (Z.ltb_spec 100 (map_size fc1)) as [Hbig|Hsmall].
  - split.
    + etrans; [apply fold_map_set_length|]. simpl. unfold slice_last.
      rewrite length_skipn. lia.
    + intros e [He|He]%fold_map_set_elem_of; [by apply elem_of_nil in He|].
      apply Hfc1. rewrite <- (js_sort_perm by_timestamp fc1).
      unfold slice_last in He. eapply elem_of_sublist; [exact He|].
      apply sublist_drop.
  - split; [unfold map_size in Hsmall; lia|done].
Qed.

(** X5. After [cleanupCache] the file cache has at most 100 entries, and
    each of them is an entry the cache had before that is not older than the
    file TTL of ten minutes at the time of the cleanup: the cleanup makes up
    no entry and keeps none that has expired. *)
Theorem cleanupCache_bounded (now : Z) (c : Cache.t) :
  (length (Cache.fileCache (cleanupCache now c)) ≤ 100)%nat
  ∧ ∀ e, e ∈ Cache.fileCache (cleanupCache now c) →
      e ∈ Cache.fileCache c
      ∧ now - Entry.timestamp (e.2) ≤ Cache.fileCacheTtl.
Proof. apply cleanupCache_fileCache_kept. Qed.

(** X6. On a file cache with one entry per path, of which at most 100 have
    not expired, [cleanupCache] deletes exactly the entries older than the
    file TTL and keeps the others as they are, in their insertion order. *)
Theorem cleanupCache_expires_old_entries (now : Z) (c : Cache.t) :
  NoDup (map_keys (Cache.fileCache c)) →
  (length (List.filter (kept_entry now) (Cache.fileCache c)) ≤ 100)%nat →
  Cache.fileCache (cleanupCache now c)
  = List.filter (kept_entry now) (Cache.fileCache c).
Proof.
  intros Hnd Hsize. rewrite cleanupCache_fileCache. cbn zeta.
  rewrite (fold_delete_unique_keys
             (λ kv, Cache.fileCacheTtl <? now - Entry.timestamp (kv.2))) by done.
  fold (kept_entry now).
  change (λ e : string * Entry.t,
            negb (Cache.fileCacheTtl <? now - Entry.timestamp (e.2)))
    with (kept_entry now).
  destruct (Z.ltb_spec 100 (map_size (List.filter (kept_entry now)
                                        (Cache.fileCache c)))) as [Hbig|_];
    [|done].
  unfold map_size in Hbig. lia.
Qed.

(** [cleanupCache] keeps the paths of the file cache distinct. *)
Lemma cleanupCache_unique_keys (now : Z) (c : Cache.t) :
  NoDup (map_keys (Cache.fileCache c)) →
  NoDup (map_keys (Cache.fileCache (cleanupCache now c))).
Proof.
  intros Hnd. rewrite cleanupCache_fileCache. cbn zeta.
  destruct (100 <? _).
  - apply fold_map_set_keys_NoDup. apply NoDup_nil_2.
  - rewrite (fold_delete_filter
               (λ kv, Cache.fileCacheTtl <? now - Entry.timestamp (kv.2))).
    by apply filter_keys_NoDup.
Qed.

Lemma cleanupCache_expires_old_entries_witness :
  Cache.fileCache (cleanupCache 700200 sample_cache_three)
  = List.filter (kept_entry 700200) (Cache.fileCache sample_cache_three).
Proof.
  apply (cleanupCache_expires_old_entries 700200 sample_cache_three).
  - apply (bool_decide_unpack _). vm_compute. exact I.
  - simpl. lia.
Defined.

(** X7. [cleanupCache] is idempotent: a second cleanup at the same clock
    reading changes nothing. *)
Theorem cleanupCache_idempotent (now : Z) (c : Cache.t) :
  cleanupCache now (cleanupCache now c) = cleanupCache now c.
Proof.
  destruct (cleanupCache_fileCache_kept now c) as [Hlen Hkept].
  set (c1 := cleanupCache now c) in *.
  assert (Cache.fileCache (cleanupCache now c1) = Cache.fileCache c1) as Hfc.
  { rewrite cleanupCache_fileCache. cbn zeta. rewrite fold_delete_none.
    - destruct (Z.ltb_spec 100 (map_size (Cache.fileCache c1))); [|done].
      unfold map_size in *. lia.
    - apply Forall_forall. intros e He. apply Z.ltb_ge.
      by destruct (Hkept e He). }
  unfold cleanupCache at 1. unfold cleanupCache at 1 in Hfc.
  cbn zeta in *.
  destruct (truthy_num (Cache.timestamp c1)
            && match Cache.timestamp c1 with
               | Some ts => Cache.ttl <? now - ts
               | None => false
               end) eqn:Hexp1.
  - (* the snapshot of [c1] cannot have expired: it was reset or is young *)
    exfalso. subst c1. unfold cleanupCache in Hexp1. cbn zeta in Hexp1.
    destruct (truthy_num (Cache.timestamp c)
              && match Cache.timestamp c with
                 | Some ts => Cache.ttl <? now - ts
                 | None => false
                 end) eqn:Hexp; simpl in Hexp1; congruence.
  - simpl in Hfc. rewrite Hfc. by destruct c1.
Qed.

(** The snapshot slots that [cleanupCache] leaves. *)
Lemma cleanupCache_snapshot (now : Z) (c : Cache.t) :
  let expired :=
    truthy_num (Cache.timestamp c)
    && match Cache.timestamp c with
       | Some ts => Cache.ttl <? now - ts
       | None => false
       end in
  Cache.mcpTools (cleanupCache now c)
  = (if expired then None else Cache.mcpTools c)
  ∧ Cache.customAgents (cleanupCache now c)
    = (if expired then None else Cache.customAgents c)
  ∧ Cache.memoryFiles (cleanupCache now c)
    = (if expired then None else Cache.memoryFiles c)
  ∧ Cache.timestamp (cleanupCache now c)
    = (if expired then None else Cache.timestamp c)
  ∧ Cache.projectPath (cleanupCache now c)
    = (if expired then None else Cache.projectPath c).
Proof. unfold cleanupCache. cbn zeta. by destruct (_ && _). Qed.

(** X8. [cleanupCache] drops the snapshot only when it has expired: for
    every project path, the cleaned cache is valid at the time of the cleanup
    exactly when the cache was. *)
Theorem cleanupCache_keeps_validity (now : Z) (c : Cache.t) (projectPath : string) :
  isCacheValid (cleanupCache now c) now projectPath = isCacheValid c now projectPath.
Proof.
  destruct (cleanupCache_snapshot now c) as (_ & _ & _ & Hts & Hpath).
  unfold isCacheValid. rewrite Hts, Hpath. clear Hts Hpath.
  destruct (Cache.timestamp c) as [ts|]; [|done].
  unfold truthy_num.
  destruct (ts =? 0) eqn:Hzero; destruct (Z.ltb_spec Cache.ttl (now - ts));
    simpl; rewrite ?Hzero; simpl; try done.
  symmetry. apply andb_false_iff. right. apply Z.ltb_ge. lia.
Qed.

(** ** The agents loop of the full analyzer *)

Lemma foldM_app {A B : Type} (f : B → A → M B) (b : B) (l1 l2 : list A) (s : St.t) :
  foldM f b (l1 ++ l2) s
  = match foldM f b l1 s with
    | (Normal b', s') => foldM f b' l2 s'
    | (Throw msg, s') => (Throw msg, s')
    end.
Proof.
  revert b s. induction l1 as [|a l1 IH]; intros b s; simpl; [done|].
  unfold mbind, M_bind. destruct (f b a s) as [[b'|msg] s']; [apply IH|done].
Qed.

Lemma process_batches_all (e : Env.t) (fuel : nat) (dir : string)
    (files : list string) (acc : Z * gmap string Z) (s : St.t) :
  (length files ≤ fuel)%nat →
  process_batches e fuel dir files acc s = foldM (agent_file e dir) acc files s.
Proof.
  revert files acc s. induction fuel as [|fuel IH]; intros files acc s Hlen.
  - destruct files; [done|simpl in Hlen; lia].
  - destruct files as [|file files]; [done|].
    cbn [process_batches]. unfold mbind, M_bind, slice_first.
    change firstn with (@take string). change skipn with (@drop string).
    transitivity (foldM (agent_file e dir) acc
                    (take 5 (file :: files) ++ drop 5 (file :: files)) s);
      [|by rewrite take_drop].
    rewrite foldM_app.
    destruct (foldM (agent_file e dir) acc (take 5 (file :: files)) s)
      as [[acc'|msg] s']; [|done].
    apply IH. rewrite length_drop. simpl in *. lia.
Qed.




Lemma same_answers_refl (s : St.t) : same_answers s s.
Proof. done. Qed.



















Lemma breakdown_sum_insert (b : gmap string Z) (file : string) (tokens : Z) :
  b !! file = None →
  breakdown_sum (<[file := tokens]> b) = tokens + breakdown_sum b.
Proof.
  intros Hfresh. unfold breakdown_sum.
  rewrite map_fold_insert_L; [done| |done].
  intros. lia.
Qed.

(** One agent file: a file that does not end in [.md] changes nothing; one
    that does adds its tokens to the total and to the breakdown. *)
Lemma agent_file_result (e : Env.t) (dir : string) (acc : Z * gmap string Z)
    (file : string) (r : Results.t) (c : Cache.t) :
  ∃ tokens fc,
    agent_file e dir acc file (St.mk r c)
    = (Normal (if endsWith file ".md"
               then (acc.1 + tokens, <[file := tokens]> acc.2) else acc),
       St.mk r (with_fileCache fc c)).
Proof.
  destruct c. unfold agent_file, with_fileCache.
  unfold mbind, M_bind, mret, M_ret, try_catch, throw, get_cache,
    modify_cache, await. simpl.
  destruct (endsWith file ".md"); [|by exists 0; eauto].
  destruct (isFileCacheValid _ _ _) eqn:Hvalid.
  - unfold isFileCacheValid in Hvalid. simpl in Hvalid.
    destruct (map_get _ _); [by eauto|done].
  - destruct (Env.readAgent e file); by eauto.
Qed.

Lemma foldM_agents_sum (e : Env.t) (dir : string) (files : list string)
    (acc : Z * gmap string Z) (r : Results.t) (c : Cache.t) :
  NoDup files →
  (∀ f, f ∈ files → acc.2 !! f = None) →
  breakdown_sum acc.2 = acc.1 →
  ∃ acc' fc,
    foldM (agent_file e dir) acc files (St.mk r c)
    = (Normal acc', St.mk r (with_fileCache fc c))
    ∧ breakdown_sum acc'.2 = acc'.1
    ∧ ∀ f, is_Some (acc'.2 !! f)
           ↔ is_Some (acc.2 !! f) ∨ (f ∈ files ∧ endsWith f ".md" = true).
Proof.
  revert acc c. induction files as [|file files IH]; intros acc c Hnd Hfresh Hsum.
  - exists acc, (Cache.fileCache c). destruct c. repeat split; [done|by left|].
    intros [?|[[]%elem_of_nil _]]; done.
  - apply NoDup_cons in Hnd as [Hfile Hnd].
    destruct (agent_file_result e dir acc file r c) as (tokens & fc & Hstep).
    cbn [foldM]. unfold mbind, M_bind. rewrite Hstep.
    set (acc1 := if endsWith file ".md"
                 then (acc.1 + tokens, <[file := tokens]> acc.2) else acc).
    destruct (IH acc1 (with_fileCache fc c) Hnd) as (acc' & fc' & Hrun & Hsum' & Hdom).
    + intros f Hf. subst acc1. destruct (endsWith file ".md"); simpl.
      * rewrite lookup_insert_ne; [apply Hfresh; by right|]. by intros ->.
      * apply Hfresh. by right.
    + subst acc1. destruct (endsWith file ".md"); simpl; [|done].
      rewrite breakdown_sum_insert; [lia|]. apply Hfresh. left.
    + exists acc', fc'. split; [exact Hrun|]. split; [done|].
      intros f. rewrite Hdom. subst acc1.
      destruct (endsWith file ".md") eqn:Hmd; simpl.
      * destruct (decide (f = file)) as [->|Hne].
        -- rewrite lookup_insert_eq. split; [|by eauto].
           intros _. right. split; [left|done].
        -- rewrite lookup_insert_ne by done. split.
           ++ intros [?|[? ?]]; [by left|right; split; [by right|done]].
           ++ intros [?|[[->|?]%elem_of_cons ?]]; [by left|done|by right].
      * split.
        -- intros [?|[? ?]]; [by left|right; split; [by right|done]].
        -- intros [?|[[->|?]%elem_of_cons ?]]; [by left|congruence|by right].
Qed.

(** X10. When the agents directory can be listed, its entries distinct,
    and the category is not served from a valid snapshot, the method
    [analyzeCustomAgents] gives a breakdown with exactly the listed entries
    that end in [.md], whatever their number, reports the sum of the
    breakdown as the category total, and stores the same total and breakdown
    in the cache. *)
Theorem analyzeCustomAgents_total_is_sum (e : Env.t) (p : Project.t)
    (files : list string) (r : Results.t) (c : Cache.t) :
  Env.agentsDir e = DirListing files →
  NoDup files →
  agents_served e p c = None →
  ∃ r' c' v b,
    analyzeCustomAgents e p (St.mk r c) = (Normal tt, St.mk r' c')
    ∧ Results.customAgents r' = VNum v
    ∧ Breakdown.agents (Results.breakdown r') = Some b
    ∧ Cache.customAgents c' = Some (AgentsCache.mk v b)
    ∧ breakdown_sum b = v
    ∧ ∀ f, is_Some (b !! f) ↔ f ∈ files ∧ endsWith f ".md" = true.
Proof.
  intros Hdir Hnd Hserved.
  destruct (foldM_agents_sum e (path_join (Project.claudeDir p) "agents") files
              (0, ∅) r c Hnd) as ([v b] & fc & Hrun & Hsum & Hdom); [done|done|].
  unfold analyzeCustomAgents. unfold mbind at 1, M_bind at 1.
  rewrite analyzeCustomAgents_sync_run, Hserved.
  unfold analyzeCustomAgents_async, fs_access, fs_readdir. rewrite Hdir.
  unfold mbind, M_bind, mret, M_ret, try_catch, modify_results, modify_cache.
  rewrite process_batches_all by done. rewrite Hrun. simpl.
  eexists _, _, v, b. split; [reflexivity|]. simpl.
  split_and!; try done.
  intros f. rewrite Hdom. simpl. rewrite lookup_empty. split.
  - intros [Hf|Hf]; [by destruct Hf|done].
  - intros Hf. by right.
Qed.

Lemma analyzeCustomAgents_total_is_sum_witness :
  ∃ r' c' v b,
    analyzeCustomAgents sample_env_three_entries sample_project
      (St.mk (Results.initial None) Cache.empty) = (Normal tt, St.mk r' c')
    ∧ Results.customAgents r' = VNum v
    ∧ breakdown_sum b = v.
Proof.
  destruct (analyzeCustomAgents_total_is_sum sample_env_three_entries
              sample_project ["a.md"; "notes.txt"; "b.md"]%string
              (Results.initial None) Cache.empty eq_refl)
    as (r' & c' & v & b & Hrun & Hv & _ & _ & Hsum & _).
  - apply (bool_decide_unpack _). vm_compute. exact I.
  - reflexivity.
  - exists r', c', v, b. by split_and!.
Defined.

(** ** The file cache across two passes *)

Lemma map_get_set {V : Type} (k : string) (v : V) (m : jsmap V) :
  map_get k (map_set k v m) = Some v.
Proof.
  induction m as [|[k' v'] m IH]; simpl.
  - by rewrite String.eqb_refl.
  - destruct (String.eqb k k') eqn:Hk; simpl.
    + by rewrite String.eqb_refl.
    + by rewrite Hk.
Qed.

(** X11. What the agents loop has read it answers from the file cache
    afterwards. Once the loop has read a file that was not validly cached
    and estimated its content, a later pass over the same file within the
    ten minutes of the file TTL adds the same number of tokens and leaves
    the cache as it is, whatever the file holds by then. *)
Theorem agent_file_cache_round_trip (e1 e2 : Env.t) (dir file content : string)
    (acc1 acc2 : Z * gmap string Z) (r : Results.t) (c : Cache.t) :
  endsWith file ".md" = true →
  isFileCacheValid c (Env.now_file e1 file) (path_join dir file) = false →
  Env.readAgent e1 file = Some content →
  Env.now_file e2 file - Env.now_file e1 file < Cache.fileCacheTtl →
  let tokens := estimateTokens content in
  let s1 := (agent_file e1 dir acc1 file (St.mk r c)).2 in
  agent_file e1 dir acc1 file (St.mk r c)
  = (Normal (acc1.1 + tokens, <[file := tokens]> acc1.2), s1)
  ∧ agent_file e2 dir acc2 file s1
    = (Normal (acc2.1 + tokens, <[file := tokens]> acc2.2), s1).
Proof.
  intros Hmd Hinvalid Hread Hyoung tokens s1.
  assert (agent_file e1 dir acc1 file (St.mk r c)
          = (Normal (acc1.1 + tokens, <[file := tokens]> acc1.2),
             St.mk r
               (Cache.mk (Cache.mcpTools c) (Cache.customAgents c)
                  (Cache.memoryFiles c) (Cache.timestamp c)
                  (Cache.projectPath c)
                  (map_set (path_join dir file)
                     (Entry.mk tokens (Env.now_file e1 file))
                     (Cache.fileCache c))))) as Hfirst.
  { unfold agent_file. rewrite Hmd.
    unfold mbind, M_bind, mret, M_ret, try_catch, get_cache, modify_cache, await.
    simpl. by rewrite Hinvalid, Hread. }
  subst s1. rewrite Hfirst. split; [done|]. simpl.
  unfold agent_file. rewrite Hmd.
  unfold mbind, M_bind, mret, M_ret, try_catch, get_cache, modify_cache, await.
  simpl. unfold isFileCacheValid. simpl. rewrite map_get_set. simpl.
  by destruct (Z.ltb_spec (Env.now_file e2 file - Env.now_file e1 file)
                 Cache.fileCacheTtl); [|lia].
Qed.

Lemma agent_file_cache_round_trip_witness :
  (agent_file sample_env_agents_removed "/work/app/.claude/agents" (5, ∅) "a.md"
     (agent_file sample_env_three_entries "/work/app/.claude/agents" (0, ∅)
        "a.md" (St.mk (Results.initial None) Cache.empty)).2).1
  = Normal (5 + estimateTokens "12345678",
            <["a.md"%string := estimateTokens "12345678"]> ∅).
Proof.
  destruct (agent_file_cache_round_trip sample_env_three_entries
              sample_env_agents_removed "/work/app/.claude/agents" "a.md"
              "12345678" (0, ∅) (5, ∅) (Results.initial None) Cache.empty
              eq_refl eq_refl eq_refl eq_refl) as [_ Hsecond].
  by rewrite Hsecond.
Defined.

(** ** Runs that follow each other *)

Section Slots.
Variable e : Env.t.
Variable p : Project.t.

Local Arguments cleanupCache : simpl never.
Local Arguments isCacheValid : simpl never.
Local Arguments isFileCacheValid : simpl never.
Local Arguments mcp_loop : simpl never.
Local Arguments estimateTokens : simpl never.
Local Arguments path_join : simpl never.
Local Arguments endsWith : simpl never.

Lemma analyzeMemoryFiles_sync_slot (r : Results.t) (c : Cache.t) :
  analyzeMemoryFiles_sync e p (St.mk r c)
  = match memory_served e p c with
    | Some tokens =>
        (Normal true,
         St.mk (Results.set_memoryFiles (VNum tokens) r)
           (Cache.mk (Cache.mcpTools c) (Cache.customAgents c) (Some tokens)
              (Cache.timestamp c) (Cache.projectPath c) (Cache.fileCache c)))
    | None => (Normal false, St.mk r c)
    end.
Proof.
  unfold analyzeMemoryFiles_sync, memory_served. run.
  destruct (isCacheValid _ _ _ && truthy_num _) eqn:Hsnap.
  - destruct c as [? ? mf ? ? ?]. simpl in *. by destruct mf.
  - destruct (isFileCacheValid _ _ _) eqn:Hfile; [|done].
    by destruct (map_get _ _) as [cachedData|].
Qed.

Local Arguments analyzeMcpTools_sync : simpl never.
Local Arguments analyzeCustomAgents_sync : simpl never.
Local Arguments analyzeMemoryFiles_sync : simpl never.
Local Arguments analyzeMcpTools_async : simpl never.
Local Arguments analyzeCustomAgents_async : simpl never.
Local Arguments analyzeCustomAgents_partial : simpl never.
Local Arguments analyzeMemoryFiles_async : simpl never.
Local Arguments initialize : simpl never.
Local Arguments Results.sum_of_categories : simpl never.
Local Arguments recommendations : simpl never.

(** The agents slot and the memory slot of the cache after a run. *)
Lemma analyze_run_slots (given : option Project.t) (c : Cache.t) :
  resolved e given = Some p →
  let c0 := cleanupCache (Env.now_cleanup e) c in
  ∃ r c',
    run_analyze e given c = (Normal r, St.mk r c')
    ∧ match agents_served e p c0 with
      | Some _ => Cache.customAgents c' = Cache.customAgents c0
      | None =>
          match Env.agents_pending e with
          | Some _ => Cache.customAgents c' = Cache.customAgents c0
          | None =>
              match Env.agentsDir e with
              | DirListing _ =>
                  ∃ a, Cache.customAgents c' = Some a
                       ∧ Results.customAgents r = VNum (AgentsCache.total a)
              | _ => Cache.customAgents c' = Cache.customAgents c0
              end
          end
      end
    ∧ Cache.memoryFiles c'
      = match memory_served e p c0 with
        | Some tokens => Some tokens
        | None =>
            match Env.readMemory e with
            | Some content => Some (estimateTokens content)
            | None => Cache.memoryFiles c0
            end
        end.
Proof.
  intros Hres c0. unfold run_analyze, analyze.
  unfold mbind at 1, M_bind at 1. rewrite (initialize_run e p given c Hres). fold c0.
  unfold analyzeSystemPrompt, analyzeSystemTools, generateOptimizationRecommendations.
  do 4 run.
  rewrite analyzeMcpTools_sync_run.
  destruct (mcp_served e p c0) as [m|] eqn:Hmcp;
    rewrite analyzeCustomAgents_sync_run;
    destruct (agents_served e p c0) as [a|] eqn:Hagents;
    rewrite analyzeMemoryFiles_sync_slot;
    destruct (memory_served e p c0) as [tokens|] eqn:Hmemory; simpl.
  all: destruct (Env.mcp_pending e); simpl;
    rewrite ?analyzeMcpTools_async_run;
    destruct (settings_servers e) as [names|]; simpl.
  all: destruct (Env.agents_pending e) as [n|]; simpl;
    repeat match goal with
    | |- context [analyzeCustomAgents_partial e p ?n (St.mk ?r ?c)] =>
        destruct (analyzeCustomAgents_partial_shape e p n r c) as [fc ->]; simpl
    | |- context [analyzeCustomAgents_async e p (St.mk ?r ?c)] =>
        destruct (analyzeCustomAgents_async_shape e p r c)
          as (v & b & ac & fc & -> & Hdir); simpl
    end.
  all: rewrite ?analyzeMemoryFiles_async_run;
    destruct (Env.readMemory e) as [content|]; simpl.
  all: eexists _, _; (split; [reflexivity|]); simpl.
  all: try (destruct (Env.agentsDir e); simpl in *; destruct_and?; subst).
  all: split; try done.
  all: by eexists.
Qed.
End Slots.

(** A snapshot stored for [root] at [ts] is still there, and valid, at the
    launch of a later run that starts within the TTL. *)
Lemma snapshot_survives (c1 : Cache.t) (e2 : Env.t) (root : string) (ts : Z) :
  Cache.timestamp c1 = Some ts →
  Cache.projectPath c1 = Some root →
  ts ≠ 0 →
  Env.now_cleanup e2 - ts ≤ Cache.ttl →
  Env.now_launch e2 - ts < Cache.ttl →
  let c0 := cleanupCache (Env.now_cleanup e2) c1 in
  isCacheValid c0 (Env.now_launch e2) root = true
  ∧ Cache.mcpTools c0 = Cache.mcpTools c1
  ∧ Cache.customAgents c0 = Cache.customAgents c1
  ∧ Cache.memoryFiles c0 = Cache.memoryFiles c1.
Proof.
  intros Hts Hpath Hnz Hclean Hlaunch c0.
  destruct (cleanupCache_snapshot (Env.now_cleanup e2) c1)
    as (Hm & Ha & Hmem & Hts' & Hpath').
  fold c0 in Hm, Ha, Hmem, Hts', Hpath'.
  rewrite Hts in *. unfold truthy_num in *.
  assert ((ts =? 0) = false) as Hz by by apply Z.eqb_neq.
  assert ((Cache.ttl <? Env.now_cleanup e2 - ts) = false) as Hexp
    by (apply Z.ltb_ge; lia).
  rewrite Hz, Hexp in *. simpl in *.
  split_and!; try done.
  unfold isCacheValid. rewrite Hts', Hpath', Hpath. unfold truthy_num.
  rewrite Hz. simpl. rewrite bool_decide_eq_true_2 by done. simpl.
  by apply Z.ltb_lt.
Qed.

(** X12. A second run repeats the first. After a run to which nothing was
    served from the cache and which read the enabled servers, listed the
    agents directory and read a memory file that is not empty, all before
    the deadline, a run on the same project that starts within the five
    minutes of the TTL reports the same MCP, agents and memory numbers and
    the same total, whatever the settings, the agents directory and the
    memory file have become. *)
Theorem second_run_repeats_first (e1 e2 : Env.t) (p : Project.t)
    (given1 given2 : option Project.t) (c : Cache.t)
    (names files : list string) (content : string) :
  resolved e1 given1 = Some p →
  resolved e2 given2 = Some p →
  let c0 := cleanupCache (Env.now_cleanup e1) c in
  mcp_served e1 p c0 = None →
  agents_served e1 p c0 = None →
  memory_served e1 p c0 = None →
  Env.mcp_pending e1 = false →
  Env.agents_pending e1 = None →
  settings_servers e1 = Some names →
  Env.agentsDir e1 = DirListing files →
  Env.readMemory e1 = Some content →
  estimateTokens content ≠ 0 →
  Env.now_mcp e1 ≠ 0 →
  Env.now_cleanup e2 - Env.now_mcp e1 ≤ Cache.ttl →
  Env.now_launch e2 - Env.now_mcp e1 < Cache.ttl →
  ∃ r1 c1 r2 c2,
    run_analyze e1 given1 c = (Normal r1, St.mk r1 c1)
    ∧ run_analyze e2 given2 c1 = (Normal r2, St.mk r2 c2)
    ∧ Results.mcpTools r2 = Results.mcpTools r1
    ∧ Results.customAgents r2 = Results.customAgents r1
    ∧ Results.memoryFiles r2 = Results.memoryFiles r1
    ∧ Results.total r2 = Results.total r1.
Proof.
  intros Hres1 Hres2 c0 Hmcp Hagents Hmemory Hp1 Hp2 Hsettings Hdir Hread
    Htokens Hnz Hclean Hlaunch.
  destruct (analyze_run e1 p given1 c Hres1)
    as (r1 & c1 & Hrun1 & Hsp1 & Hst1 & Hmcp1 & _ & Hmem1 & Htot1 & Hslots1).
  destruct (analyze_run_slots e1 p given1 c Hres1)
    as (r1' & c1' & Hrun1' & Hag1 & Hmemslot1).
  rewrite Hrun1 in Hrun1'. simplify_eq.
  fold c0 in Hmcp1, Hmem1, Hslots1, Hag1, Hmemslot1.
  rewrite Hmcp, Hp1, Hsettings in Hmcp1, Hslots1.
  rewrite Hagents, Hp2, Hdir in Hag1.
  rewrite Hmemory, Hread in Hmem1, Hmemslot1.
  destruct Hslots1 as (Hm1 & Hts1 & Hpath1). destruct Hag1 as (a & Ha1 & Hav1).
  destruct (snapshot_survives c1' e2 (Project.projectRoot p) (Env.now_mcp e1)
              Hts1 Hpath1 Hnz Hclean Hlaunch) as (Hvalid & Hm2 & Ha2 & Hmem2).
  destruct (analyze_run e2 p given2 c1' Hres2)
    as (r2 & c2 & Hrun2 & Hsp2 & Hst2 & Hmcp2 & Hag2 & Hmemf2 & Htot2 & _).
  unfold mcp_served, agents_served, memory_served in Hmcp2, Hag2, Hmemf2.
  assert (truthy_num (Some (estimateTokens content)) = true) as Htruthy.
  { unfold truthy_num. by apply negb_true_iff, Z.eqb_neq. }
  rewrite Hvalid in Hmcp2, Hag2, Hmemf2.
  rewrite Hm2, Hm1 in Hmcp2. rewrite Ha2, Ha1 in Hag2.
  rewrite Hmem2, Hmemslot1, Htruthy in Hmemf2. simpl in Hmemf2.
  exists r1', c1', r2, c2. split_and!; try done; try congruence.
  rewrite Htot1, Htot2. unfold Results.sum_of_categories. congruence.
Qed.

Lemma second_run_repeats_first_witness :
  ∃ r1 c1 r2 c2,
    run_analyze sample_env_complete None Cache.empty = (Normal r1, St.mk r1 c1)
    ∧ run_analyze sample_env_agents_removed None c1 = (Normal r2, St.mk r2 c2)
    ∧ Results.total r2 = Results.total r1.
Proof.
  destruct (second_run_repeats_first sample_env_complete
              sample_env_agents_removed sample_project None None Cache.empty
              ["fetch"; "sequential-thinking"]%string ["a0.md"%string]
              "# Project notes" eq_refl eq_refl eq_refl eq_refl eq_refl
              eq_refl eq_refl eq_refl eq_refl eq_refl)
    as (r1 & c1 & r2 & c2 & Hrun1 & Hrun2 & _ & _ & _ & Htotal).
  - vm_compute. discriminate.
  - vm_compute. discriminate.
  - vm_compute. discriminate.
  - reflexivity.
  - exists r1, c1, r2, c2. by split_and!.
Defined.

(** X13. The agents entry of the snapshot is not bound to its project. When
    the cache holds an agents entry under a snapshot that has not expired
    and belongs to another project, a run on a project without agents
    directory reports 0 for the agents, but its MCP analyzer stamps the
    snapshot with this project and the agents entry stays: the next run on
    this project within the TTL reports the agents total of the other
    project. *)
Theorem agents_entry_outlives_project (e1 e2 : Env.t) (p : Project.t)
    (given1 given2 : option Project.t) (c : Cache.t) (a : AgentsCache.t)
    (ts : Z) (names : list string) :
  resolved e1 given1 = Some p →
  resolved e2 given2 = Some p →
  Cache.customAgents c = Some a →
  Cache.timestamp c = Some ts →
  Env.now_cleanup e1 - ts ≤ Cache.ttl →
  Cache.projectPath c ≠ Some (Project.projectRoot p) →
  Env.mcp_pending e1 = false →
  settings_servers e1 = Some names →
  Env.agents_pending e1 = None →
  Env.agentsDir e1 = DirMissing →
  Env.now_mcp e1 ≠ 0 →
  Env.now_cleanup e2 - Env.now_mcp e1 ≤ Cache.ttl →
  Env.now_launch e2 - Env.now_mcp e1 < Cache.ttl →
  ∃ r1 c1 r2 c2,
    run_analyze e1 given1 c = (Normal r1, St.mk r1 c1)
    ∧ run_analyze e2 given2 c1 = (Normal r2, St.mk r2 c2)
    ∧ Results.customAgents r1 = VNum 0
    ∧ Results.customAgents r2 = VNum (AgentsCache.total a).
Proof.
  intros Hres1 Hres2 Hagents Hts Hfresh Hother Hp1 Hsettings Hp2 Hdir Hnz
    Hclean Hlaunch.
  destruct (cleanupCache_snapshot (Env.now_cleanup e1) c)
    as (_ & Ha0 & _ & _ & Hpath0).
  rewrite Hts in Ha0, Hpath0.
  assert ((Cache.ttl <? Env.now_cleanup e1 - ts) = false) as Hexp
    by (apply Z.ltb_ge; lia).
  rewrite Hexp, andb_false_r in Ha0, Hpath0.
  assert (isCacheValid (cleanupCache (Env.now_cleanup e1) c) (Env.now_launch e1)
            (Project.projectRoot p) = false) as Hinvalid.
  { unfold isCacheValid. rewrite Hpath0, bool_decide_eq_false_2 by done.
    by rewrite andb_false_r. }
  destruct (analyze_run e1 p given1 c Hres1)
    as (r1 & c1 & Hrun1 & _ & _ & _ & Hag1 & _ & _ & Hslots1).
  destruct (analyze_run_slots e1 p given1 c Hres1)
    as (r1' & c1' & Hrun1' & Hslot1 & _).
  rewrite Hrun1 in Hrun1'. simplify_eq.
  unfold mcp_served, agents_served in Hag1, Hslots1, Hslot1.
  rewrite Hinvalid in Hag1, Hslots1, Hslot1.
  rewrite Hp1, Hsettings in Hslots1. rewrite Hp2, Hdir in Hag1, Hslot1.
  destruct Hslots1 as (_ & Hts1 & Hpath1). destruct Hag1 as (Hzero & _).
  destruct (snapshot_survives c1' e2 (Project.projectRoot p) (Env.now_mcp e1)
              Hts1 Hpath1 Hnz Hclean Hlaunch) as (Hvalid & _ & Ha2 & _).
  destruct (analyze_run e2 p given2 c1' Hres2)
    as (r2 & c2 & Hrun2 & _ & _ & _ & Hag2 & _).
  unfold agents_served in Hag2.
  rewrite Hvalid, Ha2, Hslot1, Ha0, Hagents in Hag2.
  by exists r1', c1', r2, c2.
Qed.

Lemma agents_entry_outlives_project_witness :
  let c := St.cache (run_analyze sample_env_agents_and_servers None Cache.empty).2 in
  Cache.projectPath c = Some "/work/app"%string
  ∧ Env.agentsDir sample_env_other_project = DirMissing
  ∧ Env.agentsDir sample_env_other_project_again = DirMissing
  ∧ ∃ r1 c1 r2 c2,
      run_analyze sample_env_other_project None c = (Normal r1, St.mk r1 c1)
      ∧ run_analyze sample_env_other_project_again None c1
        = (Normal r2, St.mk r2 c2)
      ∧ Results.customAgents r1 = VNum 0
      ∧ Results.customAgents r2 = VNum 2.
Proof.
  intros c. split_and!; [reflexivity..|].
  refine (agents_entry_outlives_project sample_env_other_project
            sample_env_other_project_again sample_other_project None None c
            (AgentsCache.mk 2 _) 1001 ["fetch"%string] eq_refl eq_refl _ _ _ _
            eq_refl eq_refl eq_refl eq_refl _ _ _).
  - vm_compute. reflexivity.
  - reflexivity.
  - vm_compute. discriminate.
  - vm_compute. discriminate.
  - vm_compute. discriminate.
  - vm_compute. discriminate.
  - reflexivity.
Defined.

(** ** Input validation and error sanitising *)

Lemma remove_chars_clean (class : list Ascii.ascii) (s : string) :
  Forall (λ ch, ch ∉ class) (String.list_ascii_of_string (remove_chars class s)).
Proof.
  induction s as [|ch s IH]; simpl; [constructor|].
  case_bool_decide; [done|]. simpl. by constructor.
Qed.

Lemma remove_chars_fixed (class : list Ascii.ascii) (s : string) :
  Forall (λ ch, ch ∉ class) (String.list_ascii_of_string s) →
  remove_chars class s = s.
Proof.
  induction s as [|ch s IH]; simpl; [done|].
  intros [Hch Hs]%Forall_cons. rewrite bool_decide_eq_false_2 by done.
  by rewrite IH.
Qed.

Lemma remove_chars_idempotent (class : list Ascii.ascii) (s : string) :
  remove_chars class (remove_chars class s) = remove_chars class s.
Proof. apply remove_chars_fixed, remove_chars_clean. Qed.

Lemma remove_chars_sublist (class : list Ascii.ascii) (s : string) :
  sublist (String.list_ascii_of_string (remove_chars class s))
          (String.list_ascii_of_string s).
Proof.
  induction s as [|ch s IH]; simpl; [done|].
  case_bool_decide; simpl; by constructor.
Qed.

(** [s.includes(c)] for a single character [c]. *)
Lemma includes_char (s : string) (c : Ascii.ascii) :
  includes s (String c "") = true ↔ c ∈ String.list_ascii_of_string s.
Proof.
  induction s as [|ch s IH]; simpl.
  - split; [done|]. by intros ?%elem_of_nil.
  - rewrite orb_true_iff, IH, elem_of_cons.
    destruct (Ascii.ascii_dec c ch) as [->|Hne].
    + split; [by left|]. intros _. left. by destruct s.
    + split; [intros [?|?]; [done|by right]|intros [?|?]; [done|by right]].
Qed.

Lemma includes_char_sublist (s t : string) (c : Ascii.ascii) :
  sublist (String.list_ascii_of_string t) (String.list_ascii_of_string s) →
  includes s (String c "") = false → includes t (String c "") = false.
Proof.
  intros Hsub Hs. apply not_true_is_false. intros Ht%includes_char.
  apply not_true_iff_false in Hs. apply Hs, includes_char.
  by eapply elem_of_sublist.
Qed.

Lemma validatePath_shape (s t : string) :
  InputValidator.validatePath (Str s) = Normal t →
  t = remove_chars InputValidator.dangerous s
  ∧ includes s (String char_nul "") = false
  ∧ includes s "%00" = false
  ∧ includes t "../" = false
  ∧ includes t (".." +:+ String char_backslash "") = false.
Proof.
  intros Hok. unfold InputValidator.validatePath in Hok. cbn zeta in Hok.
  destruct (includes s (String char_nul "")) eqn:Hnul; [done|].
  destruct (includes s "%00") eqn:Hpct; [done|]. cbn [orb] in Hok.
  destruct (includes (remove_chars _ s) "../") eqn:Hup; [done|].
  destruct (includes (remove_chars _ s) (_ +:+ _)) eqn:Hback; [done|].
  cbn [orb] in Hok. by simplify_eq.
Qed.

(** X14. A path that [validatePath] accepts comes back with the characters
    [<], [>], [:], [|], [?], the asterisk and the double quote removed and
    nothing else changed: the result is the input without every occurrence
    of these characters. It keeps the other characters in their order, holds
    none of the removed characters and no NUL, contains neither [../] nor
    two dots before a backslash, and is the input itself when the input has
    none of the removed characters. *)
Theorem validatePath_result_clean (s t : string) :
  InputValidator.validatePath (Str s) = Normal t →
  t = remove_chars InputValidator.dangerous s
  ∧ sublist (String.list_ascii_of_string t) (String.list_ascii_of_string s)
  ∧ Forall (λ ch, ch ∉ char_nul :: InputValidator.dangerous)
      (String.list_ascii_of_string t)
  ∧ includes t "../" = false
  ∧ includes t (".." +:+ String char_backslash "") = false
  ∧ (Forall (λ ch, ch ∉ InputValidator.dangerous)
       (String.list_ascii_of_string s) → t = s).
Proof.
  intros (-> & Hnul & _ & Hup & Hback)%validatePath_shape.
  split_and!;
    [done|apply remove_chars_sublist| |done|done|apply remove_chars_fixed].
  pose proof (remove_chars_clean InputValidator.dangerous s) as Hclean.
  pose proof (includes_char_sublist s _ char_nul
                (remove_chars_sublist InputValidator.dangerous s) Hnul) as Hnul'.
  apply not_true_iff_false in Hnul'.
  apply Forall_forall. intros ch Hch [->|Hd]%elem_of_cons.
  - by apply Hnul', includes_char.
  - by eapply Forall_forall in Hclean.
Qed.

Lemma validatePath_result_clean_witness :
  InputValidator.validatePath (Str "/work/app/a:b?.md") = Normal "/work/app/ab.md"%string
  ∧ "/work/app/ab.md"%string
    = remove_chars InputValidator.dangerous "/work/app/a:b?.md"
  ∧ includes "/work/app/ab.md" "../" = false.
Proof.
  split; [reflexivity|].
  by destruct (validatePath_result_clean "/work/app/a:b?.md" "/work/app/ab.md"
                 eq_refl) as (Hremoved & _ & _ & Hup & _).
Defined.

(** X15. Validating an accepted path again gives the same path or throws.
    The characters are removed after the test for [%00], so an accepted path
    can hold [%00], as the answer to [%<00] does; the second validation then
    rejects the path that the first one returned. *)
Theorem validatePath_revalidation (s t : string) :
  InputValidator.validatePath (Str s) = Normal t →
  InputValidator.validatePath (Str t)
  = if includes t "%00" then Throw "Path contains null bytes" else Normal t.
Proof.
  intros (-> & Hnul & _ & Hup & Hback)%validatePath_shape.
  unfold InputValidator.validatePath at 1. cbn zeta.
  rewrite remove_chars_idempotent, Hup, Hback.
  rewrite (includes_char_sublist s _ char_nul
             (remove_chars_sublist InputValidator.dangerous s) Hnul).
  by destruct (includes _ "%00").
Qed.

Lemma validatePath_revalidation_witness :
  InputValidator.validatePath (Str "/work/%<00") = Normal "/work/%00"%string
  ∧ InputValidator.validatePath (Str "/work/%00") = Throw "Path contains null bytes".
Proof.
  split; [reflexivity|].
  exact (validatePath_revalidation "/work/%<00" "/work/%00" eq_refl).
Defined.

(** X16. The arguments that [SafeCommandExecutor] passes on. Sanitising a
    list of arguments throws exactly when one of them is not a string;
    otherwise it answers one string per argument, none of which holds a
    character of the removed class, and sanitising the answer again changes
    nothing. *)
Theorem sanitizeArgs_clean (args : list argument) :
  match SafeCommandExecutor.sanitizeArgs args with
  | Normal safeArgs =>
      (NotAString ∉ args)
      ∧ length safeArgs = length args
      ∧ Forall (λ safe,
                  Forall (λ ch, ch ∉ SafeCommandExecutor.shell_characters)
                    (String.list_ascii_of_string safe))
          safeArgs
      ∧ SafeCommandExecutor.sanitizeArgs (Str <$> safeArgs) = Normal safeArgs
  | Throw message =>
      NotAString ∈ args ∧ message = "Argument must be a string"%string
  end.
Proof.
  induction args as [|arg args IH].
  { split_and!; [apply not_elem_of_nil|done|constructor|done]. }
  cbn [SafeCommandExecutor.sanitizeArgs].
  destruct arg as [s|]; simpl.
  - destruct (SafeCommandExecutor.sanitizeArgs args) as [safeArgs|message].
    + destruct IH as (Hstr & Hlen & Hclean & Hfix). split_and!.
      * by intros [?|?]%elem_of_cons.
      * simpl. by rewrite Hlen.
      * constructor; [apply remove_chars_clean|done].
      * cbn [fmap list_fmap SafeCommandExecutor.sanitizeArgs
             SafeCommandExecutor.sanitizeArg].
        fold (@fmap list _ string argument Str safeArgs).
        by rewrite Hfix, remove_chars_idempotent.
    + destruct IH as [Hin ->]. split; [by right|done].
  - split; [left|done].
Qed.

Lemma safeMessages_inherited (k : string) :
  k ∈ object_prototype_keys → SecureErrorHandler.safeMessages !! k = None.
Proof.
  intros Hk. unfold object_prototype_keys in Hk.
  repeat (apply elem_of_cons in Hk as [->|Hk]; [by vm_compute|]).
  by apply elem_of_nil in Hk.
Qed.

(** X17. What [sanitizeError] discloses is one of the thirteen messages of
    its table, never the text of the error, unless the code of the error is
    the name of a property that every object inherits ([constructor],
    [toString], ...): then the [error] field is that inherited property
    and not a message. *)
Theorem sanitizeError_safe (err : SecureErrorHandler.error) :
  if ContextCommand.truthy_str (SecureErrorHandler.code err)
     && bool_decide (default ""%string (SecureErrorHandler.code err)
                     ∈ object_prototype_keys)
  then SecureErrorHandler.sanitizeError err = Inherited
  else ∃ k text,
         SecureErrorHandler.safeMessages !! k = Some text
         ∧ SecureErrorHandler.sanitizeError err = Own text.
Proof.
  unfold SecureErrorHandler.sanitizeError, SecureErrorHandler.errorCode.
  destruct err as [code message]. cbn [SecureErrorHandler.code SecureErrorHandler.message].
  assert (∀ k, (k = "PATH_TRAVERSAL" ∨ k = "INVALID_INPUT" ∨ k = "TIMEOUT"
                ∨ k = "BUFFER_EXCEEDED" ∨ k = "COMMAND_NOT_ALLOWED"
                ∨ k = "DEFAULT")%string →
            ∃ k' text, SecureErrorHandler.safeMessages !! k' = Some text
                       ∧ js_get SecureErrorHandler.safeMessages k = Own text)
    as Hconst.
  { intros k Hk. exists k.
    destruct Hk as [-> | [-> | [-> | [-> | [-> | ->]]]]]; eexists; by vm_compute. }
  assert (∃ k' text, SecureErrorHandler.safeMessages !! k' = Some text
            ∧ js_get SecureErrorHandler.safeMessages
                (if ContextCommand.truthy_str message
                 then
                   if includes (default "" message) "traversal"
                   then "PATH_TRAVERSAL"
                   else if includes (default "" message) "validation"
                   then "INVALID_INPUT"
                   else if includes (default "" message) "timeout"
                   then "TIMEOUT"
                   else if includes (default "" message) "buffer"
                   then "BUFFER_EXCEEDED"
                   else if includes (default "" message) "not allowed"
                   then "COMMAND_NOT_ALLOWED"
                   else "DEFAULT"
                 else "DEFAULT")%string = Own text) as Hmessage.
  { apply Hconst. repeat case_match; tauto. }
  destruct (ContextCommand.truthy_str code) eqn:Hcode; [|exact Hmessage].
  cbn [andb]. case_bool_decide as Hin.
  - assert (js_get SecureErrorHandler.safeMessages (default ""%string code)
            = Inherited) as Hget.
    { unfold js_get. rewrite (safeMessages_inherited _ Hin).
      by rewrite bool_decide_eq_true_2. }
    by rewrite Hget.
  - rewrite (js_get_not_inherited _ _ Hin).
    destruct (SecureErrorHandler.safeMessages !! default ""%string code)
      as [text|] eqn:Hown; cbn [SecureErrorHandler.truthy_property].
    + destruct (negb (text =? "")%string); [|exact Hmessage].
      exists (default ""%string code), text.
      by rewrite (js_get_not_inherited _ _ Hin), Hown.
    + exact Hmessage.
Qed.

(** ** The command wrapper *)

(** X18. Once [execute] has stored a report that is not empty for a
    project, a call from any working directory of the same project gives
    that report back unchanged and leaves the stored state alone while fewer
    than two minutes have passed since the report was stored, whatever the
    analyzer would print now. From two minutes on it runs the analyzer again
    and stores what it prints, or answers the fallback and keeps the stored
    state when the analyzer fails. *)
Theorem execute_reuses_report (fs1 fs2 : Fs.t)
    (cwd1 cwd2 claudeDir1 claudeDir2 root : path) (cmd : ContextCommand.t)
    (out : string) (stdout2 : option string) (now1 done1 now2 done2 : Z)
    (fallback : string) :
  CommandLocator.findClaudeDirectory fs1 cwd1 = Some (claudeDir1, root) →
  CommandLocator.findClaudeDirectory fs2 cwd2 = Some (claudeDir2, root) →
  ContextCommand.shouldUseCache cmd now1 (path_string root) = false →
  out ≠ ""%string →
  done1 ≠ 0 →
  ∃ cmd1,
    execute_from fs1 cwd1 cmd (Some out) now1 done1 fallback = (out, cmd1)
    ∧ execute_from fs2 cwd2 cmd1 stdout2 now2 done2 fallback
      = if now2 - done1 <? ContextCommand.cacheTimeout then (out, cmd1)
        else match stdout2 with
             | Some out2 =>
                 (out2,
                  ContextCommand.mk (Some out2) (Some done2)
                    (Some (path_string root)))
             | None => (fallback, cmd1)
             end.
Proof.
  intros Hfound1 Hfound2 Hmiss Hout Hdone.
  unfold execute_from. rewrite Hfound1, Hfound2. simpl.
  rewrite Hmiss. eexists. split; [done|].
  unfold ContextCommand.shouldUseCache. simpl.
  assert ((out =? "")%string = false) as -> by by apply String.eqb_neq.
  assert ((done1 =? 0) = false) as -> by by apply Z.eqb_neq.
  rewrite bool_decide_eq_true_2 by done. simpl.
  by destruct (now2 - done1 <? ContextCommand.cacheTimeout).
Qed.

Lemma execute_reuses_report_witness :
  ∃ cmd1,
    execute_from sample_fs sample_cwd ContextCommand.new (Some "report"%string)
      1000 1500 "fallback"
    = ("report"%string, cmd1)
    ∧ execute_from sample_fs ["app"; "work"]%string cmd1 (Some "changed"%string)
        100000 100500 "fallback"
      = ("report"%string, cmd1).
Proof.
  apply (execute_reuses_report sample_fs sample_fs sample_cwd
           ["app"; "work"]%string [".claude"; "app"; "work"]%string
           [".claude"; "app"; "work"]%string ["app"; "work"]%string
           ContextCommand.new "report" (Some "changed"%string)
           1000 1500 100000 100500 "fallback");
    [reflexivity|reflexivity|reflexivity|discriminate|discriminate].
Defined.

(** ** A run without project *)

(** X19. Started without a directory, [analyze] throws exactly when neither
    the working directory nor any of its ancestors below the file system
    root has a [.claude] directory. It then reports the missing directory,
    leaves the results at their initial values and has done nothing to the
    cache but the cleanup. *)
Theorem analyze_throws_iff_no_claude_directory (fs : Fs.t) (cwd : path) (e : Env.t)
    (c : Cache.t) :
  Env.discovered e = project_of <$> findClaudeDirectory fs cwd →
  run_analyze e None c
  = (Throw "No .claude directory found in current path or parent directories. Run this command from within a Claude Code project.",
     St.mk (Results.initial None) (cleanupCache (Env.now_cleanup e) c))
  ↔ ∀ k, (k < length cwd)%nat →
      Fs.is_directory fs (path_child (drop k cwd) ".claude") = false.
Proof.
  intros Hdiscovered. pose proof (full_locator_spec fs cwd) as Hspec.
  destruct (findClaudeDirectory fs cwd) as [claudePath|]; simpl in Hdiscovered.
  - destruct (analyze_run e (project_of claudePath) None c Hdiscovered)
      as (r & c' & Hrun & _).
    destruct Hspec as (k & Hk & -> & Hdir & _). split.
    + rewrite Hrun. discriminate.
    + intros Hnone. specialize (Hnone k Hk). congruence.
  - split; [done|]. intros _.
    unfold run_analyze, analyze, initialize. rewrite Hdiscovered. by do 4 run.
Qed.

Lemma analyze_throws_iff_no_claude_directory_witness :
  ∃ message,
    (run_analyze sample_env_no_project None sample_cache_three).1 = Throw message.
Proof.
  eexists.
  rewrite (proj2 (analyze_throws_iff_no_claude_directory sample_fs_no_project sample_cwd
                    sample_env_no_project sample_cache_three eq_refl));
    [reflexivity|done].
Defined.

(** ** The two server tables *)

Lemma mcp_step_total (table : gmap string ServerData.t) (acc : McpCache.t)
    (server : string) :
  McpCache.total (mcp_step table acc server)
  = js_add (McpCache.total acc) (step_tokens table server).
Proof. unfold mcp_step, step_tokens. by destruct (js_get table server). Qed.

Lemma mcp_loop_total_steps (table : gmap string ServerData.t) (names : list string) :
  McpCache.total (mcp_loop table names)
  = fold_left (λ total server, js_add total (step_tokens table server)) names
      (VNum 0).
Proof.
  induction names as [|server names IH] using rev_ind; [done|].
  by rewrite mcp_loop_snoc, mcp_step_total, fold_left_app, IH.
Qed.

Lemma step_tokens_agree (server : string) :
  server ∉ table_differences →
  step_tokens mcpToolsData server = step_tokens mcpServers server.
Proof.
  intros Hsame.
  destruct (decide (server ∈ (map_to_list mcpToolsData).*1)) as [Hin|Hout].
  - revert Hsame. 
    assert (Forall (λ n, n ∉ table_differences →
                         step_tokens mcpToolsData n = step_tokens mcpServers n)
              (map_to_list mcpToolsData).*1) as Hall.
    { apply (bool_decide_unpack _). by vm_compute. }
    exact (proj1 (Forall_forall _ _) Hall server Hin).
  - assert (mcpToolsData !! server = None) as Hfull.
    { apply not_elem_of_dom. intros Hdom. apply Hout.
      apply elem_of_dom in Hdom as [d Hd].
      apply list_elem_of_fmap. exists (server, d). split; [done|].
      by apply elem_of_map_to_list. }
    assert (mcpServers !! server = None) as Hsimple.
    { destruct (mcpServers !! server) as [d|] eqn:Hd; [|done].
      exfalso. apply Hout.
      assert (Forall (λ kv, kv.1 ∈ (map_to_list mcpToolsData).*1)
                (map_to_list mcpServers)) as Hall.
      { apply (bool_decide_unpack _). by vm_compute. }
      apply elem_of_map_to_list in Hd.
      by eapply Forall_forall in Hall; [|exact Hd]. }
    unfold step_tokens, js_get. by rewrite Hfull, Hsimple.
Qed.

Lemma mcp_tables_agree (names : list string) :
  Forall (λ n, n ∉ table_differences) names →
  McpCache.total (mcp_loop mcpToolsData names)
  = McpCache.total (mcp_loop mcpServers names).
Proof.
  intros Hnames. rewrite !mcp_loop_total_steps.
  generalize (VNum 0). induction Hnames as [|n names Hn Hnames IH]; [done|].
  intros total. simpl. rewrite (step_tokens_agree n Hn). apply IH.
Qed.

(** X20. Reading the same list of enabled servers, the full analyzer, with
    nothing served from the cache and settled before the deadline, and the
    simplified analyzer report the same MCP total whenever none of six
    servers is enabled: [puppeteer] and [mcp-playwright], which the two
    tables count differently, and [byterover-mcp], [zen-mcp-server],
    [claude-flow_Docs] and [Prisma-Local], which the simplified table does
    not have. With one of the six enabled alone the two totals differ. *)
Theorem analyzers_agree_on_mcp (e : Env.t) (p : Project.t) (c : Cache.t)
    (names : list string) :
  Env.discovered e = Some p →
  Env.localSettings e = Some (EnabledServers names) →
  Env.mcp_pending e = false →
  mcp_served e p (cleanupCache (Env.now_cleanup e) c) = None →
  ∃ r c' s,
    run_analyze e None c = (Normal r, St.mk r c')
    ∧ Simple.analyze e = Some s
    ∧ (Forall (λ n, n ∉ table_differences) names →
       Results.mcpTools r = Simple.mcpTools s)
    ∧ (∀ n, names = [n] → n ∈ table_differences →
       Results.mcpTools r ≠ Simple.mcpTools s).
Proof.
  intros Hdiscovered Hsettings Hpending Hserved.
  destruct (analyze_run e p None c Hdiscovered)
    as (r & c' & Hrun & _ & _ & Hmcp & _).
  cbn zeta in Hmcp. rewrite Hserved, Hpending in Hmcp.
  unfold settings_servers in Hmcp. rewrite Hsettings in Hmcp.
  unfold Simple.analyze. rewrite Hdiscovered.
  eexists r, c', _. split; [exact Hrun|]. split; [reflexivity|].
  cbn [Simple.mcpTools]. unfold Simple.analyze_mcp, Simple.read_enabled_servers.
  rewrite Hsettings, Hmcp. cbn [fst]. split.
  - apply mcp_tables_agree.
  - intros n -> Hn. clear Hsettings Hmcp.
    assert (Forall (λ n, McpCache.total (mcp_loop mcpToolsData [n])
                         ≠ McpCache.total (mcp_loop mcpServers [n]))
              table_differences) as Hall.
    { apply (bool_decide_unpack _). by vm_compute. }
    exact (proj1 (Forall_forall _ _) Hall n Hn).
Qed.

Lemma analyzers_agree_on_mcp_witness :
  ∃ r c' s,
    run_analyze sample_env_two_servers None Cache.empty = (Normal r, St.mk r c')
    ∧ Simple.analyze sample_env_two_servers = Some s
    ∧ Results.mcpTools r = Simple.mcpTools s.
Proof.
  destruct (analyzers_agree_on_mcp sample_env_two_servers sample_project
              Cache.empty ["fetch"; "sequential-thinking"]%string
              eq_refl eq_refl eq_refl eq_refl)
    as (r & c' & s & Hrun & Hsimple & Hsame & _).
  exists r, c', s. split_and!; [done|done|].
  apply Hsame. apply (bool_decide_unpack _). by vm_compute.
Defined.

(** ** The MCP breakdown *)

Lemma mcp_breakdown_lookup (table : gmap string ServerData.t) (names : list string)
    (n : string) :
  Forall (λ n, n ∉ object_prototype_keys) names →
  McpCache.breakdown (mcp_loop table names) !! n
  = if decide (n ∈ names) then Some (VNum (server_tokens table n)) else None.
Proof.
  intros Hnames. induction names as [|x names IH] using rev_ind.
  - rewrite decide_False by apply not_elem_of_nil. done.
  - apply Forall_app in Hnames as [Hnames [Hx _]%Forall_cons].
    specialize (IH Hnames). rewrite mcp_loop_snoc.
    assert (McpCache.breakdown (mcp_step table (mcp_loop table names) x)
            = js_set x (VNum (server_tokens table x))
                (McpCache.breakdown (mcp_loop table names))) as ->.
    { unfold mcp_step, server_tokens. rewrite (js_get_not_inherited _ _ Hx).
      by destruct (table !! x). }
    destruct (decide (n = x)) as [->|Hne].
    + rewrite js_set_lookup by done.
      rewrite decide_True; [done|]. apply elem_of_app. right. left.
    + rewrite js_set_lookup_ne by done. rewrite IH.
      destruct (decide (n ∈ names)) as [Hin|Hout].
      * rewrite decide_True; [done|]. apply elem_of_app. by left.
      * rewrite decide_False; [done|].
        intros [?|[?|[]%elem_of_nil]%elem_of_cons]%elem_of_app; done.
Qed.

Lemma breakdown_sum_list (f : string → Z) (l : list string) :
  NoDup l →
  breakdown_sum (list_to_map ((λ n, (n, f n)) <$> l))
  = foldr (λ n acc, f n + acc) 0 l.
Proof.
  induction 1 as [|n l Hn Hnd IH]; [done|].
  cbn [fmap list_fmap list_to_map foldr].
  fold (@fmap list _ string (string * Z) (λ n, (n, f n)) l).
  rewrite breakdown_sum_insert; [by rewrite IH|].
  apply not_elem_of_list_to_map_1. rewrite <- list_fmap_compose.
  by rewrite list_fmap_id.
Qed.

(** X21. The MCP loop on a list of enabled servers none of which bears the
    name of an inherited property: the breakdown has one integer entry per
    enabled name, the total counts every occurrence of a name in the list,
    and the entries of the breakdown add up to the total of the list
    without its repetitions. A server enabled twice raises the total twice
    and the breakdown once. *)
Theorem mcp_breakdown_sums (table : gmap string ServerData.t) (names : list string) :
  Forall (λ n, n ∉ object_prototype_keys) names →
  ∃ b : gmap string Z,
    McpCache.breakdown (mcp_loop table names) = VNum <$> b
    ∧ (∀ n, is_Some (b !! n) ↔ n ∈ names)
    ∧ McpCache.total (mcp_loop table names) = VNum (servers_tokens table names)
    ∧ breakdown_sum b = servers_tokens table (remove_dups names).
Proof.
  intros Hnames.
  set (b := list_to_map ((λ n, (n, server_tokens table n)) <$> remove_dups names)
            : gmap string Z).
  assert (∀ n, b !! n
               = if decide (n ∈ names) then Some (server_tokens table n) else None)
    as Hb.
  { intros n. subst b. destruct (decide (n ∈ names)) as [Hin|Hout].
    - apply elem_of_list_to_map.
      + rewrite <- list_fmap_compose, list_fmap_id. apply NoDup_remove_dups.
      + apply list_elem_of_fmap. exists n. split; [done|].
        by apply elem_of_remove_dups.
    - apply not_elem_of_list_to_map_1.
      rewrite <- list_fmap_compose, list_fmap_id. by rewrite elem_of_remove_dups. }
  exists b. split_and!.
  - apply map_eq. intros n. rewrite lookup_fmap, Hb, mcp_breakdown_lookup by done.
    by destruct (decide (n ∈ names)).
  - intros n. rewrite Hb. destruct (decide (n ∈ names)); [by eauto|].
    split; [by intros []|done].
  - by apply mcp_loop_total.
  - subst b. apply (breakdown_sum_list (server_tokens table)), NoDup_remove_dups.
Qed.

Lemma mcp_breakdown_sums_witness :
  ∃ b : gmap string Z,
    McpCache.breakdown (mcp_loop mcpToolsData ["fetch"; "fetch"]%string)
    = VNum <$> b
    ∧ McpCache.total (mcp_loop mcpToolsData ["fetch"; "fetch"]%string) = VNum 1286
    ∧ breakdown_sum b = 643.
Proof.
  destruct (mcp_breakdown_sums mcpToolsData ["fetch"; "fetch"]%string)
    as (b & Hb & _ & Htotal & Hsum).
  - apply (bool_decide_unpack _). by vm_compute.
  - exists b. split_and!; [done|by rewrite Htotal|by rewrite Hsum].
Defined.
